(** * Budget_app: budget computation and recurring-expense generation

    A shallow embedding of [src/utils/helpers.ts] (date and month helpers,
    aggregation, rollover, recurring generation, CSV export) and of
    [effectiveBudget] from the budget context, together with the parts of
    the JavaScript [Date] object, of [Number] and of date-fns that these
    functions call; and of their callers: the updaters of the categories
    and expenses in the budget context, [nextOccurrence] of
    notifications.ts, the bar data and the donut slices of
    ChartsScreen.tsx and the category card of DashboardScreen.tsx.

    Conventions of the embedding:
    - a JavaScript [number] holding an amount is the exact rational ([Q])
      that the number is, and the arithmetic on amounts is exact; NaN
      and infinities of amounts are not represented. The sums of
      [totalSpent] and [totalByCategory] are modelled a second time in
      [Binary64], with the amounts as binary64 numbers and the addition
      rounding as IEEE 754 has it;
    - a string is a [string] of bytes;
    - an object used as a dictionary is a [gmap] (the prototype chain is
      not represented);
    - an exception is the result [None] of a function into [option]; a
      result that is not represented is [None] as well, and the
      definition says so;
    - the local time zone is a constant offset [tza] from UTC, in
      milliseconds (daylight-saving transitions are not represented). *)

From Stdlib Require Import ZArith QArith Qminmax Qround Qabs Lia Lqa.
From Stdlib Require Import Ascii String List Bool Permutation Sorted.
From Stdlib Require Import SpecFloat.
From stdpp Require Import gmap strings.

Local Open Scope Z_scope.

(** * Strings *)

Module JsString.

Definition dquote : ascii := Ascii.ascii_of_nat 34.
Definition hyphen : ascii := Ascii.ascii_of_nat 45.

(** [s.split(c)] for a one-character separator: never empty. *)
Fixpoint split_go (sep : ascii) (cur : string) (s : string) : list string :=
  match s with
  | EmptyString => [cur]
  | String c s' =>
      if Ascii.eqb c sep then cur :: split_go sep EmptyString s'
      else split_go sep (cur +:+ String c EmptyString) s'
  end.

Definition split (sep : ascii) (s : string) : list string :=
  split_go sep EmptyString s.

(** [s.startsWith(p)] *)
Definition startsWith (s p : string) : bool := String.prefix p s.

(** [s.padStart(n, c)] for a one-character filler. *)
Fixpoint replicate_char (n : nat) (c : ascii) : string :=
  match n with
  | O => EmptyString
  | S k => String c (replicate_char k c)
  end.

Definition padStart (n : nat) (c : ascii) (s : string) : string :=
  replicate_char (n - String.length s) c +:+ s.

(** [l.join(sep)] *)
Definition join (sep : string) (l : list string) : string :=
  String.concat sep l.

(** [s.replace] of every double quote by two double quotes. *)
Fixpoint double_quotes (s : string) : string :=
  match s with
  | EmptyString => EmptyString
  | String c s' =>
      if Ascii.eqb c dquote
      then String dquote (String dquote (double_quotes s'))
      else String c (double_quotes s')
  end.

(** Decimal digits of a non-negative integer, most significant first. *)
Definition digit_char (d : Z) : ascii := Ascii.ascii_of_nat (48 + Z.to_nat d).

Fixpoint digits_go (fuel : nat) (n : Z) (acc : string) : string :=
  let acc' := String (digit_char (n mod 10)) acc in
  match fuel with
  | O => acc'
  | S f => if n <? 10 then acc' else digits_go f (n / 10) acc'
  end.

Definition digits (n : Z) : string :=
  digits_go (Z.to_nat (Z.log2 n)) n EmptyString.

(** [String(n)] for an integer [n]. *)
Definition of_Z (n : Z) : string :=
  if n <? 0 then String hyphen (digits (- n)) else digits n.

(** [s.slice(n)]: the string without its first [n] characters. *)
Fixpoint slice (n : nat) (s : string) : string :=
  match n, s with
  | O, _ => s
  | S k, String _ s' => slice k s'
  | S _, EmptyString => EmptyString
  end.

End JsString.

(** * Numbers read from strings *)

(** The result of [Number(s)]: NaN, an infinity or a finite value. The
    finite value is the exact value of the literal. *)
Inductive number : Type :=
  | NaN
  | Inf (negative : bool)
  | Fin (q : Q).

Module JsNumber.

Definition isNaN (n : number) : bool :=
  match n with NaN => true | _ => false end.

(** [n - 1] *)
Definition pred (n : number) : number :=
  match n with
  | Fin q => Fin (q - 1)
  | other => other
  end.

Definition of_Z (z : Z) : number := Fin (inject_Z z).

(** Truncation towards zero. *)
Definition Qtrunc (q : Q) : Z := Z.quot (Qnum q) (Zpos (Qden q)).

(** ToIntegerOrInfinity, [None] standing for NaN and the infinities
    (every caller below treats the three alike). *)
Definition ToInteger (n : number) : option Z :=
  match n with
  | Fin q => Some (Qtrunc q)
  | _ => None
  end.

(** StrWhiteSpaceChar, ASCII part: TAB, LF, VT, FF, CR, SP. *)
Definition is_space (c : ascii) : bool :=
  let n := Z.of_nat (Ascii.nat_of_ascii c) in
  ((9 <=? n) && (n <=? 13)) || (n =? 32).

Fixpoint trim_left (s : string) : string :=
  match s with
  | String c s' => if is_space c then trim_left s' else s
  | EmptyString => EmptyString
  end.

Definition trim (s : string) : string :=
  String.rev (trim_left (String.rev (trim_left s))).

Definition digit_value (base : Z) (c : ascii) : option Z :=
  let n := Z.of_nat (Ascii.nat_of_ascii c) in
  let v :=
    if (48 <=? n) && (n <=? 57) then n - 48
    else if (97 <=? n) && (n <=? 102) then n - 87
    else if (65 <=? n) && (n <=? 70) then n - 55
    else base in
  if v <? base then Some v else None.

(** Reads the longest prefix of digits in [base]: its value, the number
    of digits read and the rest of the string. *)
Fixpoint read_digits (base : Z) (acc : Z) (count : Z) (s : string)
  : Z * Z * string :=
  match s with
  | String c s' =>
      match digit_value base c with
      | Some v => read_digits base (acc * base + v) (count + 1) s'
      | None => (acc, count, s)
      end
  | EmptyString => (acc, count, s)
  end.

(** NonDecimalIntegerLiteral after its prefix. *)
Definition radix_literal (base : Z) (s : string) : number :=
  match read_digits base 0 0 s with
  | (v, n, EmptyString) => if 0 <? n then of_Z v else NaN
  | _ => NaN
  end.

(** ExponentPart: [e] or [E], an optional sign and digits, up to the end
    of the string. *)
Definition exponent_part (s : string) : option Z :=
  match s with
  | EmptyString => Some 0
  | String c s' =>
      if Ascii.eqb c "e"%char || Ascii.eqb c "E"%char then
        let '(neg, s'') :=
          match s' with
          | String "+" r => (false, r)
          | String "-" r => (true, r)
          | _ => (false, s')
          end in
        match read_digits 10 0 0 s'' with
        | (v, n, EmptyString) =>
            if 0 <? n then Some (if neg then - v else v) else None
        | _ => None
        end
      else None
  end.

Definition scale (mant : Z) (e : Z) : Q :=
  if 0 <=? e then inject_Z (mant * 10 ^ e)
  else Qmake mant (Z.to_pos (10 ^ (- e))).

(** StrUnsignedDecimalLiteral other than [Infinity]. *)
Definition unsigned_decimal (s : string) : option Q :=
  let '(ip, ni, rest) := read_digits 10 0 0 s in
  match rest with
  | String "." rest' =>
      let '(fp, nf, rest'') := read_digits 10 0 0 rest' in
      if (0 <? ni) || (0 <? nf) then
        match exponent_part rest'' with
        | Some e => Some (scale (ip * 10 ^ nf + fp) (e - nf))
        | None => None
        end
      else None
  | _ =>
      if 0 <? ni then
        match exponent_part rest with
        | Some e => Some (scale ip e)
        | None => None
        end
      else None
  end.

Definition signed_decimal (neg : bool) (s : string) : number :=
  if String.eqb s "Infinity" then Inf neg
  else match unsigned_decimal s with
       | Some q => Fin (if neg then - q else q)
       | None => NaN
       end.

(** [Number(s)]: StringToNumber on StringNumericLiteral. *)
Definition Number (s : string) : number :=
  match trim s with
  | EmptyString => of_Z 0
  | String "0" (String "x" r) | String "0" (String "X" r) => radix_literal 16 r
  | String "0" (String "o" r) | String "0" (String "O" r) => radix_literal 8 r
  | String "0" (String "b" r) | String "0" (String "B" r) => radix_literal 2 r
  | String "+" r => signed_decimal false r
  | String "-" r => signed_decimal true r
  | r => signed_decimal false r
  end.

(** [Math.min(a, b)] *)
Definition min (a b : number) : number :=
  match a, b with
  | NaN, _ | _, NaN => NaN
  | Inf true, _ | _, Inf true => Inf true
  | Inf false, x | x, Inf false => x
  | Fin x, Fin y => Fin (Qmin x y)
  end.

(** The decimal digits [s] and the exponent [e] of [s * 10 ^ e], with
    the zeros at the end of [s] moved into the exponent. *)
Fixpoint strip_zeros (fuel : nat) (s e : Z) : Z * Z :=
  match fuel with
  | O => (s, e)
  | S f => if s mod 10 =? 0 then strip_zeros f (s / 10) (e + 1) else (s, e)
  end.

(** [String(x)] for [x] from 10^21 on: the exponential notation, the
    digits with a point after the first one and the exponent. The
    digits are the fewest that give back the number; for an integer
    of at most 15 significant digits these are its own digits. With
    more digits they depend on the neighbouring binary64 numbers and
    are not represented: [None]. *)
Definition exponential (x : Q) : option string :=
  let z := Qfloor x in
  if Qeq_bool x (inject_Z z) then
    let '(s, e) := strip_zeros (Z.to_nat (Z.log2 z)) z 0 in
    match JsString.digits s with
    | String c rest =>
        if (String.length rest <? 15)%nat then
          Some (String c
                  (match rest with
                   | EmptyString => EmptyString
                   | _ => "." +:+ rest
                   end) +:+
                "e+" +:+ JsString.of_Z (e + Z.of_nat (String.length rest)))
        else None
    | EmptyString => None
    end
  else None.

(** [x.toFixed(2)]: a minus sign when [x < 0], and for the absolute
    value, from 10^21 on, [String] of it; below, with n the integer
    for which n / 100 - |x| is closest to zero, the larger one of two,
    the digits of n with a point before the last two. *)
Definition toFixed2 (x : Q) : option string :=
  let sign := if Qle_bool 0 x then EmptyString else "-" in
  if Qle_bool (inject_Z (10 ^ 21)) (Qabs x) then
    m ← exponential (Qabs x); Some (sign +:+ m)
  else
    let n := Qfloor (Qabs x * 100 + (1 # 2))%Q in
    Some (sign +:+
          JsString.of_Z (n / 100) +:+ "." +:+
          JsString.padStart 2 "0" (JsString.of_Z (n mod 100))).

End JsNumber.

(** * The Date object *)

(** A Date holds a time value: milliseconds since 1970-01-01T00:00Z, or NaN
    (an invalid date). *)
Inductive Date : Type :=
  | InvalidDate
  | TimeValue (t : Z).

Module JsDate.

Definition msPerDay : Z := 86400000.
Definition maxTime : Z := 8640000000000000.

Definition Day (t : Z) : Z := t / msPerDay.
Definition TimeWithinDay (t : Z) : Z := t mod msPerDay.

Definition DayFromYear (y : Z) : Z :=
  365 * (y - 1970) + (y - 1969) / 4 - (y - 1901) / 100 + (y - 1601) / 400.

Definition InLeapYear (y : Z) : bool :=
  (y mod 4 =? 0) && (negb (y mod 100 =? 0) || (y mod 400 =? 0)).

(** The year whose days contain day number [d]: an estimate from the mean
    length of a year, corrected by at most one. *)
Definition YearFromDay (d : Z) : Z :=
  let g := 1970 + (d * 400) / 146097 in
  if d <? DayFromYear g then g - 1
  else if DayFromYear (g + 1) <=? d then g + 1
  else g.

(** Number of days of the year before month [m] (0 = January). *)
Definition month_start (leap : bool) (m : Z) : Z :=
  let l := if leap then 1 else 0 in
  match m with
  | 0 => 0
  | 1 => 31
  | 2 => 59 + l
  | 3 => 90 + l
  | 4 => 120 + l
  | 5 => 151 + l
  | 6 => 181 + l
  | 7 => 212 + l
  | 8 => 243 + l
  | 9 => 273 + l
  | 10 => 304 + l
  | 11 => 334 + l
  | _ => 365 + l
  end.

Definition DaysInMonth (y m : Z) : Z :=
  month_start (InLeapYear y) (m + 1) - month_start (InLeapYear y) m.

Definition month_of_yearday (leap : bool) (k : Z) : Z :=
  if k <? month_start leap 1 then 0
  else if k <? month_start leap 2 then 1
  else if k <? month_start leap 3 then 2
  else if k <? month_start leap 4 then 3
  else if k <? month_start leap 5 then 4
  else if k <? month_start leap 6 then 5
  else if k <? month_start leap 7 then 6
  else if k <? month_start leap 8 then 7
  else if k <? month_start leap 9 then 8
  else if k <? month_start leap 10 then 9
  else if k <? month_start leap 11 then 10
  else 11.

Definition MonthFromDay (d : Z) : Z :=
  let y := YearFromDay d in
  month_of_yearday (InLeapYear y) (d - DayFromYear y).

Definition DateFromDay (d : Z) : Z :=
  let y := YearFromDay d in
  let k := d - DayFromYear y in
  k - month_start (InLeapYear y) (month_of_yearday (InLeapYear y) k) + 1.

(** MakeDay: months outside 0..11 carry into the year, days outside the
    month carry into the neighbouring months. *)
Definition MakeDay (year month date : Z) : Z :=
  let ym := year + month / 12 in
  let mn := month mod 12 in
  DayFromYear ym + month_start (InLeapYear ym) mn + date - 1.

Definition MakeTime (h m s ms : Z) : Z :=
  h * 3600000 + m * 60000 + s * 1000 + ms.

Definition MakeDate (day time : Z) : Z := day * msPerDay + time.

Definition TimeClip (t : Z) : Date :=
  if maxTime <? Z.abs t then InvalidDate else TimeValue t.

(** MakeFullYear: years 0..99 stand for 1900..1999. *)
Definition MakeFullYear (y : Z) : Z :=
  if (0 <=? y) && (y <=? 99) then 1900 + y else y.

Definition getTime (d : Date) : option Z :=
  match d with
  | InvalidDate => None
  | TimeValue t => Some t
  end.

Definition isValid (d : Date) : bool :=
  match d with
  | InvalidDate => false
  | TimeValue _ => true
  end.

Definition pad (n : nat) (z : Z) : string :=
  JsString.padStart n "0" (JsString.of_Z z).

(** The year of [toISOString]: four digits, or a sign and six digits. *)
Definition iso_year (y : Z) : string :=
  if (0 <=? y) && (y <=? 9999) then pad 4 y
  else String (if y <? 0 then "-"%char else "+"%char) (pad 6 (Z.abs y)).

(** The text of [toISOString]: the UTC fields of the time value. *)
Definition iso_string (t : Z) : string :=
  let day := Day t in
  let w := TimeWithinDay t in
  iso_year (YearFromDay day) +:+ "-" +:+
  pad 2 (MonthFromDay day + 1) +:+ "-" +:+
  pad 2 (DateFromDay day) +:+ "T" +:+
  pad 2 (w / 3600000) +:+ ":" +:+
  pad 2 (w / 60000 mod 60) +:+ ":" +:+
  pad 2 (w / 1000 mod 60) +:+ "." +:+
  pad 3 (w mod 1000) +:+ "Z".

(** [d.toISOString()]; a RangeError on an invalid date. *)
Definition toISOString (d : Date) : option string :=
  match d with
  | InvalidDate => None
  | TimeValue t => Some (iso_string t)
  end.

(** Exactly [n] decimal digits. *)
Fixpoint read_fixed (n : nat) (acc : Z) (s : string) : option (Z * string) :=
  match n with
  | O => Some (acc, s)
  | S k =>
      match s with
      | String c s' =>
          match JsNumber.digit_value 10 c with
          | Some v => read_fixed k (acc * 10 + v) s'
          | None => None
          end
      | EmptyString => None
      end
  end.

Definition expect (c : ascii) (s : string) : option string :=
  match s with
  | String c' s' => if Ascii.eqb c c' then Some s' else None
  | EmptyString => None
  end.

Definition read_year (s : string) : option (Z * string) :=
  match s with
  | String "+" r => read_fixed 6 0 r
  | String "-" r =>
      '(y, r') ← read_fixed 6 0 r;
      if y =? 0 then None else Some (- y, r')
  | _ => read_fixed 4 0 s
  end.

(** [new Date(s)] on the complete form of the date-time string format,
    the one [toISOString] writes: YYYY-MM-DDTHH:mm:ss.sssZ, the year
    also as a sign and six digits. Element values out of bounds give
    an invalid date. The shorter forms, the forms with a zone offset
    and what engines accept beyond the format are not represented: the
    model makes them invalid. *)
Definition parse (s : string) : Date :=
  let r :=
    '(y, s) ← read_year s;
    s ← expect "-" s;
    '(mo, s) ← read_fixed 2 0 s;
    s ← expect "-" s;
    '(dd, s) ← read_fixed 2 0 s;
    s ← expect "T" s;
    '(hh, s) ← read_fixed 2 0 s;
    s ← expect ":" s;
    '(mi, s) ← read_fixed 2 0 s;
    s ← expect ":" s;
    '(ss, s) ← read_fixed 2 0 s;
    s ← expect "." s;
    '(ms, s) ← read_fixed 3 0 s;
    s ← expect "Z" s;
    if String.eqb s EmptyString
       && (1 <=? mo) && (mo <=? 12)
       && (1 <=? dd) && (dd <=? DaysInMonth y (mo - 1))
       && (hh <=? 23) && (mi <=? 59) && (ss <=? 59)
    then Some (MakeDate (MakeDay y (mo - 1) dd) (MakeTime hh mi ss ms))
    else None in
  match r with
  | Some t => TimeClip t
  | None => InvalidDate
  end.

Section Zone.

(** The offset of local time from UTC, in milliseconds. *)
Variable tza : Z.

Definition LocalTime (t : Z) : Z := t + tza.
Definition UTC (t : Z) : Z := t - tza.

(** [new Date(y, m, d)]: local midnight of the day. *)
Definition make (y m d : number) : Date :=
  match JsNumber.ToInteger y, JsNumber.ToInteger m, JsNumber.ToInteger d with
  | Some yi, Some mi, Some di =>
      TimeClip (UTC (MakeDate (MakeDay (MakeFullYear yi) mi di)
                              (MakeTime 0 0 0 0)))
  | _, _, _ => InvalidDate
  end.

Definition getFullYear (t : Z) : Z := YearFromDay (Day (LocalTime t)).
Definition getMonth (t : Z) : Z := MonthFromDay (Day (LocalTime t)).
Definition getDate (t : Z) : Z := DateFromDay (Day (LocalTime t)).
Definition getTimeOfDay (t : Z) : Z := TimeWithinDay (LocalTime t).

(** [new Date(y, m, d, h, min, s, ms)]: the local date and time. *)
Definition make_time (y m d h mi s ms : number) : Date :=
  match JsNumber.ToInteger y, JsNumber.ToInteger m, JsNumber.ToInteger d,
        JsNumber.ToInteger h, JsNumber.ToInteger mi, JsNumber.ToInteger s,
        JsNumber.ToInteger ms with
  | Some yi, Some mo, Some di, Some hi, Some mii, Some si, Some msi =>
      TimeClip (UTC (MakeDate (MakeDay (MakeFullYear yi) mo di)
                              (MakeTime hi mii si msi)))
  | _, _, _, _, _, _, _ => InvalidDate
  end.

(** [d.setDate(dt)]: the day of the month replaced, in local time, the
    time of day kept. *)
Definition setDate (d : Date) (dt : number) : Date :=
  match d, JsNumber.ToInteger dt with
  | TimeValue t, Some n =>
      let lt := LocalTime t in
      TimeClip (UTC (MakeDate (MakeDay (YearFromDay (Day lt))
                                       (MonthFromDay (Day lt)) n)
                              (TimeWithinDay lt)))
  | _, _ => InvalidDate
  end.

End Zone.

End JsDate.

(** * date-fns *)

Module DateFns.

Import JsDate.

(** [addLeadingZeros(n, len)] *)
Definition addLeadingZeros (n : Z) (len : nat) : string :=
  (if n <? 0 then "-" else EmptyString) +:+ pad len (Z.abs n).

(** The token MMMM in the default locale (en-US). *)
Definition month_name (m : Z) : string :=
  match m with
  | 0 => "January"
  | 1 => "February"
  | 2 => "March"
  | 3 => "April"
  | 4 => "May"
  | 5 => "June"
  | 6 => "July"
  | 7 => "August"
  | 8 => "September"
  | 9 => "October"
  | 10 => "November"
  | _ => "December"
  end.

Section Zone.

Variable tza : Z.

(** The token yyyy (the year of an era: 1 - y when y is not
    positive). *)
Definition fmt_yyyy (t : Z) : string :=
  let y := getFullYear tza t in
  addLeadingZeros (if 0 <? y then y else 1 - y) 4.

Definition fmt_MM (t : Z) : string :=
  addLeadingZeros (getMonth tza t + 1) 2.

Definition fmt_dd (t : Z) : string :=
  addLeadingZeros (getDate tza t) 2.

(** [format(d, 'yyyy-MM')]; a RangeError on an invalid date. *)
Definition format_yyyy_MM (d : Date) : option string :=
  match d with
  | InvalidDate => None
  | TimeValue t => Some (fmt_yyyy t +:+ "-" +:+ fmt_MM t)
  end.

(** [format(d, 'yyyy-MM-dd')] *)
Definition format_yyyy_MM_dd (d : Date) : option string :=
  match d with
  | InvalidDate => None
  | TimeValue t => Some (fmt_yyyy t +:+ "-" +:+ fmt_MM t +:+ "-" +:+ fmt_dd t)
  end.

(** [getDaysInMonth(d)]: NaN on an invalid date. *)
Definition getDaysInMonth (d : Date) : number :=
  match d with
  | InvalidDate => NaN
  | TimeValue t =>
      JsNumber.of_Z (DaysInMonth (getFullYear tza t) (getMonth tza t))
  end.

(** [addMonths(d, n)]: the same day of the month [n] months later, or
    the last day of that month when it is shorter, at the same time of
    day. *)
Definition addMonths (d : Date) (n : Z) : Date :=
  match d with
  | InvalidDate => InvalidDate
  | TimeValue t =>
      let y := getFullYear tza t in
      let m := getMonth tza t + n in
      let dim := DaysInMonth (y + m / 12) (m mod 12) in
      TimeClip (UTC tza (MakeDate (MakeDay y m (Z.min (getDate tza t) dim))
                                  (getTimeOfDay tza t)))
  end.

Definition subMonths (d : Date) (n : Z) : Date := addMonths d (- n).

(** [format(d, 'MMMM yyyy')] *)
Definition format_MMMM_yyyy (d : Date) : option string :=
  match d with
  | InvalidDate => None
  | TimeValue t => Some (month_name (getMonth tza t) +:+ " " +:+ fmt_yyyy t)
  end.

End Zone.

End DateFns.

(** * The data model (types.ts) *)

Module Category.
Record t : Type := mk {
  id : string;
  name : string;
  icon : string;
  color : string;
  budget : Q;
  isFixed : bool;
  rollover : bool
}.
End Category.

Module Expense.
Record t : Type := mk {
  id : string;
  categoryId : string;
  amount : Q;
  note : string;
  date : string;
  isRecurring : bool;
  recurringDayOfMonth : option Z
}.
End Expense.

Abbreviation Category := Category.t.
Abbreviation Expense := Expense.t.
Abbreviation RolloverMap := (gmap string (gmap string Q)).

(** * Month keys and day strings

    The two canonical forms of the application: a month as YYYY-MM and a
    day as YYYY-MM-DD, zero-padded. *)

Definition monthKey (y m : Z) : string :=
  JsDate.pad 4 y +:+ "-" +:+ JsDate.pad 2 m.

Definition dayString (y m d : Z) : string :=
  monthKey y m +:+ "-" +:+ JsDate.pad 2 d.

(** The time value of local midnight on day [d] of month [m] (0 is
    January) of year [y], in the zone of offset [tza]. *)
Definition localMidnight (tza y m d : Z) : Z :=
  JsDate.UTC tza (JsDate.MakeDate (JsDate.MakeDay y m d) 0).

(** The entry that a recurring template stands for in month [m] of year
    [y]: the fields of the template, the id followed by the key of the
    month, the date the timestamp of local midnight of the day of the
    template, or of the last day of the month when the month is shorter. *)
Definition recurringInstance (tza y m : Z) (tmpl : Expense) : Expense :=
  let day :=
    Z.min (default 0 (Expense.recurringDayOfMonth tmpl))
          (JsDate.DaysInMonth y (m - 1)) in
  Expense.mk (Expense.id tmpl +:+ "_" +:+ monthKey y m)
    (Expense.categoryId tmpl) (Expense.amount tmpl) (Expense.note tmpl)
    (JsDate.iso_string (localMidnight tza y (m - 1) day))
    (Expense.isRecurring tmpl) (Expense.recurringDayOfMonth tmpl).

(** Two expenses of the same category, note and amount. *)
Definition sameCombination (a b : Expense) : bool :=
  String.eqb (Expense.categoryId a) (Expense.categoryId b)
  && String.eqb (Expense.note a) (Expense.note b)
  && Qeq_bool (Expense.amount a) (Expense.amount b).

(** The offsets of the time zones in use lie within a day of UTC. *)
Definition zone_ok (tza : Z) : Prop :=
  - JsDate.msPerDay <= tza <= JsDate.msPerDay.

(** * helpers.ts *)

Section Helpers.

(** The offset of local time from UTC, in milliseconds. *)
Variable tza : Z.

Definition newline : string := String (Ascii.ascii_of_nat 10) EmptyString.
Definition quote : string := String JsString.dquote EmptyString.

(** [const [y, m] = monthKey.split('-').map(Number)]: a missing element
    is undefined, which every use below turns into NaN. *)
Definition year_month (monthKey : string) : number * number :=
  let parts := map JsNumber.Number (JsString.split JsString.hyphen monthKey) in
  (nth 0 parts NaN, nth 1 parts NaN).

(** [currentMonth], the clock being the time value [now]. *)
Definition currentMonth (now : Z) : option string :=
  DateFns.format_yyyy_MM tza (TimeValue now).

Definition parseLocalDate (dateStr : string) : option Date :=
  let parts := JsString.split JsString.hyphen dateStr in
  if negb (length parts =? 3)%nat then None
  else
    let nums := map JsNumber.Number parts in
    let y := nth 0 nums NaN in
    let m := nth 1 nums NaN in
    let d := nth 2 nums NaN in
    if JsNumber.isNaN y || JsNumber.isNaN m || JsNumber.isNaN d then None
    else
      let date := JsDate.make tza y (JsNumber.pred m) d in
      match JsDate.getTime date with
      | None => None
      | Some _ => Some date
      end.

Definition prevMonth (monthKey : string) : option string :=
  let '(y, m) := year_month monthKey in
  DateFns.format_yyyy_MM tza
    (DateFns.subMonths tza
       (JsDate.make tza y (JsNumber.pred m) (JsNumber.of_Z 1)) 1).

Definition nextMonth (monthKey : string) : option string :=
  let '(y, m) := year_month monthKey in
  DateFns.format_yyyy_MM tza
    (DateFns.addMonths tza
       (JsDate.make tza y (JsNumber.pred m) (JsNumber.of_Z 1)) 1).

Definition expensesForMonth (expenses : list Expense) (month : string)
  : list Expense :=
  List.filter (λ e, JsString.startsWith (Expense.date e) month) expenses.

Definition totalByCategory (expenses : list Expense) : gmap string Q :=
  fold_left
    (λ acc e,
       <[Expense.categoryId e :=
           (default 0 (acc !! Expense.categoryId e) + Expense.amount e)%Q]> acc)
    expenses ∅.

Definition totalSpent (expenses : list Expense) : Q :=
  fold_left (λ sum e, (sum + Expense.amount e)%Q) expenses 0%Q.

Definition formatAmount (amount : Q) (currency : string) : option string :=
  s ← JsNumber.toFixed2 amount; Some (currency +:+ s).

(** The test of the loop of [generateRecurringForMonth]. *)
Definition alreadyExists (monthExpenses : list Expense) (tmpl : Expense)
  : bool :=
  existsb
    (λ e,
       Expense.isRecurring e
       && String.eqb (Expense.categoryId e) (Expense.categoryId tmpl)
       && String.eqb (Expense.note e) (Expense.note tmpl)
       && Qeq_bool (Expense.amount e) (Expense.amount tmpl))
    monthExpenses.

Definition isTemplate (e : Expense) : bool :=
  Expense.isRecurring e
  && match Expense.recurringDayOfMonth e with Some _ => true | None => false end.

(** The loop over the templates; [newEntries] is the array it pushes
    to. [toISOString] throws on an invalid date. (The source also builds
    the local day string [dateStr] in the loop, and does not use it.) *)
Fixpoint generate_loop (y m daysInMonth : number) (monthKey : string)
    (monthExpenses : list Expense) (templates : list Expense)
    (newEntries : list Expense) : option (list Expense) :=
  match templates with
  | [] => Some newEntries
  | tmpl :: rest =>
      let day :=
        JsNumber.min
          (match Expense.recurringDayOfMonth tmpl with
           | Some r => JsNumber.of_Z r
           | None => NaN
           end) daysInMonth in
      if alreadyExists monthExpenses tmpl
      then generate_loop y m daysInMonth monthKey monthExpenses rest newEntries
      else
        match JsDate.toISOString (JsDate.make tza y (JsNumber.pred m) day) with
        | None => None
        | Some iso =>
            generate_loop y m daysInMonth monthKey monthExpenses rest
              (newEntries ++
               [Expense.mk (Expense.id tmpl +:+ "_" +:+ monthKey)
                  (Expense.categoryId tmpl) (Expense.amount tmpl)
                  (Expense.note tmpl) iso (Expense.isRecurring tmpl)
                  (Expense.recurringDayOfMonth tmpl)])
        end
  end.

Definition generateRecurringForMonth (allExpenses : list Expense)
    (monthKey : string) : option (list Expense) :=
  let '(y, m) := year_month monthKey in
  let daysInMonth :=
    DateFns.getDaysInMonth tza
      (JsDate.make tza y (JsNumber.pred m) (JsNumber.of_Z 1)) in
  let monthExpenses := expensesForMonth allExpenses monthKey in
  let templates := List.filter isTemplate allExpenses in
  generate_loop y m daysInMonth monthKey monthExpenses templates [].

Definition computeRollover (cat : Category) (prevMonthKey : string)
    (allExpenses : list Expense) (rollovers : RolloverMap) : Q :=
  if negb (Category.rollover cat) || Qeq_bool (Category.budget cat) 0 then 0%Q
  else
    match rollovers !! prevMonthKey ≫= (λ r, r !! Category.id cat) with
    | Some stored => stored
    | None =>
        let prevExpenses := expensesForMonth allExpenses prevMonthKey in
        let spent :=
          fold_left (λ s e, (s + Expense.amount e)%Q)
            (List.filter
               (λ e, String.eqb (Expense.categoryId e) (Category.id cat))
               prevExpenses)
            0%Q in
        Qmax (Category.budget cat - spent) 0
    end.

(** The comparator of the sort: the difference of the two time values,
    NaN when one of the dates is invalid. *)
Definition compareByDate (a b : Expense) : option Z :=
  ta ← JsDate.getTime (JsDate.parse (Expense.date a));
  tb ← JsDate.getTime (JsDate.parse (Expense.date b));
  Some (ta - tb).

(** [Array.prototype.sort] is stable, and takes a NaN of the comparator
    for 0: an element goes before the first one that compares greater. *)
Fixpoint sort_insert (x : Expense) (l : list Expense) : list Expense :=
  match l with
  | [] => [x]
  | y :: l' =>
      match compareByDate y x with
      | Some c => if 0 <? c then x :: y :: l' else y :: sort_insert x l'
      | None => y :: sort_insert x l'
      end
  end.

Definition sort (l : list Expense) : list Expense :=
  fold_left (λ acc x, sort_insert x acc) l [].

Definition csvRow (catMap : gmap string Category) (currency : string)
    (e : Expense) : option string :=
  let cat := catMap !! Expense.categoryId e in
  dateStr ← DateFns.format_yyyy_MM_dd tza (JsDate.parse (Expense.date e));
  amount ← JsNumber.toFixed2 (Expense.amount e);
  let note := quote +:+ JsString.double_quotes (Expense.note e) +:+ quote in
  Some (JsString.join ","
          [dateStr;
           match cat with Some c => Category.name c | None => "Unknown" end;
           amount;
           currency;
           note;
           if Expense.isRecurring e then "yes" else "no"]).

Definition buildCSV (expenses : list Expense) (categories : list Category)
    (currency : string) : option string :=
  let catMap :=
    fold_left (λ acc c, <[Category.id c := c]> acc) categories
      (∅ : gmap string Category) in
  let header := "Date,Category,Amount,Currency,Note,Recurring" in
  rows ← mapM (csvRow catMap currency) (sort expenses);
  Some (JsString.join newline (header :: rows)).

(** [effectiveBudget] of the budget context, the state (categories,
    expenses, rollovers) and the clock passed explicitly. *)
Definition effectiveBudget (categories : list Category)
    (expenses : list Expense) (rollovers : RolloverMap) (now : Z)
    (catId : string) : option Q :=
  match find (λ c, String.eqb (Category.id c) catId) categories with
  | None => Some 0%Q
  | Some cat =>
      if Qeq_bool (Category.budget cat) 0 then Some 0%Q
      else
        prev ← currentMonth now ≫= prevMonth;
        Some (Category.budget cat + computeRollover cat prev expenses rollovers)%Q
  end.

(** [dateToString]: the year as it is, month and day in two digits; the
    getters of an invalid date give NaN. *)
Definition dateToString (date : Date) : string :=
  match date with
  | InvalidDate => "NaN-NaN-NaN"
  | TimeValue t =>
      JsString.of_Z (JsDate.getFullYear tza t) +:+ "-" +:+
      JsString.padStart 2 "0" (JsString.of_Z (JsDate.getMonth tza t + 1)) +:+
      "-" +:+
      JsString.padStart 2 "0" (JsString.of_Z (JsDate.getDate tza t))
  end.

(** [todayString], the clock being the time value [now]. *)
Definition todayString (now : Z) : string := dateToString (TimeValue now).

Definition monthLabel (monthKey : string) : option string :=
  let '(y, m) := year_month monthKey in
  DateFns.format_MMMM_yyyy tza
    (JsDate.make tza y (JsNumber.pred m) (JsNumber.of_Z 1)).

End Helpers.

(** * BudgetContext.tsx

    The updaters that the provider passes to [setCategories] and
    [setExpenses]: from the previous array to the next one, which is
    also the array handed to the storage. *)

Module BudgetContext.

Definition addCategory (prev : list Category) (cat : Category)
  : list Category :=
  prev ++ [cat].

Definition updateCategory (prev : list Category) (cat : Category)
  : list Category :=
  map (fun c => if String.eqb (Category.id c) (Category.id cat) then cat else c)
    prev.

Definition deleteCategory (prev : list Category) (id : string)
  : list Category :=
  List.filter (fun c => negb (String.eqb (Category.id c) id)) prev.

Definition addExpense (prev : list Expense) (exp : Expense) : list Expense :=
  prev ++ [exp].

Definition updateExpense (prev : list Expense) (exp : Expense)
  : list Expense :=
  map (fun e => if String.eqb (Expense.id e) (Expense.id exp) then exp else e)
    prev.

Definition deleteExpense (prev : list Expense) (id : string) : list Expense :=
  List.filter (fun e => negb (String.eqb (Expense.id e) id)) prev.

End BudgetContext.

(** * notifications.ts *)

Module Notifications.

Section Zone.

Variable tza : Z.

(** [nextOccurrence], the clock being the time value [now]; the number
    returned is [None] when it is NaN. *)
Definition nextOccurrence (now : Z) (hour minute : number) : option Z :=
  let candidate :=
    JsDate.make_time tza
      (JsNumber.of_Z (JsDate.getFullYear tza now))
      (JsNumber.of_Z (JsDate.getMonth tza now))
      (JsNumber.of_Z (JsDate.getDate tza now))
      hour minute (JsNumber.of_Z 0) (JsNumber.of_Z 0) in
  JsDate.getTime
    match candidate with
    | TimeValue c =>
        if c <=? now
        then JsDate.setDate tza candidate
               (JsNumber.of_Z (JsDate.getDate tza c + 1))
        else candidate
    | InvalidDate => candidate
    end.

End Zone.

End Notifications.

(** [a < b] on amounts. *)
Definition less (a b : Q) : bool := negb (Qle_bool b a).

(** * ChartsScreen.tsx: the bar chart of the last six months and the
    slices of the donut *)

Module Charts.

Record bar : Type := mk_bar { label : string; value : Q }.

Section Zone.

Variable tza : Z.

(** The loop of [barData]: [months.unshift(m); m = prevMonth(m)]. *)
Fixpoint bar_months (i : nat) (m : string) (months : list string)
  : option (list string) :=
  match i with
  | O => Some months
  | S k => m' ← prevMonth tza m; bar_months k m' (m :: months)
  end.

Definition barData (expenses : list Expense) (monthKey : string)
  : option (list bar) :=
  months ← bar_months 6 monthKey [];
  Some (map (fun mk =>
               mk_bar (JsString.slice 5 mk)
                      (totalSpent (expensesForMonth expenses mk)))
            months).

End Zone.

(** [Math.max(...barData.map(d => d.value), 1)] *)
Definition maxBar (data : list bar) : Q := fold_right Qmax 1%Q (map value data).

Definition BAR_H : Q := 140.

Definition barHeight (maxBar : Q) (d : bar) : Q := (value d / maxBar * BAR_H)%Q.

(** A slice of the donut: its category, its share of the total, and the
    two angles handed to [buildArcPath] (the path itself, the position
    of the label and the sines and cosines that they are made with are
    not represented). *)
Record slice : Type := mk_slice {
  cat : Category;
  pct : Q;
  startAngle : Q;
  endAngle : Q
}.

(** The callback of the [map] of [slices], with the variable [angle]
    that it advances. *)
Fixpoint slices_from (spentByCategory : gmap string Q) (total : Q)
    (angle : Q) (cats : list Category) : list slice :=
  match cats with
  | [] => []
  | c :: rest =>
      let pct := (default 0 (spentByCategory !! Category.id c) / total)%Q in
      let sweep := (pct * 360)%Q in
      mk_slice c pct angle (angle + sweep)
      :: slices_from spentByCategory total (angle + sweep)%Q rest
  end.

Definition slices (categories : list Category)
    (spentByCategory : gmap string Q) (total : Q) : list slice :=
  if Qeq_bool total 0 then []
  else
    slices_from spentByCategory total (-90)
      (List.filter
         (fun c => less 0 (default 0%Q (spentByCategory !! Category.id c)))
         categories).

End Charts.

(** * DashboardScreen.tsx: the card of a category *)

Module Dashboard.

Record card : Type := mk_card {
  spent : Q;
  budget : Q;
  hasBudget : bool;
  progress : Q;
  isOver : bool;
  hasRollover : bool;
  width : Q
}.

Section Zone.

Variable tza : Z.

(** The constants that the screen computes for the card of [cat], and
    the width of its progress bar in percent (drawn when [hasBudget]);
    the clock is the time value [now]. *)
Definition categoryCard (categories : list Category)
    (expenses : list Expense) (rollovers : RolloverMap) (now : Z)
    (cat : Category) : option card :=
  month ← currentMonth tza now;
  let monthlyExpenses := expensesForMonth expenses month in
  let spentByCategory := totalByCategory monthlyExpenses in
  let spent := default 0%Q (spentByCategory !! Category.id cat) in
  budget ← effectiveBudget tza categories expenses rollovers now
              (Category.id cat);
  let hasBudget := less 0 budget in
  let progress := if hasBudget then (spent / budget)%Q else 0%Q in
  let isOver := hasBudget && less budget spent in
  let hasRollover :=
    Category.rollover cat && less 0 (Category.budget cat)
    && less (Category.budget cat) budget in
  Some (mk_card spent budget hasBudget progress isOver hasRollover
          (Qmin (progress * 100) 100)).

End Zone.

End Dashboard.

(** * Amounts as binary64 numbers

    The sums of helpers.ts once more, with the amounts as the IEEE 754
    binary64 numbers that they are, and [+] as the addition of binary64
    numbers, which rounds to the nearest one, to the even one of two
    ([SFadd] of the specification of floating-point arithmetic of the
    standard library). *)

Module Binary64.

Definition prec : Z := 53.
Definition emax : Z := 1024.

Definition zero : spec_float := S754_zero false.

(** [x + y] *)
Definition add : spec_float -> spec_float -> spec_float := SFadd prec emax.

(** The number of an integer below 2^53. *)
Definition of_Z (n : Z) : spec_float := binary_normalize prec emax n 0 false.

(** The number that the decimal literal of [n / d] stands for, [n] and
    [d] below 2^53: the binary64 number next to the quotient. *)
Definition decimal (n d : Z) : spec_float := SFdiv prec emax (of_Z n) (of_Z d).

(** [x || 0] for [x] a number or undefined: 0 when [x] is undefined, NaN
    or a zero. *)
Definition or_zero (x : option spec_float) : spec_float :=
  match x with
  | Some (S754_zero _) | Some S754_nan | None => zero
  | Some v => v
  end.

(** An expense: of its fields, the ones that the sums read. *)
Record expense : Type := mk {
  categoryId : string;
  amount : spec_float;
  date : string
}.

(** An object with numbers as the values of its own properties, in the
    order in which the properties were created. *)
Definition dict : Type := list (string * spec_float).

(** [acc[k]] for an own property. *)
Fixpoint property (k : string) (acc : dict) : option spec_float :=
  match acc with
  | [] => None
  | (k', v) :: rest => if String.eqb k' k then Some v else property k rest
  end.

(** [acc[k] = v] *)
Fixpoint assign (k : string) (v : spec_float) (acc : dict) : dict :=
  match acc with
  | [] => [(k, v)]
  | (k', v') :: rest =>
      if String.eqb k' k then (k', v) :: rest else (k', v') :: assign k v rest
  end.

(** The names that every object inherits from [Object.prototype]: under
    these [acc[k]] is not undefined in the empty object, and what
    [totalByCategory] does with them is not represented. *)
Definition inherited : list string :=
  ["constructor"; "hasOwnProperty"; "isPrototypeOf"; "propertyIsEnumerable";
   "toLocaleString"; "toString"; "valueOf"; "__proto__"; "__defineGetter__";
   "__defineSetter__"; "__lookupGetter__"; "__lookupSetter__"].

Definition expensesForMonth (expenses : list expense) (month : string)
  : list expense :=
  List.filter (fun e => JsString.startsWith (date e) month) expenses.

Definition totalByCategory (expenses : list expense) : dict :=
  fold_left
    (fun acc e =>
       assign (categoryId e)
         (add (or_zero (property (categoryId e) acc)) (amount e)) acc)
    expenses [].

Definition totalSpent (expenses : list expense) : spec_float :=
  fold_left (fun sum e => add sum (amount e)) expenses zero.

(** [Object.values(acc)], in the order of creation (names that are
    array indices come first in the engine; the statements below take
    the values in any order). *)
Definition values (acc : dict) : list spec_float := map snd acc.

End Binary64.

(** * Vocabulary of the statements *)

(** The sum of the values of a dictionary:
    [Object.values(m).reduce((s, v) => s + v, 0)]. *)
Definition sumValues (m : gmap string Q) : Q :=
  map_fold (λ _ v s, (s + v)%Q) 0%Q m.

(** The time value of the date of an expense. *)
Definition timeOf (e : Expense) : Z :=
  match JsDate.parse (Expense.date e) with
  | TimeValue t => t
  | InvalidDate => 0
  end.

(** The name of the category of that id, the last one of the list when
    there are several; [Unknown] when there is none. *)
Definition categoryName (categories : list Category) (id : string) : string :=
  match find (λ c, String.eqb (Category.id c) id) (rev categories) with
  | Some c => Category.name c
  | None => "Unknown"
  end.

Definition is_digit (c : ascii) : bool :=
  let n := Z.of_nat (Ascii.nat_of_ascii c) in (48 <=? n) && (n <=? 57).

Fixpoint all_digits (s : string) : bool :=
  match s with
  | EmptyString => true
  | String c s' => is_digit c && all_digits s'
  end.

(** A decimal numeral with exactly two digits after the point. *)
Definition two_decimals (s : string) : Prop :=
  ∃ sign whole frac,
    s = sign +:+ whole +:+ "." +:+ frac ∧
    (sign = EmptyString ∨ sign = "-") ∧
    whole ≠ EmptyString ∧ all_digits whole = true ∧
    String.length frac = 2%nat ∧ all_digits frac = true.

(** The number of hundredths that a numeral with two decimals writes:
    the number that its digits write, the sign and the point left
    out. *)
Fixpoint hundredths (acc : Z) (s : string) : Z :=
  match s with
  | EmptyString => acc
  | String c s' =>
      if is_digit c
      then hundredths (acc * 10 + (Z.of_nat (Ascii.nat_of_ascii c) - 48)) s'
      else hundredths acc s'
  end.

(** The text of an amount with exactly two decimal places: a numeral
    with two decimals, with a minus sign exactly for a negative amount,
    whose hundredths are the number of hundredths nearest to the
    absolute value of the amount, the larger one of two. *)
Definition amount_text (x : Q) (s : string) : Prop :=
  two_decimals s ∧
  String.prefix "-" s = negb (Qle_bool 0 x) ∧
  (Qabs x * 100 - (1 # 2) < inject_Z (hundredths 0 s))%Q ∧
  (inject_Z (hundredths 0 s) <= Qabs x * 100 + (1 # 2))%Q.

(** The double quote and the line feed. *)
Definition quotation_mark : ascii := Ascii.ascii_of_nat 34.
Definition line_feed : ascii := Ascii.ascii_of_nat 10.

(** A note with every double quote of it written twice. *)
Definition doubled (note : string) : string :=
  string_of_list_ascii
    (flat_map
       (λ c, if Ascii.eqb c quotation_mark
             then [quotation_mark; quotation_mark] else [c])
       (list_ascii_of_string note)).

(** A text between double quotes. *)
Definition quoted (s : string) : string :=
  String quotation_mark (s +:+ String quotation_mark EmptyString).

(** The year that the token yyyy writes: the year of the era, 1 - y
    for a year that is not positive. *)
Definition era_year (y : Z) : Z := if 0 <? y then y else 1 - y.

(** The six columns of a row, with commas between them. *)
Definition csvColumns (date category amount currency note recurring : string)
  : string :=
  date +:+ "," +:+ category +:+ "," +:+ amount +:+ "," +:+ currency +:+ ","
  +:+ note +:+ "," +:+ recurring.

(** The rows of a file, each one after a newline. *)
Fixpoint csvLines (rows : list string) : string :=
  match rows with
  | [] => EmptyString
  | row :: rest => String line_feed (row +:+ csvLines rest)
  end.

(** The row of the export that the specification describes for an
    expense: the local date of its timestamp as yyyy-MM-dd, the name of
    its category, the amount with two decimals, the currency, the note
    with its double quotes doubled between double quotes, and yes or
    no. *)
Definition csvRowSpec (tza : Z) (categories : list Category) (currency : string)
    (e : Expense) (row : string) : Prop :=
  ∃ amount,
    amount_text (Expense.amount e) amount ∧
    row = csvColumns
            (dayString (era_year (JsDate.getFullYear tza (timeOf e)))
               (JsDate.getMonth tza (timeOf e) + 1)
               (JsDate.getDate tza (timeOf e)))
            (categoryName categories (Expense.categoryId e))
            amount
            currency
            (quoted (doubled (Expense.note e)))
            (if Expense.isRecurring e then "yes" else "no").

(** The key of the month [j] months before month [m] of year [y]. *)
Definition monthsBefore (y m j : Z) : string :=
  let i := 12 * y + (m - 1) - j in monthKey (i / 12) (i mod 12 + 1).

(** The sum of a list of amounts. *)
Definition total_of (l : list Q) : Q := fold_right Qplus 0%Q l.

(** The month of an expense as the specification has it, only the
    local calendar date of the timestamp counting: the key of the local
    year and month of its time value. *)
Definition localMonth (tza : Z) (e : Expense) : string :=
  monthKey (JsDate.getFullYear tza (timeOf e))
    (JsDate.getMonth tza (timeOf e) + 1).

(** What was spent in a category in the month of a key: the sum of the
    amounts of the expenses of the category whose month it is. *)
Definition spentInMonth (tza : Z) (catId key : string) (E : list Expense) : Q :=
  total_of
    (map Expense.amount
       (List.filter
          (λ e, String.eqb (Expense.categoryId e) catId
                && String.eqb (localMonth tza e) key) E)).

(** The rollover that the specification describes: 0 without rollover
    or with a budget of 0; otherwise the value stored for the month and
    the category; otherwise the budget less what was spent in the
    category in that month, or 0 when that is negative. *)
Definition rolloverSpec (tza : Z) (cat : Category) (prevMonthKey : string)
    (allExpenses : list Expense) (rollovers : RolloverMap) : Q :=
  if negb (Category.rollover cat) || Qeq_bool (Category.budget cat) 0 then 0%Q
  else
    match rollovers !! prevMonthKey ≫= (λ r, r !! Category.id cat) with
    | Some stored => stored
    | None =>
        Qmax (Category.budget cat
              - spentInMonth tza (Category.id cat) prevMonthKey allExpenses) 0
    end.

(** The real number that a binary64 number is; none for NaN and the
    infinities. *)
Definition value (x : spec_float) : option Q :=
  match x with
  | S754_zero _ => Some 0%Q
  | S754_finite s m e =>
      Some (inject_Z (if s then Z.neg m else Z.pos m) * Qpower 2 e)%Q
  | _ => None
  end.

(** The addition of [x] and [y] does not round: the two are finite and
    the number that the addition gives is their sum. *)
Definition exact_add (x y : spec_float) : bool :=
  match value x, value y, value (Binary64.add x y) with
  | Some p, Some q, Some r => Qeq_bool r (p + q)
  | _, _, _ => false
  end.

(** None of the additions of [l.reduce((s, v) => s + v, s0)] rounds. *)
Fixpoint exact_sum (s0 : spec_float) (l : list spec_float) : bool :=
  match l with
  | [] => true
  | v :: rest => exact_add s0 v && exact_sum (Binary64.add s0 v) rest
  end.

(** None of the additions of [totalByCategory] rounds, [acc] being the
    accumulator. *)
Fixpoint exact_totals (acc : Binary64.dict) (l : list Binary64.expense)
  : bool :=
  match l with
  | [] => true
  | e :: rest =>
      let x := Binary64.or_zero
                 (Binary64.property (Binary64.categoryId e) acc) in
      exact_add x (Binary64.amount e)
      && exact_totals
           (Binary64.assign (Binary64.categoryId e)
              (Binary64.add x (Binary64.amount e)) acc) rest
  end.

(** A category id under which the empty object has nothing. *)
Definition own_name (k : string) : bool :=
  negb (existsb (String.eqb k) Binary64.inherited).

(** ** Vocabulary of the proofs *)

(** A string without the character [c]. *)
Fixpoint no_char (c : ascii) (s : string) : bool :=
  match s with
  | EmptyString => true
  | String c' s' => negb (Ascii.eqb c' c) && no_char c s'
  end.

(** A zero-padded numeral reads back as its number, and as one less
    after [pred]. *)
Definition reads (n : nat) (z : Z) : bool :=
  no_char JsString.hyphen (JsDate.pad n z)
  && match JsNumber.Number (JsDate.pad n z) with
     | Fin q => (JsNumber.Qtrunc q =? z) && (JsNumber.Qtrunc (q - 1) =? z - 1)
     | _ => false
     end.

(** A numeral padded to [n] characters has [n] characters. *)
Definition width_ok (n : nat) (z : Z) : bool :=
  (String.length (JsDate.pad n z) =? n)%nat.

(** A numeral of [n] digits is read by [read_fixed]. *)
Definition fixed_ok (n : nat) (z : Z) : bool :=
  (String.length (JsDate.pad n z) =? n)%nat
  && match JsDate.read_fixed n 0 (JsDate.pad n z) with
     | Some (v, EmptyString) => v =? z
     | _ => false
     end.

(** The integers from 0 to [n - 1]. *)
Fixpoint count_from (n : nat) (z : Z) : list Z :=
  match n with
  | O => []
  | S k => z :: count_from k (z + 1)
  end.

Definition upto (n : Z) : list Z := count_from (Z.to_nat n) 0.

(** The inverse of the doubling of the double quotes. *)
Fixpoint single_quotes (s : string) : string :=
  match s with
  | EmptyString => EmptyString
  | String c t =>
      match t with
      | String c' s' =>
          if Ascii.eqb c JsString.dquote && Ascii.eqb c' JsString.dquote
          then String JsString.dquote (single_quotes s')
          else String c (single_quotes t)
      | EmptyString => String c EmptyString
      end
  end.

(** The two digits of the hundredths, and what they write. *)
Definition cents_ok (k : Z) : bool :=
  (String.length (JsString.padStart 2 "0" (JsString.of_Z k)) =? 2)%nat
  && all_digits (JsString.padStart 2 "0" (JsString.of_Z k))
  && (hundredths 0 (JsString.padStart 2 "0" (JsString.of_Z k)) =? k).

(** The day that the loop of the generator computes for a template. *)
Definition loop_day (dim : number) (tmpl : Expense) : number :=
  JsNumber.min
    (match Expense.recurringDayOfMonth tmpl with
     | Some r => JsNumber.of_Z r
     | None => NaN
     end) dim.

(** The entry that the loop pushes for a template. *)
Definition entry_with (key iso : string) (tmpl : Expense) : Expense :=
  Expense.mk (Expense.id tmpl +:+ "_" +:+ key)
    (Expense.categoryId tmpl) (Expense.amount tmpl) (Expense.note tmpl)
    iso (Expense.isRecurring tmpl) (Expense.recurringDayOfMonth tmpl).

Definition by_time (a b : Expense) : Prop := timeOf a <= timeOf b.

Definition dated (e : Expense) : Prop :=
  JsDate.isValid (JsDate.parse (Expense.date e)) = true.

(** From 1000 on the numeral of a year has its four digits already. *)
Definition plain_year (z : Z) : bool :=
  String.eqb (JsString.of_Z (z + 1000)) (JsDate.pad 4 (z + 1000)).

(** The expenses of time value [t]. *)
Definition at_time (t : Z) (e : Expense) : bool := timeOf e =? t.

(** The sum of the real numbers of a list of binary64 numbers, NaN and
    the infinities counting for nothing. *)
Definition real_sum (l : list spec_float) : Q :=
  fold_right (fun x s => (default 0%Q (value x) + s)%Q) 0%Q l.

(** The real number stored under [k] in a dictionary. *)
Definition stored (k : string) (acc : Binary64.dict) : Q :=
  match Binary64.property k acc with
  | Some v => default 0%Q (value v)
  | None => 0%Q
  end.

(** ** Sample data *)

Module Samples.

(** Central European Time, the zone named in helpers.ts. *)
Definition cet : Z := 3600000.

(** 2025-02-15T10:00:00Z *)
Definition mid_february : Z := 1739613600000.

Definition food : Category :=
  Category.mk "catA" "Food" "cart" "#22c55e" 100 false true.

Definition housing : Category :=
  Category.mk "home" "Home" "house" "#3b82f6" 900 true false.

Definition gym : Expense :=
  Expense.mk "t1" "catA" (999 # 100) "gym" "2025-01-15T09:00:00.000Z"
    true (Some 31).

Definition gymA : Expense :=
  Expense.mk "a1" "catA" (999 # 100) "gym" "2025-01-15T09:00:00.000Z"
    true (Some 5).

Definition gymB : Expense :=
  Expense.mk "b2" "catA" (999 # 100) "gym" "2025-01-20T18:30:00.000Z"
    true (Some 5).

Definition rent : Expense :=
  Expense.mk "r1" "home" 700 "rent" "2025-03-03T08:00:00.000Z" true (Some 3).

Definition netflix : Expense :=
  Expense.mk "n1" "subs" (1299 # 100) "netflix" "2025-01-10T09:00:00.000Z"
    true (Some 1).

Definition netflix_march : Expense :=
  Expense.mk "n1_2025-03" "subs" (1299 # 100) "netflix"
    "2025-02-28T23:00:00.000Z" true (Some 1).

Definition lunch : Expense :=
  Expense.mk "e1" "catA" (25 # 2) ("a,b" +:+ quote +:+ "c")
    "2025-03-02T12:00:00.000Z" false None.

Definition groceries : Expense :=
  Expense.mk "e2" "catA" 60 EmptyString "2025-01-20T08:15:00.000Z" false
    None.

Definition bus : Expense :=
  Expense.mk "e3" "gone" (-1 # 1000) "bus" "2025-02-28T23:30:00.000Z" true
    (Some 1).

(** Half past midnight of 1 February 2025 in Central European Time. *)
Definition snack : Expense :=
  Expense.mk "e4" "catA" 30 "snack" "2025-01-31T23:30:00.000Z" false None.

(** An amount of 10^21. *)
Definition fortune : Expense :=
  Expense.mk "e5" "catA" (inject_Z (10 ^ 21)) "fortune"
    "2025-03-02T12:00:00.000Z" false None.

Definition undated : Expense :=
  Expense.mk "e6" "catA" 5 "undated" EmptyString false None.

(** 700, 12.5, 60 and 0.75: their sums do not round. *)
Definition quarters : list Binary64.expense :=
  [Binary64.mk "home" (Binary64.of_Z 700) "2025-03-03T08:00:00.000Z";
   Binary64.mk "catA" (Binary64.decimal 25 2) "2025-03-02T12:00:00.000Z";
   Binary64.mk "catA" (Binary64.of_Z 60) "2025-01-20T08:15:00.000Z";
   Binary64.mk "home" (Binary64.decimal 3 4) "2025-03-09T18:00:00.000Z"].

(** 0.1, 0.1 and 1.1 *)
Definition tenths : list Binary64.expense :=
  [Binary64.mk "catA" (Binary64.decimal 1 10) "2025-03-02T12:00:00.000Z";
   Binary64.mk "home" (Binary64.decimal 1 10) "2025-03-03T08:00:00.000Z";
   Binary64.mk "catA" (Binary64.decimal 11 10) "2025-03-09T18:00:00.000Z"].

End Samples.

(** * Facts about the calendar *)

Module Calendar.

Import JsDate.

Ltac div_lia :=
  unfold DayFromYear in *; Z.to_euclidean_division_equations; lia.

Ltac month_cases m :=
  let H := fresh in
  assert (H : m = 0 \/ m = 1 \/ m = 2 \/ m = 3 \/ m = 4 \/ m = 5 \/ m = 6 \/
              m = 7 \/ m = 8 \/ m = 9 \/ m = 10 \/ m = 11) by lia;
  repeat (destruct H as [H | H]; [subst m |]); [.. | subst m].

Lemma DayFromYear_step y :
  DayFromYear (y + 1) - DayFromYear y = if InLeapYear y then 366 else 365.
Proof.
  unfold InLeapYear.
  destruct (Z.eqb_spec (y mod 4) 0), (Z.eqb_spec (y mod 100) 0),
    (Z.eqb_spec (y mod 400) 0); simpl; div_lia.
Qed.

Lemma YearFromDay_unique d y :
  DayFromYear y <= d < DayFromYear (y + 1) -> YearFromDay d = y.
Proof.
  intros H. unfold YearFromDay.
  repeat match goal with
    | |- context [if ?a <? ?b then _ else _] => destruct (Z.ltb_spec a b)
    | |- context [if ?a <=? ?b then _ else _] => destruct (Z.leb_spec a b)
    end; div_lia.
Qed.

Lemma month_start_bounds leap m :
  0 <= m <= 11 ->
  0 <= month_start leap m <= 334 + 1 /\
  month_start leap (m + 1) <= (if leap then 366 else 365).
Proof. intros Hm. month_cases m; destruct leap; simpl; lia. Qed.

Lemma month_of_yearday_start leap m k :
  0 <= m <= 11 -> month_start leap m <= k < month_start leap (m + 1) ->
  month_of_yearday leap k = m.
Proof.
  intros Hm Hk. unfold month_of_yearday.
  month_cases m; destruct leap; simpl in *;
    repeat match goal with
      | |- context [if ?a <? ?b then _ else _] =>
          destruct (Z.ltb_spec a b); try lia
      end.
Qed.

Lemma DaysInMonth_bounds y m : 0 <= m <= 11 -> 28 <= DaysInMonth y m <= 31.
Proof.
  intros Hm. unfold DaysInMonth.
  month_cases m; destruct (InLeapYear y); simpl; lia.
Qed.

Lemma DaysInMonth_february y :
  DaysInMonth y 1 = if InLeapYear y then 29 else 28.
Proof. unfold DaysInMonth. destruct (InLeapYear y); reflexivity. Qed.

Lemma MakeDay_in_year y m dd :
  0 <= m <= 11 ->
  MakeDay y m dd = DayFromYear y + month_start (InLeapYear y) m + dd - 1.
Proof.
  intros Hm. unfold MakeDay.
  replace (m / 12) with 0 by (Z.to_euclidean_division_equations; lia).
  replace (m mod 12) with m by (Z.to_euclidean_division_equations; lia).
  rewrite Z.add_0_r. reflexivity.
Qed.

Lemma MakeDay_normal y m dd :
  MakeDay y m dd = MakeDay (y + m / 12) (m mod 12) dd.
Proof.
  unfold MakeDay.
  replace (m mod 12 / 12) with 0 by (Z.to_euclidean_division_equations; lia).
  rewrite Z.mod_mod by lia. rewrite Z.add_0_r. reflexivity.
Qed.

(** The civil date of the day that [MakeDay] numbers. *)
Lemma MakeDay_fields y m dd :
  0 <= m <= 11 -> 1 <= dd <= DaysInMonth y m ->
  YearFromDay (MakeDay y m dd) = y /\
  MonthFromDay (MakeDay y m dd) = m /\
  DateFromDay (MakeDay y m dd) = dd.
Proof.
  intros Hm Hd. unfold DaysInMonth in Hd.
  rewrite (MakeDay_in_year y m dd Hm).
  pose proof (DayFromYear_step y) as Hstep.
  pose proof (month_start_bounds (InLeapYear y) m Hm) as [Hlo Hhi].
  assert (Hy : YearFromDay
                 (DayFromYear y + month_start (InLeapYear y) m + dd - 1) = y).
  { apply YearFromDay_unique. destruct (InLeapYear y); lia. }
  unfold MonthFromDay, DateFromDay. rewrite Hy.
  replace (DayFromYear y + month_start (InLeapYear y) m + dd - 1
           - DayFromYear y)
    with (month_start (InLeapYear y) m + (dd - 1)) by lia.
  rewrite (month_of_yearday_start _ m) by lia.
  repeat split; lia.
Qed.

Lemma MakeDay_bounds y m dd :
  0 <= y <= 10100 -> 0 <= m <= 11 -> -100 <= dd <= 200 ->
  -720000 <= MakeDay y m dd <= 2980000.
Proof.
  intros Hy Hm Hd. rewrite (MakeDay_in_year y m dd Hm).
  pose proof (month_start_bounds (InLeapYear y) m Hm) as [H1 H2].
  div_lia.
Qed.

Section Zone.

Variable tza : Z.
Hypothesis Hz : zone_ok tza.

(** The moment [w] milliseconds into the local day numbered [D]. *)
Lemma local_fields D w :
  0 <= w < msPerDay ->
  Day (LocalTime tza (UTC tza (MakeDate D w))) = D /\
  TimeWithinDay (LocalTime tza (UTC tza (MakeDate D w))) = w.
Proof.
  intros Hw. unfold LocalTime, UTC, MakeDate, Day, TimeWithinDay.
  replace (D * msPerDay + w - tza + tza) with (w + D * msPerDay) by lia.
  unfold msPerDay in *.
  rewrite Z.div_add, Z.mod_add by lia.
  rewrite Z.div_small, Z.mod_small by lia. lia.
Qed.

Lemma TimeClip_local y m dd w :
  0 <= y <= 10100 -> 0 <= m <= 11 -> -100 <= dd <= 200 ->
  0 <= w < msPerDay ->
  TimeClip (UTC tza (MakeDate (MakeDay y m dd) w)) =
  TimeValue (UTC tza (MakeDate (MakeDay y m dd) w)).
Proof.
  intros Hy Hm Hd Hw. pose proof (MakeDay_bounds y m dd Hy Hm Hd).
  unfold TimeClip, UTC, MakeDate.
  unfold zone_ok, msPerDay, maxTime in *.
  match goal with
  | |- context [if ?a <? ?b then _ else _] => destruct (Z.ltb_spec a b)
  end; [lia | reflexivity].
Qed.

Lemma getters_local y m dd w :
  0 <= m <= 11 -> 1 <= dd <= DaysInMonth y m -> 0 <= w < msPerDay ->
  let t := UTC tza (MakeDate (MakeDay y m dd) w) in
  getFullYear tza t = y /\ getMonth tza t = m /\ getDate tza t = dd /\
  getTimeOfDay tza t = w.
Proof.
  intros Hm Hd Hw t. subst t.
  unfold getFullYear, getMonth, getDate, getTimeOfDay.
  destruct (local_fields (MakeDay y m dd) w Hw) as [-> ->].
  destruct (MakeDay_fields y m dd Hm Hd) as (-> & -> & ->). auto.
Qed.

End Zone.

End Calendar.

(** * Splitting a key and reading its numerals *)

Module Reading.

Import JsString JsNumber.

Lemma append_cons (x : ascii) (a b : string) :
  String x a +:+ b = String x (a +:+ b).
Proof. reflexivity. Qed.

Lemma append_assoc (a b c : string) : (a +:+ b) +:+ c = a +:+ (b +:+ c).
Proof.
  induction a as [| x a IH]; [reflexivity |].
  rewrite !append_cons. f_equal. exact IH.
Qed.

Lemma append_empty_r (a : string) : a +:+ EmptyString = a.
Proof.
  induction a as [| x a IH]; [reflexivity |].
  rewrite append_cons. f_equal. exact IH.
Qed.

Lemma split_go_plain sep s : forall cur,
  no_char sep s = true -> split_go sep cur s = [cur +:+ s].
Proof.
  induction s as [| c s IH]; intros cur H; simpl in *.
  - now rewrite append_empty_r.
  - apply andb_true_iff in H as [Hc Hs]. apply negb_true_iff in Hc.
    rewrite Hc, (IH _ Hs), append_assoc. reflexivity.
Qed.

Lemma split_go_app sep a rest : forall cur,
  no_char sep a = true ->
  split_go sep cur (a +:+ String sep rest) =
  (cur +:+ a) :: split_go sep EmptyString rest.
Proof.
  induction a as [| c a IH]; intros cur H.
  - change (EmptyString +:+ String sep rest) with (String sep rest).
    simpl. rewrite Ascii.eqb_refl, append_empty_r. reflexivity.
  - rewrite append_cons. simpl in *.
    apply andb_true_iff in H as [Hc Hs]. apply negb_true_iff in Hc.
    rewrite Hc, (IH _ Hs), append_assoc. reflexivity.
Qed.

Lemma split_two sep a b :
  no_char sep a = true -> no_char sep b = true ->
  split sep (a +:+ String sep b) = [a; b].
Proof.
  intros Ha Hb. unfold split.
  rewrite (split_go_app sep a b EmptyString Ha), (split_go_plain sep b _ Hb).
  reflexivity.
Qed.

Lemma split_three sep a b c :
  no_char sep a = true -> no_char sep b = true -> no_char sep c = true ->
  split sep (a +:+ String sep (b +:+ String sep c)) = [a; b; c].
Proof.
  intros Ha Hb Hc. unfold split.
  rewrite (split_go_app sep a _ EmptyString Ha), (split_go_app sep b _ _ Hb),
    (split_go_plain sep c _ Hc).
  reflexivity.
Qed.

Lemma count_from_In n : forall z0 z,
  z0 <= z < z0 + Z.of_nat n -> In z (count_from n z0).
Proof.
  induction n as [| n IH]; intros z0 z Hz; [lia |].
  cbn [count_from]. destruct (Z.eq_dec z0 z) as [-> | Hne]; [now left |].
  right. apply IH. lia.
Qed.

Lemma forallb_upto (P : Z -> bool) (n : Z) :
  forallb P (upto n) = true -> forall z, 0 <= z < n -> P z = true.
Proof.
  intros H z Hz. rewrite forallb_forall in H. apply H.
  apply count_from_In. lia.
Qed.

(** The years 0000 to 10000 and the numerals 00 to 99, one by one. *)
Lemma reads_year y : 0 <= y <= 10000 -> reads 4 y = true.
Proof.
  intros Hy. apply (forallb_upto (reads 4) 10001); [| lia].
  vm_compute. reflexivity.
Qed.

Lemma reads_two m : 0 <= m <= 99 -> reads 2 m = true.
Proof.
  intros Hm. apply (forallb_upto (reads 2) 100); [| lia].
  vm_compute. reflexivity.
Qed.

Lemma width_year y : 0 <= y <= 9999 -> String.length (JsDate.pad 4 y) = 4%nat.
Proof.
  intros Hy. apply Nat.eqb_eq, (forallb_upto (width_ok 4) 10000); [| lia].
  vm_compute. reflexivity.
Qed.

Lemma width_two m : 0 <= m <= 99 -> String.length (JsDate.pad 2 m) = 2%nat.
Proof.
  intros Hm. apply Nat.eqb_eq, (forallb_upto (width_ok 2) 100); [| lia].
  vm_compute. reflexivity.
Qed.

Lemma length_append (a b : string) :
  String.length (a +:+ b) = (String.length a + String.length b)%nat.
Proof.
  induction a as [| x a IH]; [reflexivity |].
  rewrite append_cons. simpl. now rewrite IH.
Qed.

(** The key of a month of the years 0000 to 9999 has seven characters. *)
Lemma monthKey_length y m :
  0 <= y <= 9999 -> 0 <= m <= 99 -> String.length (monthKey y m) = 7%nat.
Proof.
  intros Hy Hm. unfold monthKey.
  rewrite !length_append, (width_year y Hy), (width_two m Hm). reflexivity.
Qed.

Lemma reads_spec n z :
  reads n z = true ->
  no_char hyphen (JsDate.pad n z) = true /\
  isNaN (Number (JsDate.pad n z)) = false /\
  ToInteger (Number (JsDate.pad n z)) = Some z /\
  ToInteger (pred (Number (JsDate.pad n z))) = Some (z - 1).
Proof.
  unfold reads. intros H. apply andb_true_iff in H as [H1 H2].
  split; [exact H1 |].
  destruct (Number (JsDate.pad n z)) as [| b | q]; try discriminate.
  apply andb_true_iff in H2 as [H2 H3].
  apply Z.eqb_eq in H2, H3. simpl. rewrite H2, H3. auto.
Qed.

Lemma year_month_key y m :
  0 <= y <= 10000 -> 0 <= m <= 99 ->
  exists ny nm,
    year_month (monthKey y m) = (ny, nm) /\
    ToInteger ny = Some y /\ ToInteger (pred nm) = Some (m - 1).
Proof.
  intros Hy Hm.
  destruct (reads_spec 4 y (reads_year y Hy)) as (Hy1 & _ & Hy3 & _).
  destruct (reads_spec 2 m (reads_two m Hm)) as (Hm1 & _ & _ & Hm4).
  unfold year_month, monthKey.
  change (JsDate.pad 4 y +:+ "-" +:+ JsDate.pad 2 m)
    with (JsDate.pad 4 y +:+ String hyphen (JsDate.pad 2 m)).
  rewrite (split_two hyphen _ _ Hy1 Hm1). simpl. eauto.
Qed.

End Reading.

(** * Month arithmetic *)

Module MonthArith.

Import JsDate DateFns Calendar Reading.

Lemma ToInteger_of_Z z : JsNumber.ToInteger (JsNumber.of_Z z) = Some z.
Proof.
  unfold JsNumber.ToInteger, JsNumber.of_Z, JsNumber.Qtrunc. simpl.
  now rewrite Z.quot_1_r.
Qed.

Lemma MakeFullYear_late y : 100 <= y -> MakeFullYear y = y.
Proof.
  intros Hy. unfold MakeFullYear.
  destruct (Z.leb_spec y 99); [lia |]. now rewrite andb_false_r.
Qed.

Lemma MakeFullYear_early y : 0 <= y <= 99 -> MakeFullYear y = 1900 + y.
Proof.
  intros Hy. unfold MakeFullYear.
  destruct (Z.leb_spec 0 y), (Z.leb_spec y 99); try lia. reflexivity.
Qed.

Section Zone.

Variable tza : Z.
Hypothesis Hz : zone_ok tza.

Lemma make_midnight ny nm nd y m dd :
  JsNumber.ToInteger ny = Some y ->
  JsNumber.ToInteger nm = Some m ->
  JsNumber.ToInteger nd = Some dd ->
  0 <= MakeFullYear y + m / 12 <= 10100 -> -100 <= dd <= 200 ->
  make tza ny nm nd = TimeValue (localMidnight tza (MakeFullYear y) m dd).
Proof.
  intros Hy Hm Hd Hyr Hdr. unfold make, localMidnight.
  rewrite Hy, Hm, Hd. change (MakeTime 0 0 0 0) with 0.
  rewrite (MakeDay_normal (MakeFullYear y) m dd).
  apply (TimeClip_local tza Hz); unfold msPerDay; try lia.
  Z.to_euclidean_division_equations; lia.
Qed.

Lemma getters_midnight y m dd :
  0 <= m <= 11 -> 1 <= dd <= DaysInMonth y m ->
  getFullYear tza (localMidnight tza y m dd) = y /\
  getMonth tza (localMidnight tza y m dd) = m /\
  getDate tza (localMidnight tza y m dd) = dd /\
  getTimeOfDay tza (localMidnight tza y m dd) = 0.
Proof.
  intros Hm Hd. apply (getters_local tza y m dd 0 Hm Hd).
  unfold msPerDay. lia.
Qed.

Lemma addMonths_first y m n :
  0 <= m <= 11 -> 0 <= y + (m + n) / 12 <= 10100 ->
  addMonths tza (TimeValue (localMidnight tza y m 1)) n =
  TimeValue (localMidnight tza (y + (m + n) / 12) ((m + n) mod 12) 1).
Proof.
  intros Hm Hy. unfold addMonths.
  pose proof (DaysInMonth_bounds y m Hm) as Hdim.
  destruct (getters_midnight y m 1 Hm) as (-> & -> & -> & ->); [lia |].
  assert (Hm' : 0 <= (m + n) mod 12 <= 11)
    by (Z.to_euclidean_division_equations; lia).
  pose proof (DaysInMonth_bounds (y + (m + n) / 12) _ Hm') as Hdim'.
  rewrite Z.min_l by lia. unfold localMidnight.
  rewrite (MakeDay_normal y (m + n) 1).
  apply (TimeClip_local tza Hz); unfold msPerDay; lia.
Qed.

Lemma format_month y m dd :
  0 < y -> 0 <= m <= 11 -> 1 <= dd <= DaysInMonth y m ->
  format_yyyy_MM tza (TimeValue (localMidnight tza y m dd)) =
  Some (monthKey y (m + 1)).
Proof.
  intros Hy Hm Hd. unfold format_yyyy_MM, fmt_yyyy, fmt_MM.
  destruct (getters_midnight y m dd Hm Hd) as (-> & -> & _).
  unfold addLeadingZeros, monthKey.
  destruct (Z.ltb_spec 0 y); [| lia].
  destruct (Z.ltb_spec y 0); [lia |].
  destruct (Z.ltb_spec (m + 1) 0); [lia |].
  rewrite !Z.abs_eq by lia. reflexivity.
Qed.

(** What [prevMonth] and [nextMonth] compute on the key of a month
    from year 100 on: the first of the month, moved by [n] months. *)
Lemma shift_key y m n :
  0 <= y <= 10000 -> 1 <= m <= 12 -> -1 <= n <= 1 ->
  let '(ny, nm) := year_month (monthKey y m) in
  format_yyyy_MM tza
    (addMonths tza (make tza ny (JsNumber.pred nm) (JsNumber.of_Z 1)) n) =
  Some (monthKey (MakeFullYear y + (m - 1 + n) / 12) ((m - 1 + n) mod 12 + 1)).
Proof.
  intros Hy Hm Hn.
  destruct (year_month_key y m) as (ny & nm & -> & Hny & Hnm); [lia | lia |].
  assert (Hq : (m - 1) / 12 = 0) by (Z.to_euclidean_division_equations; lia).
  assert (Hfull : 100 <= MakeFullYear y <= 10000).
  { destruct (Z_le_gt_dec y 99).
    - rewrite MakeFullYear_early; lia.
    - rewrite MakeFullYear_late; lia. }
  rewrite (make_midnight ny _ _ y (m - 1) 1 Hny Hnm (ToInteger_of_Z 1));
    try lia.
  assert (0 <= MakeFullYear y + (m - 1 + n) / 12 <= 10001 /\
          0 <= (m - 1 + n) mod 12 <= 11)
    as [Hy' Hm'] by (Z.to_euclidean_division_equations; lia).
  rewrite addMonths_first by lia.
  pose proof (DaysInMonth_bounds (MakeFullYear y + (m - 1 + n) / 12) _ Hm').
  apply format_month; [Z.to_euclidean_division_equations; lia | lia | lia].
Qed.

(** The month after the key of a month of the years 0000 to 0099 is a
    month of the years 1900 to 2000. *)
Lemma nextMonth_early_key y m :
  0 <= y <= 99 -> 1 <= m <= 12 ->
  nextMonth tza (monthKey y m) =
  Some (monthKey (1900 + y + m / 12) (m mod 12 + 1)).
Proof.
  intros Hy Hm. unfold nextMonth.
  pose proof (shift_key y m 1 ltac:(lia) Hm ltac:(lia)) as H.
  destruct (year_month (monthKey y m)) as [ny nm]. rewrite H.
  rewrite MakeFullYear_early by lia.
  now replace (m - 1 + 1) with m by lia.
Qed.

Lemma nextMonth_key y m :
  100 <= y <= 10000 -> 1 <= m <= 12 ->
  nextMonth tza (monthKey y m) =
  Some (if m =? 12 then monthKey (y + 1) 1 else monthKey y (m + 1)).
Proof.
  intros Hy Hm. unfold nextMonth.
  pose proof (shift_key y m 1 ltac:(lia) Hm ltac:(lia)) as H.
  destruct (year_month (monthKey y m)) as [ny nm]. rewrite H. f_equal.
  rewrite MakeFullYear_late by lia.
  destruct (Z.eqb_spec m 12) as [-> | Hne].
  - reflexivity.
  - replace ((m - 1 + 1) / 12) with 0
      by (Z.to_euclidean_division_equations; lia).
    replace ((m - 1 + 1) mod 12) with m
      by (Z.to_euclidean_division_equations; lia).
    now rewrite Z.add_0_r.
Qed.

Lemma prevMonth_key y m :
  100 <= y <= 10000 -> 1 <= m <= 12 ->
  prevMonth tza (monthKey y m) =
  Some (if m =? 1 then monthKey (y - 1) 12 else monthKey y (m - 1)).
Proof.
  intros Hy Hm. unfold prevMonth, subMonths.
  pose proof (shift_key y m (-1) ltac:(lia) Hm ltac:(lia)) as H.
  destruct (year_month (monthKey y m)) as [ny nm].
  change (- (1)) with (-1). rewrite H. f_equal.
  rewrite MakeFullYear_late by lia.
  destruct (Z.eqb_spec m 1) as [-> | Hne].
  - reflexivity.
  - replace ((m - 1 + -1) / 12) with 0
      by (Z.to_euclidean_division_equations; lia).
    replace ((m - 1 + -1) mod 12 + 1) with (m - 1)
      by (Z.to_euclidean_division_equations; lia).
    now rewrite Z.add_0_r.
Qed.

End Zone.

End MonthArith.

(** * parseLocalDate *)

Module Parsing.

Import JsDate Calendar Reading MonthArith.

Lemma parse_dayString tza y m d :
  zone_ok tza -> 100 <= y <= 9999 -> 0 <= m <= 99 -> 0 <= d <= 99 ->
  parseLocalDate tza (dayString y m d) =
  Some (TimeValue (localMidnight tza y (m - 1) d)).
Proof.
  intros Hz Hy Hm Hd.
  destruct (reads_spec 4 y (reads_year y ltac:(lia))) as (Hy1 & Hy2 & Hy3 & _).
  destruct (reads_spec 2 m (reads_two m Hm)) as (Hm1 & Hm2 & _ & Hm4).
  destruct (reads_spec 2 d (reads_two d Hd)) as (Hd1 & Hd2 & Hd3 & _).
  unfold parseLocalDate, dayString, monthKey.
  rewrite !append_assoc.
  change ("-" +:+ pad 2 m +:+ "-" +:+ pad 2 d)
    with (String JsString.hyphen (pad 2 m +:+ String JsString.hyphen (pad 2 d))).
  rewrite (split_three JsString.hyphen _ _ _ Hy1 Hm1 Hd1).
  cbn [length Nat.eqb negb map nth].
  rewrite Hy2, Hm2, Hd2. cbn [orb].
  rewrite (make_midnight tza Hz _ _ _ y (m - 1) d Hy3 Hm4 Hd3);
    rewrite ?MakeFullYear_late by lia;
    [reflexivity | Z.to_euclidean_division_equations; lia | lia].
Qed.

Lemma isNaN_NaN n : JsNumber.isNaN n = true <-> n = NaN.
Proof. destruct n; simpl; split; congruence. Qed.

Lemma parse_none tza s :
  parseLocalDate tza s = None <->
  length (JsString.split JsString.hyphen s) <> 3%nat \/
  (exists p, In p (JsString.split JsString.hyphen s) /\
             JsNumber.Number p = NaN) \/
  (exists a b c,
      JsString.split JsString.hyphen s = [a; b; c] /\
      make tza (JsNumber.Number a) (JsNumber.pred (JsNumber.Number b))
        (JsNumber.Number c) = InvalidDate).
Proof.
  unfold parseLocalDate.
  destruct (JsString.split JsString.hyphen s)
    as [| a [| b [| c [| x l]]]] eqn:Hs;
    cbn [length Nat.eqb negb];
    try (split; [intros _; left; simpl; lia | reflexivity]).
  cbn [map nth].
  destruct (JsNumber.isNaN (JsNumber.Number a)) eqn:Ha.
  { split; [intros _ | reflexivity]. right. left. exists a.
    split; [now left | now apply isNaN_NaN]. }
  destruct (JsNumber.isNaN (JsNumber.Number b)) eqn:Hb.
  { split; [intros _ | reflexivity]. right. left. exists b.
    split; [right; now left | now apply isNaN_NaN]. }
  destruct (JsNumber.isNaN (JsNumber.Number c)) eqn:Hc.
  { split; [intros _ | reflexivity]. right. left. exists c.
    split; [right; right; now left | now apply isNaN_NaN]. }
  cbn [orb].
  destruct (make tza (JsNumber.Number a) (JsNumber.pred (JsNumber.Number b))
              (JsNumber.Number c)) as [| t] eqn:Hmk; cbn [getTime].
  - split; [intros _ | reflexivity]. right. right. now exists a, b, c.
  - split; [discriminate |].
    intros [Hl | [(p & Hp & Hn) | (a' & b' & c' & Heq & Hinv)]].
    + simpl in Hl. lia.
    + apply isNaN_NaN in Hn.
      destruct Hp as [<- | [<- | [<- | []]]]; congruence.
    + injection Heq as <- <- <-. congruence.
Qed.

End Parsing.

(** * The generator of recurring entries *)

Module Generator.

Import JsDate DateFns Calendar Reading MonthArith.

Lemma ToInteger_min a b :
  JsNumber.ToInteger (JsNumber.min (JsNumber.of_Z a) (JsNumber.of_Z b)) =
  Some (Z.min a b).
Proof.
  unfold JsNumber.min, JsNumber.of_Z, JsNumber.ToInteger, JsNumber.Qtrunc.
  f_equal. unfold Qmin, GenericMinMax.gmin.
  destruct (Qcompare (inject_Z a) (inject_Z b)) eqn:E;
    unfold Qcompare in E; simpl in E; rewrite !Z.mul_1_r in E;
    simpl; rewrite Z.quot_1_r.
  all: pose proof (Z.compare_spec a b) as C; rewrite E in C; inversion C; lia.
Qed.

Lemma isTemplate_day t :
  isTemplate t = true ->
  Expense.isRecurring t = true /\
  exists r, Expense.recurringDayOfMonth t = Some r.
Proof.
  unfold isTemplate. intros H. apply andb_true_iff in H as [H1 H2].
  destruct (Expense.recurringDayOfMonth t) as [r |]; [eauto | discriminate].
Qed.

(** ** The array built by the loop *)

Section Loop.

Variables (tza : Z) (y m dim : number) (key : string).
Variable monthExpenses : list Expense.

Lemma loop_total (isoOf : Expense -> string) templates : forall acc,
  (forall t, In t templates -> alreadyExists monthExpenses t = false ->
     toISOString (make tza y (JsNumber.pred m) (loop_day dim t)) =
     Some (isoOf t)) ->
  generate_loop tza y m dim key monthExpenses templates acc =
  Some (acc ++ map (fun t => entry_with key (isoOf t) t)
                   (List.filter
                      (fun t => negb (alreadyExists monthExpenses t))
                      templates)).
Proof.
  induction templates as [| t rest IH]; intros acc H; simpl.
  - now rewrite app_nil_r.
  - destruct (alreadyExists monthExpenses t) eqn:Hex; simpl.
    + apply IH. intros t' Hin. apply H. now right.
    + fold (loop_day dim t). rewrite (H t (or_introl eq_refl) Hex).
      fold (entry_with key (isoOf t) t).
      rewrite IH by (intros t' Hin; apply H; now right).
      now rewrite <- app_assoc.
Qed.

Lemma loop_origin templates : forall acc out,
  generate_loop tza y m dim key monthExpenses templates acc = Some out ->
  forall e, In e out ->
    In e acc \/
    exists t iso, In t templates /\
                  alreadyExists monthExpenses t = false /\
                  e = entry_with key iso t.
Proof.
  induction templates as [| t rest IH]; intros acc out H e He; simpl in H.
  - injection H as <-. now left.
  - destruct (alreadyExists monthExpenses t) eqn:Hex.
    + destruct (IH _ _ H e He) as [Hacc | (t' & iso & Hin & Hne & ->)];
        [now left | right]. exists t', iso. repeat split; auto. now right.
    + fold (loop_day dim t) in H.
      destruct (toISOString (make tza y (JsNumber.pred m) (loop_day dim t)))
        as [iso |] eqn:Hiso; [| discriminate].
      destruct (IH _ _ H e He) as [Hacc | (t' & iso' & Hin & Hne & ->)].
      * apply in_app_or in Hacc as [Hacc | [<- | []]]; [now left | right].
        exists t, iso. repeat split; auto. now left.
      * right. exists t', iso'. repeat split; auto. now right.
Qed.

End Loop.

(** ** The existence test *)

Lemma Qeq_bool_right a b c :
  Qeq_bool a b = true -> Qeq_bool c a = Qeq_bool c b.
Proof.
  intros Hab. apply Qeq_bool_iff in Hab.
  destruct (Qeq_bool c a) eqn:H1, (Qeq_bool c b) eqn:H2; try reflexivity.
  - apply Qeq_bool_iff in H1. apply Qeq_bool_neq in H2.
    destruct H2. now rewrite H1.
  - apply Qeq_bool_iff in H2. apply Qeq_bool_neq in H1.
    destruct H1. now rewrite H2.
Qed.

Lemma sameCombination_fields a b :
  sameCombination a b = true ->
  Expense.categoryId a = Expense.categoryId b /\
  Expense.note a = Expense.note b /\
  Qeq_bool (Expense.amount a) (Expense.amount b) = true.
Proof.
  unfold sameCombination. intros H.
  apply andb_true_iff in H as [H H3]. apply andb_true_iff in H as [H1 H2].
  apply String.eqb_eq in H1, H2. auto.
Qed.

Lemma sameCombination_refl t : sameCombination t t = true.
Proof.
  unfold sameCombination. now rewrite !String.eqb_refl, Qeq_bool_refl.
Qed.

(** The test reads the category, the note and the amount of the
    template only. *)
Lemma alreadyExists_combination me a b :
  sameCombination a b = true -> alreadyExists me a = alreadyExists me b.
Proof.
  intros H. destruct (sameCombination_fields a b H) as (H1 & H2 & H3).
  unfold alreadyExists. induction me as [| e me IH]; simpl; [reflexivity |].
  now rewrite IH, H1, H2, (Qeq_bool_right _ _ _ H3).
Qed.

Lemma alreadyExists_match me e t :
  In e me -> Expense.isRecurring e = true -> sameCombination e t = true ->
  alreadyExists me t = true.
Proof.
  intros Hin Hrec Hs. unfold alreadyExists. apply existsb_exists.
  exists e. split; [exact Hin |].
  unfold sameCombination in Hs. now rewrite Hrec, <- !andb_assoc in *.
Qed.

Lemma alreadyExists_self me t :
  In t me -> Expense.isRecurring t = true -> alreadyExists me t = true.
Proof.
  intros Hin Hrec.
  apply (alreadyExists_match me t t Hin Hrec (sameCombination_refl t)).
Qed.

Lemma alreadyExists_app l1 l2 t :
  alreadyExists (l1 ++ l2) t = alreadyExists l1 t || alreadyExists l2 t.
Proof. unfold alreadyExists. apply existsb_app. Qed.

(** ** Lists *)

Lemma filter_map_swap {A B} (p : B -> bool) (f : A -> B) (l : list A) :
  List.filter p (map f l) = map f (List.filter (fun x => p (f x)) l).
Proof.
  induction l as [| x l IH]; simpl; [reflexivity |].
  destruct (p (f x)); simpl; now rewrite IH.
Qed.

Lemma filter_filter_implied {A} (p q : A -> bool) (l : list A) :
  (forall x, In x l -> p x = true -> q x = true) ->
  List.filter p (List.filter q l) = List.filter p l.
Proof.
  induction l as [| x l IH]; intros H; simpl; [reflexivity |].
  destruct (q x) eqn:Hq; simpl.
  - destruct (p x); rewrite IH by (intros; apply H; [now right | assumption]);
      reflexivity.
  - destruct (p x) eqn:Hp.
    + rewrite (H x (or_introl eq_refl) Hp) in Hq. discriminate.
    + apply IH. intros. apply H; [now right | assumption].
Qed.

Lemma filter_none {A} (p : A -> bool) (l : list A) :
  (forall x, In x l -> p x = false) -> List.filter p l = [].
Proof.
  induction l as [| x l IH]; intros H; simpl; [reflexivity |].
  rewrite (H x (or_introl eq_refl)). apply IH. intros; apply H; now right.
Qed.

Lemma filter_every {A} (p : A -> bool) (l : list A) :
  (forall x, In x l -> p x = true) -> List.filter p l = l.
Proof.
  induction l as [| x l IH]; intros H; simpl; [reflexivity |].
  rewrite (H x (or_introl eq_refl)). f_equal.
  apply IH. intros; apply H; now right.
Qed.

Lemma two_kept {A} (p q : A -> bool) (l1 l2 l3 : list A) (a b : A) :
  q a = true -> q b = true -> p a = true -> p b = true ->
  (2 <= length (List.filter p (List.filter q (l1 ++ a :: l2 ++ b :: l3))))%nat.
Proof.
  intros Hqa Hqb Hpa Hpb.
  rewrite (List.filter_app q l1). simpl. rewrite Hqa.
  rewrite (List.filter_app q l2). simpl. rewrite Hqb.
  rewrite (List.filter_app p (List.filter q l1)). simpl. rewrite Hpa.
  rewrite (List.filter_app p (List.filter q l2)). simpl. rewrite Hpb.
  rewrite length_app. simpl. rewrite length_app. simpl. lia.
Qed.

(** ** The entries generated for the key of a month *)

Lemma generate_valid tza E y m :
  zone_ok tza -> 100 <= y <= 9999 -> 1 <= m <= 12 ->
  (forall t r, In t E -> isTemplate t = true ->
               Expense.recurringDayOfMonth t = Some r -> 1 <= r) ->
  generateRecurringForMonth tza E (monthKey y m) =
  Some (map (recurringInstance tza y m)
          (List.filter
             (fun t => negb (alreadyExists (expensesForMonth E (monthKey y m)) t))
             (List.filter isTemplate E))).
Proof.
  intros Hz Hy Hm Hdays. unfold generateRecurringForMonth.
  destruct (year_month_key y m) as (ny & nm & -> & Hny & Hnm); [lia | lia |].
  assert (Hq : (m - 1) / 12 = 0) by (Z.to_euclidean_division_equations; lia).
  rewrite (make_midnight tza Hz ny _ _ y (m - 1) 1 Hny Hnm (ToInteger_of_Z 1));
    rewrite ?MakeFullYear_late by lia; try lia.
  pose proof (DaysInMonth_bounds y (m - 1) ltac:(lia)) as Hdim.
  unfold getDaysInMonth.
  destruct (getters_midnight tza y (m - 1) 1) as (-> & -> & _); [lia | lia |].
  rewrite (loop_total tza ny nm _ (monthKey y m) _
             (fun t => Expense.date (recurringInstance tza y m t))).
  - reflexivity.
  - intros t Hin Hex. apply filter_In in Hin as [Hin Ht].
    destruct (isTemplate_day t Ht) as (_ & r & Hr).
    specialize (Hdays t r Hin Ht Hr).
    unfold loop_day. rewrite Hr.
    rewrite (make_midnight tza Hz ny _ _ y (m - 1)
               (Z.min r (DaysInMonth y (m - 1)))
               Hny Hnm (ToInteger_min _ _));
      rewrite ?MakeFullYear_late by lia; try lia.
    unfold recurringInstance. rewrite Hr.
    change (default 0 (Some r)) with r.
    cbv beta iota delta [toISOString Expense.date]. reflexivity.
Qed.

(** ** A second run, west of Greenwich *)

Lemma prefix_append (a b : string) : String.prefix a (a +:+ b) = true.
Proof.
  induction a as [| c a IH]; [now destruct b |].
  rewrite append_cons. simpl. rewrite IH.
  now destruct (Ascii.ascii_dec c c).
Qed.

Lemma prefix_append3 (a b c r : string) :
  String.prefix (a +:+ b +:+ c) (a +:+ b +:+ c +:+ r) = true.
Proof.
  rewrite <- (append_assoc b c r), <- (append_assoc a (b +:+ c) r).
  apply prefix_append.
Qed.

(** West of Greenwich, and on it, local midnight falls on the same day
    of UTC, and the timestamp starts with the key of the month. *)
Lemma iso_in_month tza y m dd :
  - msPerDay < tza <= 0 -> 0 <= y <= 9999 -> 1 <= m <= 12 ->
  1 <= dd <= DaysInMonth y (m - 1) ->
  JsString.startsWith (iso_string (localMidnight tza y (m - 1) dd))
    (monthKey y m) = true.
Proof.
  intros Hz Hy Hm Hd. unfold JsString.startsWith, iso_string, localMidnight.
  assert (HD : Day (UTC tza (MakeDate (MakeDay y (m - 1) dd) 0))
               = MakeDay y (m - 1) dd).
  { unfold Day, UTC, MakeDate.
    replace (MakeDay y (m - 1) dd * msPerDay + 0 - tza)
      with (- tza + MakeDay y (m - 1) dd * msPerDay) by lia.
    unfold msPerDay in *. rewrite Z.div_add by lia.
    rewrite Z.div_small by lia. lia. }
  rewrite HD.
  destruct (MakeDay_fields y (m - 1) dd ltac:(lia) Hd) as (-> & -> & ->).
  unfold iso_year.
  destruct (Z.leb_spec 0 y); [| lia]. destruct (Z.leb_spec y 9999); [| lia].
  cbn [andb]. replace (m - 1 + 1) with m by lia.
  unfold monthKey. apply prefix_append3.
Qed.

(** Persisting the generated entries and generating again gives
    nothing new, in the zones where the timestamps stay in the month. *)
Lemma second_run_empty tza E y m out :
  - msPerDay < tza <= 0 -> 100 <= y <= 9999 -> 1 <= m <= 12 ->
  (forall t r, In t E -> isTemplate t = true ->
               Expense.recurringDayOfMonth t = Some r -> 1 <= r) ->
  generateRecurringForMonth tza E (monthKey y m) = Some out ->
  generateRecurringForMonth tza (E ++ out) (monthKey y m) = Some [].
Proof.
  intros Hz Hy Hm Hdays Hgen.
  assert (Hzone : zone_ok tza) by (unfold zone_ok; lia).
  rewrite (generate_valid tza E y m Hzone Hy Hm Hdays) in Hgen.
  injection Hgen as Hout.
  set (key := monthKey y m) in *. set (me := expensesForMonth E key) in *.
  pose proof (DaysInMonth_bounds y (m - 1) ltac:(lia)) as Hdim.
  assert (Hent : forall e, In e out ->
            exists t, In t E /\ isTemplate t = true /\
                      alreadyExists me t = false /\
                      e = recurringInstance tza y m t).
  { intros e He. rewrite <- Hout in He. apply in_map_iff in He as (t & <- & Ht).
    apply filter_In in Ht as [Ht Hnew]. apply filter_In in Ht as [Hin Ht].
    exists t. repeat split; auto. now destruct (alreadyExists me t). }
  assert (Hmonth : forall e, In e out ->
            JsString.startsWith (Expense.date e) key = true).
  { intros e He. destruct (Hent e He) as (t & Hin & Ht & _ & ->).
    destruct (isTemplate_day t Ht) as (_ & r & Hr).
    unfold recurringInstance. rewrite Hr.
    cbn [Expense.date default from_option id].
    apply iso_in_month; try lia. specialize (Hdays t r Hin Ht Hr). lia. }
  assert (Hdays' : forall t r, In t (E ++ out) -> isTemplate t = true ->
            Expense.recurringDayOfMonth t = Some r -> 1 <= r).
  { intros t r Hin Ht Hr. apply in_app_or in Hin as [Hin | Hin]; [eauto |].
    destruct (Hent t Hin) as (t0 & Hin0 & Ht0 & _ & ->). eauto. }
  unfold key at 1.
  rewrite (generate_valid tza (E ++ out) y m Hzone Hy Hm Hdays').
  fold key. f_equal.
  assert (Hme : expensesForMonth (E ++ out) key = me ++ out).
  { unfold expensesForMonth. rewrite List.filter_app.
    fold (expensesForMonth E key). fold me. f_equal. now apply filter_every. }
  rewrite Hme, filter_none; [reflexivity |].
  intros t Ht. apply filter_In in Ht as [Hin Ht].
  apply negb_false_iff. rewrite alreadyExists_app.
  destruct (alreadyExists me t) eqn:Hex; [reflexivity |]. cbn [orb].
  destruct (isTemplate_day t Ht) as (Hrec & _).
  apply in_app_or in Hin as [Hin | Hin].
  - apply (alreadyExists_match out (recurringInstance tza y m t) t).
    + rewrite <- Hout. apply in_map, filter_In. split; [| now rewrite Hex].
      apply filter_In. auto.
    + exact Hrec.
    + change (sameCombination (recurringInstance tza y m t) t)
        with (sameCombination t t).
      apply sameCombination_refl.
  - now apply alreadyExists_self.
Qed.

End Generator.

(** * Totals *)

Module Aggregation.

Lemma sumValues_insert_fresh (m : gmap string Q) k v :
  m !! k = None -> (sumValues (<[k:=v]> m) == sumValues m + v)%Q.
Proof.
  intros Hk. unfold sumValues.
  apply (map_fold_insert Qeq (fun _ v s => (s + v)%Q)).
  - intros _ z a b Hab. now rewrite Hab.
  - intros. ring.
  - exact Hk.
Qed.

Lemma sumValues_add (m : gmap string Q) k a :
  (sumValues (<[k:=(default 0 (m !! k) + a)%Q]> m) == sumValues m + a)%Q.
Proof.
  destruct (m !! k) as [v |] eqn:Hk; simpl.
  - rewrite <- (insert_delete_eq m k).
    rewrite sumValues_insert_fresh by apply lookup_delete_eq.
    rewrite <- (insert_delete_id m k v Hk) at 2.
    rewrite (sumValues_insert_fresh (delete k m) k v)
      by apply lookup_delete_eq.
    ring.
  - rewrite sumValues_insert_fresh by exact Hk. ring.
Qed.

(** The two folds over the same list, side by side. *)
Lemma totals_agree (l : list Expense) : forall (s : Q) (acc : gmap string Q),
  (s == sumValues acc)%Q ->
  (fold_left (fun sum e => (sum + Expense.amount e)%Q) l s ==
   sumValues
     (fold_left
        (fun acc e =>
           <[Expense.categoryId e :=
               (default 0 (acc !! Expense.categoryId e)
                + Expense.amount e)%Q]> acc)
        l acc))%Q.
Proof.
  induction l as [| e l IH]; intros s acc Hs; simpl; [exact Hs |].
  apply IH. rewrite sumValues_add, Hs. reflexivity.
Qed.

(** In exact arithmetic the total is the sum of the totals of the
    categories. *)
Lemma total_is_sum_in_exact_arithmetic (E : list Expense) :
  (totalSpent E == sumValues (totalByCategory E))%Q.
Proof.
  unfold totalSpent, totalByCategory. apply totals_agree.
  unfold sumValues. rewrite map_fold_empty. reflexivity.
Qed.

End Aggregation.

(** * The effective budget *)

Module Budget.

Import JsDate DateFns Calendar MonthArith.

Lemma month_of_yearday_range leap k : 0 <= month_of_yearday leap k <= 11.
Proof.
  unfold month_of_yearday.
  repeat match goal with
    | |- context [if ?a <? ?b then _ else _] => destruct (a <? b); try lia
    end.
Qed.

Lemma month_of_yearday_le leap k :
  0 <= k -> month_start leap (month_of_yearday leap k) <= k.
Proof.
  intros Hk. unfold month_of_yearday.
  repeat match goal with
    | |- context [if ?a <? ?b then _ else _] => destruct (Z.ltb_spec a b)
    end; destruct leap; simpl in *; lia.
Qed.

Lemma YearFromDay_le d : DayFromYear (YearFromDay d) <= d.
Proof.
  unfold YearFromDay.
  repeat match goal with
    | |- context [if ?a <? ?b then _ else _] => destruct (Z.ltb_spec a b)
    | |- context [if ?a <=? ?b then _ else _] => destruct (Z.leb_spec a b)
    end; div_lia.
Qed.

Lemma getMonth_range tza t : 0 <= getMonth tza t <= 11.
Proof. apply month_of_yearday_range. Qed.

Lemma getDate_positive tza t : 1 <= getDate tza t.
Proof.
  unfold getDate, DateFromDay.
  pose proof (YearFromDay_le (Day (LocalTime tza t))).
  pose proof (month_of_yearday_le
    (InLeapYear (YearFromDay (Day (LocalTime tza t))))
    (Day (LocalTime tza t) - DayFromYear (YearFromDay (Day (LocalTime tza t))))
    ltac:(lia)).
  lia.
Qed.

Lemma format_any tza t :
  0 < getFullYear tza t ->
  format_yyyy_MM tza (TimeValue t) =
  Some (monthKey (getFullYear tza t) (getMonth tza t + 1)).
Proof.
  intros Hy.
  unfold format_yyyy_MM, fmt_yyyy, fmt_MM, addLeadingZeros, monthKey.
  pose proof (getMonth_range tza t) as Hm.
  destruct (Z.ltb_spec 0 (getFullYear tza t)); [| lia].
  destruct (Z.ltb_spec (getFullYear tza t) 0); [lia |].
  destruct (Z.ltb_spec (getMonth tza t + 1) 0); [lia |].
  rewrite !Z.abs_eq by lia. reflexivity.
Qed.

Lemma format_day tza t :
  0 < getFullYear tza t ->
  format_yyyy_MM_dd tza (TimeValue t) =
  Some (dayString (getFullYear tza t) (getMonth tza t + 1) (getDate tza t)).
Proof.
  intros Hy.
  unfold format_yyyy_MM_dd, fmt_yyyy, fmt_MM, fmt_dd, addLeadingZeros,
    dayString, monthKey.
  pose proof (getMonth_range tza t) as Hm.
  pose proof (getDate_positive tza t) as Hd.
  destruct (Z.ltb_spec 0 (getFullYear tza t)); [| lia].
  destruct (Z.ltb_spec (getFullYear tza t) 0); [lia |].
  destruct (Z.ltb_spec (getMonth tza t + 1) 0); [lia |].
  destruct (Z.ltb_spec (getDate tza t) 0); [lia |].
  rewrite !Z.abs_eq by lia.
  change (EmptyString +:+ ?a) with a. now rewrite !Reading.append_assoc.
Qed.

(** The month before the current one, for a clock between the years
    100 and 10000. *)
Lemma previous_of_current tza now :
  zone_ok tza -> 100 <= getFullYear tza now <= 10000 ->
  exists prev, (currentMonth tza now ≫= prevMonth tza) = Some prev.
Proof.
  intros Hz Hy. unfold currentMonth. rewrite format_any by lia.
  cbn [mbind option_bind].
  pose proof (getMonth_range tza now) as Hm.
  rewrite (prevMonth_key tza Hz) by lia. eauto.
Qed.

Lemma computeRollover_nonneg cat prev E (R : RolloverMap) :
  (forall v, R !! prev ≫= (fun r => r !! Category.id cat) = Some v ->
             (0 <= v)%Q) ->
  (0 <= computeRollover cat prev E R)%Q.
Proof.
  intros Hst. unfold computeRollover.
  destruct (negb (Category.rollover cat) || Qeq_bool (Category.budget cat) 0);
    [apply Qle_refl |].
  destruct (R !! prev ≫= (fun r => r !! Category.id cat)) as [v |];
    [now apply Hst | apply Q.le_max_r].
Qed.

End Budget.

(** * Timestamps *)

Module Timestamp.

Import JsDate Calendar Reading.

Lemma read_fixed_append n : forall s acc v rest,
  String.length s = n -> read_fixed n acc s = Some (v, EmptyString) ->
  read_fixed n acc (s +:+ rest) = Some (v, rest).
Proof.
  induction n as [| n IH]; intros s acc v rest Hlen H.
  - destruct s; [| discriminate]. cbn [read_fixed] in *. now injection H as ->.
  - destruct s as [| c s]; [discriminate |].
    rewrite append_cons. cbn [read_fixed] in *.
    destruct (JsNumber.digit_value 10 c); [| discriminate].
    apply IH; [now injection Hlen | exact H].
Qed.

Lemma fixed_ok_spec n z rest :
  fixed_ok n z = true -> read_fixed n 0 (pad n z +:+ rest) = Some (z, rest).
Proof.
  unfold fixed_ok. intros H. apply andb_true_iff in H as [Hlen Hr].
  apply Nat.eqb_eq in Hlen.
  destruct (read_fixed n 0 (pad n z)) as [[v [| ? ?]] |] eqn:E; try discriminate.
  apply Z.eqb_eq in Hr. subst v. now apply read_fixed_append.
Qed.

Lemma fixed_two z : 0 <= z <= 99 -> fixed_ok 2 z = true.
Proof.
  intros Hz. apply (forallb_upto (fixed_ok 2) 100); [| lia].
  vm_compute. reflexivity.
Qed.

Lemma fixed_three z : 0 <= z <= 999 -> fixed_ok 3 z = true.
Proof.
  intros Hz. apply (forallb_upto (fixed_ok 3) 1000); [| lia].
  vm_compute. reflexivity.
Qed.

Lemma fixed_four z : 0 <= z <= 9999 -> fixed_ok 4 z = true.
Proof.
  intros Hz. apply (forallb_upto (fixed_ok 4) 10000); [| lia].
  vm_compute. reflexivity.
Qed.

(** A string that starts with a digit is a year of four digits. *)
Lemma read_year_digit c s v :
  JsNumber.digit_value 10 c = Some v ->
  read_year (String c s) = read_fixed 4 0 (String c s).
Proof.
  intros H.
  destruct c as [[] [] [] [] [] [] [] []]; try reflexivity; discriminate H.
Qed.

Lemma read_year_four y rest :
  0 <= y <= 9999 -> read_year (pad 4 y +:+ rest) = Some (y, rest).
Proof.
  intros Hy. pose proof (fixed_ok_spec 4 y rest (fixed_four y Hy)) as H.
  destruct (pad 4 y +:+ rest) as [| c s] eqn:E; [discriminate H |].
  cbn [read_fixed] in H.
  destruct (JsNumber.digit_value 10 c) as [v |] eqn:Hc; [| discriminate H].
  rewrite (read_year_digit c s v Hc). cbn [read_fixed]. now rewrite Hc.
Qed.


Lemma expect_literal c rest : expect c (String c EmptyString +:+ rest) = Some rest.
Proof.
  change (String c EmptyString +:+ rest) with (String c rest).
  cbn [expect]. now rewrite Ascii.eqb_refl.
Qed.

(** The timestamp of the fields of a date and a time is read back; [ys]
    is the text of the year. *)
Lemma parse_fields ys Y Mo D h mi s ms :
  (forall rest, read_year (ys +:+ rest) = Some (Y, rest)) ->
  1 <= Mo <= 12 -> 1 <= D <= DaysInMonth Y (Mo - 1) ->
  0 <= h <= 23 -> 0 <= mi <= 59 -> 0 <= s <= 59 -> 0 <= ms <= 999 ->
  parse (ys +:+ "-" +:+ pad 2 Mo +:+ "-" +:+ pad 2 D +:+ "T" +:+
         pad 2 h +:+ ":" +:+ pad 2 mi +:+ ":" +:+ pad 2 s +:+ "." +:+
         pad 3 ms +:+ "Z") =
  TimeClip (MakeDate (MakeDay Y (Mo - 1) D) (MakeTime h mi s ms)).
Proof.
  intros HY HMo HD Hh Hmi Hs Hms.
  pose proof (DaysInMonth_bounds Y (Mo - 1) ltac:(lia)) as Hdim.
  unfold parse.
  rewrite HY. cbn [mbind option_bind].
  rewrite expect_literal. cbn [mbind option_bind].
  rewrite (fixed_ok_spec 2 Mo) by (apply fixed_two; lia). cbn [mbind option_bind].
  rewrite expect_literal. cbn [mbind option_bind].
  rewrite (fixed_ok_spec 2 D) by (apply fixed_two; lia). cbn [mbind option_bind].
  rewrite expect_literal. cbn [mbind option_bind].
  rewrite (fixed_ok_spec 2 h) by (apply fixed_two; lia). cbn [mbind option_bind].
  rewrite expect_literal. cbn [mbind option_bind].
  rewrite (fixed_ok_spec 2 mi) by (apply fixed_two; lia). cbn [mbind option_bind].
  rewrite expect_literal. cbn [mbind option_bind].
  rewrite (fixed_ok_spec 2 s) by (apply fixed_two; lia). cbn [mbind option_bind].
  rewrite expect_literal. cbn [mbind option_bind].
  rewrite <- (append_empty_r (pad 3 ms +:+ "Z")), append_assoc.
  rewrite (fixed_ok_spec 3 ms) by (apply fixed_three; lia). cbn [mbind option_bind].
  rewrite expect_literal. cbn [mbind option_bind String.eqb].
  destruct (Z.leb_spec 1 Mo); [| lia]. destruct (Z.leb_spec Mo 12); [| lia].
  destruct (Z.leb_spec 1 D); [| lia].
  destruct (Z.leb_spec D (DaysInMonth Y (Mo - 1))); [| lia].
  destruct (Z.leb_spec h 23); [| lia]. destruct (Z.leb_spec mi 59); [| lia].
  destruct (Z.leb_spec s 59); [| lia]. reflexivity.
Qed.

Lemma read_iso_year Y rest :
  0 <= Y <= 10000 -> read_year (iso_year Y +:+ rest) = Some (Y, rest).
Proof.
  intros HY. unfold iso_year.
  destruct (Z.leb_spec 0 Y); [| lia].
  destruct (Z.leb_spec Y 9999); cbn [andb].
  - apply read_year_four. lia.
  - assert (Y = 10000) as -> by lia.
    change (read_fixed 6 0 (pad 6 10000 +:+ rest) = Some (10000, rest)).
    apply fixed_ok_spec. vm_compute. reflexivity.
Qed.

Lemma YearFromDay_lt d : d < DayFromYear (YearFromDay d + 1).
Proof.
  unfold YearFromDay.
  repeat match goal with
    | |- context [if ?a <? ?b then _ else _] => destruct (Z.ltb_spec a b)
    | |- context [if ?a <=? ?b then _ else _] => destruct (Z.leb_spec a b)
    end; div_lia.
Qed.

Lemma month_of_yearday_lt (leap : bool) k :
  k < (if leap then 366 else 365) ->
  k < month_start leap (month_of_yearday leap k + 1).
Proof.
  intros Hk. unfold month_of_yearday.
  repeat match goal with
    | |- context [if ?a <? ?b then _ else _] => destruct (Z.ltb_spec a b)
    end; destruct leap; simpl in *; lia.
Qed.

(** The civil date of a day numbers that day. *)
Lemma day_fields d :
  0 <= MonthFromDay d <= 11 /\
  1 <= DateFromDay d <= DaysInMonth (YearFromDay d) (MonthFromDay d) /\
  MakeDay (YearFromDay d) (MonthFromDay d) (DateFromDay d) = d.
Proof.
  pose proof (Budget.YearFromDay_le d) as Hle.
  pose proof (YearFromDay_lt d) as Hlt.
  pose proof (DayFromYear_step (YearFromDay d)) as Hstep.
  set (Y := YearFromDay d) in *. set (k := d - DayFromYear Y).
  pose proof (Budget.month_of_yearday_range (InLeapYear Y) k) as Hm.
  pose proof (Budget.month_of_yearday_le (InLeapYear Y) k ltac:(unfold k; lia)) as Hlo.
  pose proof (month_of_yearday_lt (InLeapYear Y) k
                ltac:(unfold k; destruct (InLeapYear Y); lia)) as Hhi.
  unfold MonthFromDay, DateFromDay, DaysInMonth. fold Y. fold k.
  split; [exact Hm |]. split; [lia |].
  rewrite MakeDay_in_year by exact Hm. unfold k. lia.
Qed.

Lemma time_fields w :
  0 <= w < msPerDay ->
  0 <= w / 3600000 <= 23 /\ 0 <= w / 60000 mod 60 <= 59 /\
  0 <= w / 1000 mod 60 <= 59 /\ 0 <= w mod 1000 <= 999 /\
  MakeTime (w / 3600000) (w / 60000 mod 60) (w / 1000 mod 60) (w mod 1000) = w.
Proof.
  unfold msPerDay, MakeTime. intros Hw.
  Z.to_euclidean_division_equations. lia.
Qed.

(** [new Date(d.toISOString())] is [d], for a date of the years 0000 to
    10000 of UTC. *)
Lemma parse_iso_string t :
  0 <= YearFromDay (Day t) <= 10000 -> parse (iso_string t) = TimeValue t.
Proof.
  intros HY. unfold iso_string.
  destruct (day_fields (Day t)) as (HM & HD & Hday).
  assert (Hw : 0 <= TimeWithinDay t < msPerDay)
    by (unfold TimeWithinDay, msPerDay; Z.to_euclidean_division_equations; lia).
  destruct (time_fields _ Hw) as (Hh & Hmi & Hs & Hms & Htime).
  rewrite (parse_fields _ (YearFromDay (Day t)));
    [| intros rest; now apply read_iso_year | lia | | lia | lia | lia | lia];
    replace (MonthFromDay (Day t) + 1 - 1) with (MonthFromDay (Day t)) by lia;
    [| exact HD].
  rewrite Hday, Htime.
  assert (Ht : MakeDate (Day t) (TimeWithinDay t) = t).
  { unfold MakeDate, Day, TimeWithinDay, msPerDay.
    Z.to_euclidean_division_equations. lia. }
  rewrite Ht. unfold TimeClip.
  pose proof (Budget.YearFromDay_le (Day t)) as Hle.
  pose proof (YearFromDay_lt (Day t)) as Hlt.
  assert (Hb : -720000 <= Day t <= 2940000).
  { revert Hle Hlt. generalize (YearFromDay (Day t)) HY. intros Y HY' Hle Hlt.
    div_lia. }
  destruct (Z.ltb_spec maxTime (Z.abs t)) as [Hbig |]; [| reflexivity].
  exfalso. revert Hbig Hb. unfold maxTime, Day, msPerDay.
  Z.to_euclidean_division_equations. lia.
Qed.

(** The year of UTC at local midnight of a day of the years 100 to 9999. *)
Lemma utc_year_midnight tza y m dd :
  zone_ok tza -> 100 <= y <= 9999 -> 0 <= m <= 11 ->
  1 <= dd <= DaysInMonth y m ->
  0 <= YearFromDay (Day (localMidnight tza y m dd)) <= 10000.
Proof.
  intros Hz Hy Hm Hd.
  pose proof (MakeDay_in_year y m dd Hm) as HD.
  pose proof (month_start_bounds (InLeapYear y) m Hm) as [Hlo Hhi].
  pose proof (DayFromYear_step y) as Hstep.
  unfold DaysInMonth in Hd.
  assert (Hday : DayFromYear y - 1 <= Day (localMidnight tza y m dd)
                 <= DayFromYear (y + 1)).
  { unfold localMidnight, UTC, MakeDate, Day. unfold zone_ok, msPerDay in *.
    destruct (InLeapYear y); Z.to_euclidean_division_equations; lia. }
  pose proof (Budget.YearFromDay_le (Day (localMidnight tza y m dd))) as Hle.
  pose proof (YearFromDay_lt (Day (localMidnight tza y m dd))) as Hlt.
  revert Hday Hle Hlt.
  generalize (Day (localMidnight tza y m dd)),
    (YearFromDay (Day (localMidnight tza y m dd))).
  intros d Y Hday Hle Hlt. clear HD Hlo Hhi Hstep Hd. div_lia.
Qed.

(** An expense dated by [toISOString] has a valid date. *)
Lemma iso_dated e t :
  Expense.date e = iso_string t -> 0 <= YearFromDay (Day t) <= 10000 ->
  dated e /\ timeOf e = t.
Proof.
  intros He HY. unfold dated, timeOf.
  rewrite He, (parse_iso_string t HY). split; reflexivity.
Qed.

End Timestamp.

(** * The export *)

Module Csv.

Import JsString Reading.

(** ** The sort *)

Lemma compareByDate_dated a b :
  dated a -> dated b -> compareByDate a b = Some (timeOf a - timeOf b).
Proof.
  unfold dated, compareByDate, timeOf.
  destruct (JsDate.parse (Expense.date a)), (JsDate.parse (Expense.date b));
    simpl; intros; congruence.
Qed.

Lemma sort_insert_perm x l : Permutation (x :: l) (sort_insert x l).
Proof.
  induction l as [| y l IH]; simpl; [reflexivity |].
  destruct (compareByDate y x) as [c |].
  - destruct (0 <? c); [reflexivity |].
    rewrite perm_swap. now apply perm_skip.
  - rewrite perm_swap. now apply perm_skip.
Qed.

Lemma sort_insert_sorted x l :
  dated x -> Forall dated l ->
  StronglySorted by_time l -> StronglySorted by_time (sort_insert x l).
Proof.
  intros Hx Hl Hs. induction Hs as [| y l Hs IH Hy]; simpl.
  - constructor; constructor.
  - inversion Hl as [| ? ? Hdy Hdl]; subst.
    rewrite (compareByDate_dated y x Hdy Hx).
    destruct (Z.ltb_spec 0 (timeOf y - timeOf x)).
    + constructor; [now constructor |].
      constructor; [unfold by_time; lia |].
      revert Hy. apply List.Forall_impl. unfold by_time. intros; lia.
    + constructor; [now apply IH |].
      rewrite <- (sort_insert_perm x l).
      constructor; [unfold by_time; lia | exact Hy].
Qed.

Lemma sort_spec_acc l : forall acc,
  Forall dated l -> Forall dated acc -> StronglySorted by_time acc ->
  Permutation (acc ++ l) (fold_left (fun a x => sort_insert x a) l acc) /\
  StronglySorted by_time (fold_left (fun a x => sort_insert x a) l acc).
Proof.
  induction l as [| x l IH]; intros acc Hl Hacc Hs; simpl.
  - now rewrite app_nil_r.
  - inversion Hl as [| ? ? Hx Hl']; subst.
    destruct (IH (sort_insert x acc) Hl') as [Hp Hs'].
    + rewrite <- (sort_insert_perm x acc). now constructor.
    + now apply sort_insert_sorted.
    + split; [| exact Hs'].
      rewrite <- Hp, <- (sort_insert_perm x acc).
      now rewrite <- Permutation_middle.
Qed.

Lemma sort_spec l :
  Forall dated l ->
  Permutation l (sort l) /\ StronglySorted by_time (sort l).
Proof.
  intros Hl. apply (sort_spec_acc l [] Hl); constructor.
Qed.

(** ** The columns *)

Lemma find_append {A} (p : A -> bool) (l1 l2 : list A) :
  find p (l1 ++ l2) =
  match find p l1 with Some x => Some x | None => find p l2 end.
Proof.
  induction l1 as [| x l1 IH]; simpl; [reflexivity |].
  now destruct (p x).
Qed.

(** The dictionary of the categories keeps the last one of each id. *)
Lemma catMap_lookup (categories : list Category) k :
  forall acc : gmap string Category,
  fold_left (fun a c => <[Category.id c := c]> a) categories acc !! k =
  match find (fun c => String.eqb (Category.id c) k) (rev categories) with
  | Some c => Some c
  | None => acc !! k
  end.
Proof.
  induction categories as [| c l IH]; intros acc; simpl; [reflexivity |].
  rewrite IH, find_append.
  destruct (find (fun c => String.eqb (Category.id c) k) (rev l));
    [reflexivity |].
  simpl. destruct (String.eqb_spec (Category.id c) k) as [-> | Hne].
  - now rewrite lookup_insert_eq.
  - now rewrite lookup_insert_ne.
Qed.

Lemma is_digit_digit_char d : 0 <= d <= 9 -> is_digit (digit_char d) = true.
Proof.
  intros Hd.
  assert (H : d = 0 \/ d = 1 \/ d = 2 \/ d = 3 \/ d = 4 \/ d = 5 \/ d = 6 \/
              d = 7 \/ d = 8 \/ d = 9) by lia.
  repeat (destruct H as [-> | H]; [reflexivity |]). now subst.
Qed.

Lemma digits_go_digits fuel : forall n acc,
  0 <= n -> all_digits acc = true ->
  all_digits (digits_go fuel n acc) = true /\
  digits_go fuel n acc <> EmptyString.
Proof.
  assert (Hstep : forall n acc, 0 <= n -> all_digits acc = true ->
            all_digits (String (digit_char (n mod 10)) acc) = true).
  { intros n acc Hn Hacc. cbn [all_digits].
    rewrite is_digit_digit_char by (Z.to_euclidean_division_equations; lia).
    exact Hacc. }
  induction fuel as [| f IH]; intros n acc Hn Hacc; cbn [digits_go].
  - split; [now apply Hstep | discriminate].
  - destruct (n <? 10).
    + split; [now apply Hstep | discriminate].
    + apply IH; [Z.to_euclidean_division_equations; lia | now apply Hstep].
Qed.

Lemma of_Z_digits n :
  0 <= n -> all_digits (of_Z n) = true /\ of_Z n <> EmptyString.
Proof.
  intros Hn. unfold of_Z. destruct (Z.ltb_spec n 0); [lia |].
  now apply digits_go_digits.
Qed.

Lemma cents_two_digits k : 0 <= k < 100 -> cents_ok k = true.
Proof.
  intros Hk. apply (forallb_upto cents_ok 100); [| lia].
  vm_compute. reflexivity.
Qed.

Lemma digit_char_value d :
  0 <= d <= 9 -> Z.of_nat (Ascii.nat_of_ascii (digit_char d)) - 48 = d.
Proof.
  intros Hd.
  assert (H : d = 0 \/ d = 1 \/ d = 2 \/ d = 3 \/ d = 4 \/ d = 5 \/ d = 6 \/
              d = 7 \/ d = 8 \/ d = 9) by lia.
  repeat (destruct H as [-> | H]; [reflexivity |]). now subst.
Qed.

(** ** The amount *)

Lemma hundredths_digits s : forall acc,
  all_digits s = true ->
  hundredths acc s = acc * 10 ^ Z.of_nat (String.length s) + hundredths 0 s.
Proof.
  induction s as [| c s IH]; intros acc H; cbn [hundredths all_digits String.length] in *.
  - change (10 ^ Z.of_nat 0) with 1. lia.
  - apply andb_true_iff in H as [Hc Hs]. rewrite Hc.
    rewrite (IH _ Hs), (IH (0 * 10 + _) Hs), Nat2Z.inj_succ, Z.pow_succ_r by lia.
    ring.
Qed.

Lemma hundredths_append a : forall b acc,
  hundredths acc (a +:+ b) = hundredths (hundredths acc a) b.
Proof.
  induction a as [| c a IH]; intros b acc; [reflexivity |].
  rewrite append_cons. cbn [hundredths]. destruct (is_digit c); apply IH.
Qed.

Lemma digits_go_value fuel : forall n acc,
  0 <= n < 10 ^ (Z.of_nat fuel + 1) -> all_digits acc = true ->
  hundredths 0 (digits_go fuel n acc) =
  n * 10 ^ Z.of_nat (String.length acc) + hundredths 0 acc.
Proof.
  assert (Hstep : forall n acc, 0 <= n -> all_digits acc = true ->
            hundredths 0 (String (digit_char (n mod 10)) acc) =
            n mod 10 * 10 ^ Z.of_nat (String.length acc) + hundredths 0 acc).
  { intros n acc Hn Hacc. cbn [hundredths].
    rewrite is_digit_digit_char, digit_char_value
      by (Z.to_euclidean_division_equations; lia).
    rewrite (hundredths_digits acc _ Hacc). ring. }
  induction fuel as [| f IH]; intros n acc Hn Hacc; cbn [digits_go].
  - rewrite Hstep by (lia || assumption).
    change (10 ^ (Z.of_nat 0 + 1)) with 10 in Hn.
    now rewrite Z.mod_small by lia.
  - destruct (Z.ltb_spec n 10).
    + rewrite Hstep by (lia || assumption). now rewrite Z.mod_small by lia.
    + rewrite Nat2Z.inj_succ, Z.add_succ_l, Z.pow_succ_r in Hn by lia.
      rewrite IH.
      * rewrite Hstep by (lia || assumption). cbn [String.length].
        rewrite Nat2Z.inj_succ, Z.pow_succ_r by lia.
        rewrite (Z_div_mod_eq_full n 10) at 3. ring.
      * Z.to_euclidean_division_equations; lia.
      * cbn [all_digits].
        rewrite is_digit_digit_char
          by (Z.to_euclidean_division_equations; lia).
        exact Hacc.
Qed.

Lemma of_Z_value n : 0 <= n -> hundredths 0 (of_Z n) = n.
Proof.
  intros Hn. unfold of_Z, digits. destruct (Z.ltb_spec n 0); [lia |].
  rewrite digits_go_value; [cbn [String.length hundredths]; change (10 ^ Z.of_nat 0) with 1; lia | | reflexivity].
  rewrite Z2Nat.id by apply Z.log2_nonneg.
  split; [exact Hn |].
  destruct (Z.eq_dec n 0) as [-> | Hn0]; [reflexivity |].
  destruct (Z.log2_spec n ltac:(lia)) as [_ Hlt].
  apply (Z.lt_le_trans _ _ _ Hlt).
  rewrite <- Z.add_1_r.
  apply Z.pow_le_mono_l. pose proof (Z.log2_nonneg n). lia.
Qed.

Lemma toFixed2_amount_text x :
  (Qabs x < inject_Z (10 ^ 21))%Q ->
  exists s, JsNumber.toFixed2 x = Some s /\ amount_text x s.
Proof.
  intros Hx. unfold JsNumber.toFixed2.
  destruct (Qle_bool (inject_Z (10 ^ 21)) (Qabs x)) eqn:Hbig.
  { apply Qle_bool_iff in Hbig. exfalso. apply (Qlt_not_le _ _ Hx Hbig). }
  eexists. split; [reflexivity |].
  set (n := Qfloor (Qabs x * 100 + (1 # 2))).
  assert (Hn : 0 <= n).
  { change 0 with (Qfloor 0). apply Qfloor_resp_le.
    pose proof (Qabs_nonneg x). lra. }
  destruct (of_Z_digits (n / 100)) as [Hw1 Hw2];
    [Z.to_euclidean_division_equations; lia |].
  pose proof (cents_two_digits (n mod 100)
                ltac:(Z.to_euclidean_division_equations; lia)) as Hc.
  apply andb_true_iff in Hc as [Hc Hc3].
  apply andb_true_iff in Hc as [Hc1 Hc2].
  apply Nat.eqb_eq in Hc1. apply Z.eqb_eq in Hc3.
  assert (Hval : hundredths 0
            ((if Qle_bool 0 x then EmptyString else "-") +:+
             of_Z (n / 100) +:+ "." +:+ padStart 2 "0" (of_Z (n mod 100))) = n).
  { rewrite !hundredths_append.
    assert (Hs : hundredths 0 (if Qle_bool 0 x then EmptyString else "-") = 0)
      by now destruct (Qle_bool 0 x).
    rewrite Hs, of_Z_value by (Z.to_euclidean_division_equations; lia).
    change (hundredths (n / 100) ".") with (n / 100).
    rewrite (hundredths_digits _ _ Hc2), Hc1, Hc3.
    change (10 ^ Z.of_nat 2) with 100.
    Z.to_euclidean_division_equations; lia. }
  split; [| split; [| split]].
  - exists (if Qle_bool 0 x then EmptyString else "-"),
      (of_Z (n / 100)), (padStart 2 "0" (of_Z (n mod 100))).
    repeat split; auto.
    destruct (Qle_bool 0 x); auto.
  - destruct (Qle_bool 0 x); cbn [negb].
    + change (EmptyString +:+ ?a) with a.
      destruct (of_Z (n / 100)) as [| c r]; [contradiction |].
      rewrite append_cons. cbn [all_digits] in Hw1.
      apply andb_true_iff in Hw1 as [Hd _].
      cbn [String.prefix].
      destruct (ascii_dec "-" c) as [<- | _]; [discriminate | reflexivity].
    + change ("-" +:+ ?a) with (String "-"%char a). cbn [String.prefix].
      destruct (ascii_dec "-" "-"); [| congruence].
      match goal with |- String.prefix _ ?r = _ => destruct r; reflexivity end.
  - rewrite Hval. unfold n.
    pose proof (Qlt_floor (Qabs x * 100 + (1 # 2))) as H.
    rewrite inject_Z_plus in H. change (inject_Z 1) with 1%Q in H. lra.
  - rewrite Hval. unfold n. apply Qfloor_le.
Qed.

(** A numeral with two decimals has a point. *)
Lemma no_char_append c a : forall b,
  no_char c (a +:+ b) = no_char c a && no_char c b.
Proof.
  induction a as [| x a IH]; intros b; [reflexivity |].
  rewrite append_cons. cbn [no_char]. now rewrite IH, andb_assoc.
Qed.

Lemma two_decimals_point s : two_decimals s -> no_char "." s = false.
Proof.
  intros (sign & whole & frac & -> & _).
  rewrite !no_char_append. cbn [no_char Ascii.eqb].
  now rewrite !andb_false_r.
Qed.

(** ** The note *)

Lemma double_quotes_doubled s : double_quotes s = doubled s.
Proof.
  unfold doubled. change quotation_mark with dquote.
  induction s as [| c s IH]; [reflexivity |].
  cbn [double_quotes list_ascii_of_string flat_map].
  destruct (Ascii.eqb c dquote); cbn [app string_of_list_ascii];
    now rewrite IH.
Qed.

(** The note is read back from its column by halving the pairs of double
    quotes. *)
Lemma single_double_quotes s : single_quotes (double_quotes s) = s.
Proof.
  induction s as [| c s IH]; [reflexivity |].
  cbn [double_quotes]. destruct (Ascii.eqb c dquote) eqn:Hc.
  - apply Ascii.eqb_eq in Hc. subst c.
    cbn [single_quotes]. rewrite Ascii.eqb_refl. cbn [andb]. now rewrite IH.
  - cbn [single_quotes].
    destruct (double_quotes s) as [| c' s'] eqn:Hd.
    + cbn [single_quotes] in IH. now rewrite <- IH.
    + rewrite Hc. cbn [andb]. now rewrite IH.
Qed.

(** ** The rows *)

Lemma mapM_with {A B} (f : A -> option B) (P : A -> B -> Prop) (l : list A) :
  (forall x, In x l -> exists y, f x = Some y /\ P x y) ->
  exists k, mapM f l = Some k /\ Forall2 P l k.
Proof.
  induction l as [| x l IH]; intros H.
  - exists []. split; [reflexivity | constructor].
  - destruct (H x (or_introl eq_refl)) as (y & Hy & HP).
    destruct IH as (k & Hk & HF); [intros; apply H; now right |].
    exists (y :: k). split; [| now constructor].
    apply mapM_Some. constructor; [exact Hy | now apply mapM_Some].
Qed.

(** The commas and the newlines. *)
Lemma join_columns a b c d e f :
  JsString.join "," [a; b; c; d; e; f] = csvColumns a b c d e f.
Proof. reflexivity. Qed.

Lemma join_lines rows : forall first,
  JsString.join newline (first :: rows) = first +:+ csvLines rows.
Proof.
  unfold JsString.join.
  induction rows as [| row rows IH]; intros first.
  - cbn [String.concat csvLines]. now rewrite append_empty_r.
  - change (String.concat newline (first :: row :: rows))
      with (first +:+ newline +:+ String.concat newline (row :: rows)).
    now rewrite IH.
Qed.

(** The date column, for every year. *)
Lemma format_day_era tza t :
  DateFns.format_yyyy_MM_dd tza (TimeValue t) =
  Some (dayString (era_year (JsDate.getFullYear tza t))
          (JsDate.getMonth tza t + 1) (JsDate.getDate tza t)).
Proof.
  unfold DateFns.format_yyyy_MM_dd, DateFns.fmt_yyyy, DateFns.fmt_MM,
    DateFns.fmt_dd, DateFns.addLeadingZeros, dayString, monthKey, era_year.
  pose proof (Budget.getMonth_range tza t) as Hm.
  pose proof (Budget.getDate_positive tza t) as Hd.
  set (y := if 0 <? JsDate.getFullYear tza t
            then JsDate.getFullYear tza t else 1 - JsDate.getFullYear tza t).
  assert (Hy : 0 < y)
    by (unfold y; destruct (Z.ltb_spec 0 (JsDate.getFullYear tza t)); lia).
  destruct (Z.ltb_spec y 0); [lia |].
  destruct (Z.ltb_spec (JsDate.getMonth tza t + 1) 0); [lia |].
  destruct (Z.ltb_spec (JsDate.getDate tza t) 0); [lia |].
  rewrite !Z.abs_eq by lia.
  change (EmptyString +:+ ?a) with a. now rewrite !Reading.append_assoc.
Qed.

Lemma csvRow_spec tza categories currency e :
  dated e -> (Qabs (Expense.amount e) < inject_Z (10 ^ 21))%Q ->
  exists row,
    csvRow tza
      (fold_left (fun a c => <[Category.id c := c]> a) categories ∅)
      currency e = Some row /\
    csvRowSpec tza categories currency e row.
Proof.
  intros Hd Ha. unfold csvRow, csvRowSpec, dated, timeOf in *.
  destruct (JsDate.parse (Expense.date e)) as [| t]; [discriminate |].
  destruct (toFixed2_amount_text _ Ha) as (amt & Hamt & Htext).
  rewrite Hamt, catMap_lookup, lookup_empty, format_day_era.
  cbn [mbind option_bind].
  eexists. split; [reflexivity |].
  exists amt. split; [exact Htext |].
  rewrite double_quotes_doubled, join_columns. unfold categoryName.
  now destruct (find (fun c => String.eqb (Category.id c) (Expense.categoryId e))
                  (rev categories)).
Qed.

End Csv.

(** * Day strings *)

Module DayStrings.

Import JsDate DateFns Calendar Reading MonthArith.

Lemma reads_plain y : 0 <= y <= 9999 -> reads 0 y = true.
Proof.
  intros Hy. apply (forallb_upto (reads 0) 10000); [| lia].
  vm_compute. reflexivity.
Qed.

Lemma of_Z_year y : 1000 <= y <= 9999 -> JsString.of_Z y = pad 4 y.
Proof.
  intros Hy. apply String.eqb_eq.
  replace y with (y - 1000 + 1000) by lia.
  apply (forallb_upto plain_year 9000); [| lia].
  vm_compute. reflexivity.
Qed.

(** The local day of a time value. *)
Lemma local_day tza t :
  let d := Day (LocalTime tza t) in
  localMidnight tza (YearFromDay d) (MonthFromDay d) (DateFromDay d) =
  d * msPerDay - tza.
Proof.
  intros d. unfold localMidnight, UTC, MakeDate.
  destruct (Timestamp.day_fields d) as (_ & _ & ->). lia.
Qed.

Lemma dateToString_day tza t :
  1000 <= getFullYear tza t <= 9999 ->
  dateToString tza (TimeValue t) =
  dayString (getFullYear tza t) (getMonth tza t + 1) (getDate tza t).
Proof.
  intros Hy. unfold dateToString, dayString, monthKey.
  rewrite (of_Z_year _ Hy). change (JsString.padStart 2 "0" (JsString.of_Z ?z))
    with (pad 2 z).
  now rewrite !append_assoc.
Qed.

Lemma parse_plain tza y m d :
  zone_ok tza -> 100 <= y <= 9999 -> 0 <= m <= 99 -> 0 <= d <= 99 ->
  parseLocalDate tza
    (JsString.of_Z y +:+ "-" +:+ pad 2 m +:+ "-" +:+ pad 2 d) =
  Some (TimeValue (localMidnight tza y (m - 1) d)).
Proof.
  intros Hz Hy Hm Hd.
  destruct (reads_spec 0 y (reads_plain y ltac:(lia))) as (Hy1 & Hy2 & Hy3 & _).
  destruct (reads_spec 2 m (reads_two m Hm)) as (Hm1 & Hm2 & _ & Hm4).
  destruct (reads_spec 2 d (reads_two d Hd)) as (Hd1 & Hd2 & Hd3 & _).
  change (pad 0 y) with (JsString.of_Z y) in *.
  unfold parseLocalDate.
  change ("-" +:+ pad 2 m +:+ "-" +:+ pad 2 d)
    with (String JsString.hyphen (pad 2 m +:+ String JsString.hyphen (pad 2 d))).
  rewrite (split_three JsString.hyphen _ _ _ Hy1 Hm1 Hd1).
  cbn [length Nat.eqb negb map nth].
  rewrite Hy2, Hm2, Hd2. cbn [orb].
  rewrite (make_midnight tza Hz _ _ _ y (m - 1) d Hy3 Hm4 Hd3);
    rewrite ?MakeFullYear_late by lia;
    [reflexivity | Z.to_euclidean_division_equations; lia | lia].
Qed.

Lemma getDate_range tza t :
  1 <= getDate tza t <= DaysInMonth (getFullYear tza t) (getMonth tza t).
Proof.
  unfold getDate, getFullYear, getMonth.
  apply (Timestamp.day_fields (Day (LocalTime tza t))).
Qed.

End DayStrings.

(** * The months of the expenses *)

Module Buckets.

Import JsDate Reading.

Lemma prefix_same_length (a : string) : forall b s,
  String.prefix a s = true -> String.prefix b s = true ->
  String.length a = String.length b -> a = b.
Proof.
  induction a as [| x a IH]; intros [| y b] [| z s] Ha Hb Hl;
    try reflexivity; try discriminate.
  simpl in Ha, Hb.
  destruct (ascii_dec x z) as [-> |]; [| discriminate].
  destruct (ascii_dec y z) as [-> |]; [| discriminate].
  f_equal. apply (IH b s Ha Hb). simpl in Hl. lia.
Qed.

(** The key of a month determines the year and the month. *)
Lemma monthKey_inj y m y' m' :
  0 <= y <= 9999 -> 0 <= m <= 99 -> 0 <= y' <= 9999 -> 0 <= m' <= 99 ->
  monthKey y m = monthKey y' m' -> y = y' /\ m = m'.
Proof.
  intros Hy Hm Hy' Hm' H.
  assert (R : forall a b, 0 <= a <= 9999 -> 0 <= b <= 99 ->
            read_fixed 4 0 (monthKey a b) =
            Some (a, String JsString.hyphen (pad 2 b))).
  { intros a b Ha Hb. unfold monthKey.
    apply (Timestamp.fixed_ok_spec 4 a), Timestamp.fixed_four, Ha. }
  pose proof (R y m Hy Hm) as R1. rewrite H, (R y' m' Hy' Hm') in R1.
  injection R1 as Ey Em. split; [congruence |].
  pose proof (Timestamp.fixed_ok_spec 2 m EmptyString (Timestamp.fixed_two m Hm)) as F.
  pose proof (Timestamp.fixed_ok_spec 2 m' EmptyString (Timestamp.fixed_two m' Hm')) as F'.
  rewrite append_empty_r in F, F'. rewrite Em in F'. congruence.
Qed.

(** The text of [toISOString] begins with the key of the month of the
    UTC date. *)
Lemma iso_string_key t :
  0 <= YearFromDay (Day t) <= 9999 ->
  exists rest,
    iso_string t =
    monthKey (YearFromDay (Day t)) (MonthFromDay (Day t) + 1) +:+ rest.
Proof.
  intros Hy. unfold iso_string, iso_year, monthKey.
  destruct (Z.leb_spec 0 (YearFromDay (Day t))); [| lia].
  destruct (Z.leb_spec (YearFromDay (Day t)) 9999); [| lia].
  cbn [andb]. eexists. rewrite !append_assoc. reflexivity.
Qed.

(** The getters in the zone of offset 0 are the UTC getters. *)
Lemma utc_getters t :
  getFullYear 0 t = YearFromDay (Day t) /\
  getMonth 0 t = MonthFromDay (Day t).
Proof.
  unfold getFullYear, getMonth, LocalTime. now rewrite Z.add_0_r.
Qed.

End Buckets.

(** * Sums of amounts *)

Module Sums.

Lemma sum_from (l : list Expense) : forall s : Q,
  (fold_left (fun sum e => (sum + Expense.amount e)%Q) l s ==
   s + totalSpent l)%Q.
Proof.
  unfold totalSpent.
  induction l as [| e l IH]; intros s; cbn [fold_left].
  - ring.
  - rewrite (IH (s + Expense.amount e)%Q), (IH (0 + Expense.amount e)%Q). ring.
Qed.

Lemma totalSpent_cons e l :
  (totalSpent (e :: l) == Expense.amount e + totalSpent l)%Q.
Proof.
  unfold totalSpent at 1. cbn [fold_left]. rewrite sum_from. ring.
Qed.

Lemma totalSpent_app l1 l2 :
  (totalSpent (l1 ++ l2) == totalSpent l1 + totalSpent l2)%Q.
Proof.
  induction l1 as [| e l1 IH]; cbn [app].
  - unfold totalSpent at 2. cbn [fold_left]. ring.
  - rewrite !totalSpent_cons, IH. ring.
Qed.

Lemma totalSpent_nonneg l :
  (forall e, In e l -> (0 <= Expense.amount e)%Q) -> (0 <= totalSpent l)%Q.
Proof.
  induction l as [| e l IH]; intros H.
  - apply Qle_refl.
  - rewrite totalSpent_cons.
    pose proof (H e (or_introl eq_refl)).
    pose proof (IH (fun x Hx => H x (or_intror Hx))). lra.
Qed.

(** The dictionary of the totals, from any accumulator. *)
Lemma totals_lookup (c : string) (l : list Expense) :
  forall acc : gmap string Q,
  let r :=
    fold_left
      (fun acc e =>
         <[Expense.categoryId e :=
             (default 0 (acc !! Expense.categoryId e) + Expense.amount e)%Q]> acc)
      l acc in
  (r !! c = None <->
   acc !! c = None /\ forall e, In e l -> Expense.categoryId e <> c) /\
  (default 0 (r !! c) ==
   default 0 (acc !! c) +
   totalSpent (List.filter (fun e => String.eqb (Expense.categoryId e) c) l))%Q.
Proof.
  induction l as [| e l IH]; intros acc; cbn [fold_left List.filter].
  - split; [| unfold totalSpent; cbn [fold_left]; ring].
    split; [intros H; split; [exact H | intros e []] | intros [H _]; exact H].
  - cbv zeta in IH |- *.
    specialize (IH (<[Expense.categoryId e :=
      (default 0 (acc !! Expense.categoryId e) + Expense.amount e)%Q]> acc)).
    destruct IH as [IH1 IH2]. rewrite IH1, IH2.
    destruct (String.eqb_spec (Expense.categoryId e) c) as [Heq | Hne].
    + subst c. rewrite lookup_insert_eq. split.
      * split; [intros [H _]; discriminate |].
        intros [_ H]. exfalso. exact (H e (or_introl eq_refl) eq_refl).
      * cbn [default]. unfold id. rewrite totalSpent_cons. ring.
    + rewrite lookup_insert_ne by exact Hne. split; [| reflexivity].
      split.
      * intros [H1 H2]. split; [exact H1 |].
        intros x [<- | Hx]; [exact Hne | now apply H2].
      * intros [H1 H2]. split; [exact H1 |].
        intros x Hx. apply H2. now right.
Qed.

End Sums.

(** * The rollover and the local month *)

Module Rollover.

Lemma totalSpent_total_of l :
  (totalSpent l == total_of (map Expense.amount l))%Q.
Proof.
  induction l as [| e l IH]; [reflexivity |].
  rewrite Sums.totalSpent_cons, IH. reflexivity.
Qed.

Lemma filter_both {A} (p q : A -> bool) (l : list A) :
  List.filter p (List.filter q l) = List.filter (fun x => p x && q x) l.
Proof.
  induction l as [| x l IH]; [reflexivity |].
  cbn [List.filter]. destruct (q x); cbn [List.filter].
  - destruct (p x); cbn [andb]; now rewrite IH.
  - now rewrite andb_false_r.
Qed.

(** Where the text of the date of every expense begins with the key
    exactly when the local month of the expense is the month of the key,
    [computeRollover] returns the rollover of the specification. *)
Lemma computeRollover_local tza cat key E (R : RolloverMap) :
  (forall e, In e E ->
     JsString.startsWith (Expense.date e) key =
     String.eqb (localMonth tza e) key) ->
  (computeRollover cat key E R == rolloverSpec tza cat key E R)%Q.
Proof.
  intros H. unfold computeRollover, rolloverSpec.
  destruct (negb (Category.rollover cat) || Qeq_bool (Category.budget cat) 0);
    [reflexivity |].
  destruct (R !! key ≫= (fun r => r !! Category.id cat)); [reflexivity |].
  cbv zeta. fold (totalSpent
    (List.filter (fun e => String.eqb (Expense.categoryId e) (Category.id cat))
       (expensesForMonth E key))).
  unfold spentInMonth, expensesForMonth.
  rewrite filter_both, totalSpent_total_of.
  rewrite (List.filter_ext_in
             (fun e => String.eqb (Expense.categoryId e) (Category.id cat)
                       && JsString.startsWith (Expense.date e) key)
             (fun e => String.eqb (Expense.categoryId e) (Category.id cat)
                       && String.eqb (localMonth tza e) key) E).
  - reflexivity.
  - intros e He. now rewrite (H e He).
Qed.

End Rollover.

(** * Sums of binary64 numbers *)

Module Rounding.

Import Binary64.

Lemma exact_add_values x y :
  exact_add x y = true ->
  exists p q r, value x = Some p /\ value y = Some q /\
                value (add x y) = Some r /\ (r == p + q)%Q.
Proof.
  unfold exact_add.
  destruct (value x) as [p |]; [| discriminate].
  destruct (value y) as [q |]; [| discriminate].
  destruct (value (add x y)) as [r |]; [| discriminate].
  intros H. apply Qeq_bool_iff in H. eauto 8.
Qed.

Lemma real_sum_cons x l :
  real_sum (x :: l) = (default 0 (value x) + real_sum l)%Q.
Proof. reflexivity. Qed.

(** A sum without rounding is the sum of the real numbers. *)
Lemma exact_sum_value l : forall s p,
  value s = Some p -> exact_sum s l = true ->
  exists r, value (fold_left add l s) = Some r /\ (r == p + real_sum l)%Q.
Proof.
  induction l as [| v l IH]; intros s p Hs H; cbn [exact_sum fold_left] in *.
  - exists p. split; [exact Hs | symmetry; apply Qplus_0_r].
  - apply andb_true_iff in H as [Hv Hl].
    destruct (exact_add_values _ _ Hv) as (p' & q & r & Hp & Hq & Hr & Hsum).
    rewrite Hs in Hp. injection Hp as <-.
    destruct (IH _ _ Hr Hl) as (r' & Hr' & Hsum').
    exists r'. split; [exact Hr' |].
    rewrite real_sum_cons, Hq. change (default 0%Q (Some q)) with q.
    rewrite Hsum', Hsum. ring.
Qed.

Lemma real_sum_perm l l' : Permutation l l' -> (real_sum l == real_sum l')%Q.
Proof.
  induction 1; rewrite ?real_sum_cons.
  - reflexivity.
  - now rewrite IHPermutation.
  - ring.
  - etransitivity; eassumption.
Qed.

Lemma or_zero_value k acc p :
  value (or_zero (property k acc)) = Some p -> (p == stored k acc)%Q.
Proof.
  unfold stored. destruct (property k acc) as [[s | s | | s m e] |];
    cbn [or_zero value]; intros H;
    try discriminate; injection H as <-; reflexivity.
Qed.

Lemma assign_sum k v acc :
  (real_sum (values (assign k v acc)) ==
   real_sum (values acc) - stored k acc + default 0 (value v))%Q.
Proof.
  unfold stored, values.
  induction acc as [| [k' v'] acc IH]; cbn [assign property map snd].
  - rewrite real_sum_cons. change (real_sum []) with 0%Q. ring.
  - destruct (String.eqb k' k); cbn [map snd]; rewrite !real_sum_cons.
    + ring.
    + rewrite IH. ring.
Qed.

(** Without rounding, the values of the dictionary add up to what the
    accumulator held and the amounts. *)
Lemma totals_sum l : forall acc,
  exact_totals acc l = true ->
  (real_sum
     (values
        (fold_left
           (fun acc e =>
              assign (categoryId e)
                (add (or_zero (property (categoryId e) acc)) (amount e)) acc)
           l acc)) ==
   real_sum (values acc) + real_sum (map amount l))%Q.
Proof.
  induction l as [| e l IH]; intros acc H; cbn [exact_totals fold_left map] in *.
  - change (real_sum []) with 0%Q. ring.
  - apply andb_true_iff in H as [He Hl].
    destruct (exact_add_values _ _ He) as (p & q & r & Hp & Hq & Hr & Hsum).
    rewrite (IH _ Hl), assign_sum, real_sum_cons, Hr, Hq.
    change (default 0%Q (Some r)) with r. change (default 0%Q (Some q)) with q.
    rewrite <- (or_zero_value _ _ _ Hp), Hsum. ring.
Qed.

Lemma fold_amounts (l : list expense) : forall s,
  fold_left (fun sum e => add sum (amount e)) l s =
  fold_left add (map amount l) s.
Proof. induction l as [| e l IH]; intros s; cbn; [reflexivity | apply IH]. Qed.

End Rounding.

(** * The loop of the generator, further *)

Module Recurrence.

Import Generator.

Lemma loop_length tza y m dim key me templates : forall acc out,
  generate_loop tza y m dim key me templates acc = Some out ->
  (length out <= length acc + length templates)%nat.
Proof.
  induction templates as [| t ts IH]; intros acc out H; cbn [generate_loop] in H.
  - injection H as <-. simpl. lia.
  - destruct (alreadyExists me t).
    + apply IH in H. simpl. lia.
    + destruct (JsDate.toISOString _); [| discriminate].
      apply IH in H. rewrite length_app in H. simpl in *. lia.
Qed.

(** The loop sees the expenses of the month through the existence test
    only. *)
Lemma loop_ext tza y m dim key me1 me2 templates : forall acc,
  (forall t, alreadyExists me1 t = alreadyExists me2 t) ->
  generate_loop tza y m dim key me1 templates acc =
  generate_loop tza y m dim key me2 templates acc.
Proof.
  induction templates as [| t ts IH]; intros acc H; cbn [generate_loop];
    [reflexivity |].
  rewrite (H t). destruct (alreadyExists me2 t); [now apply IH |].
  destruct (JsDate.toISOString _); [now apply IH | reflexivity].
Qed.

Lemma alreadyExists_recurring E k t :
  alreadyExists (expensesForMonth (List.filter Expense.isRecurring E) k) t =
  alreadyExists (expensesForMonth E k) t.
Proof.
  unfold expensesForMonth, alreadyExists.
  induction E as [| e E IH]; [reflexivity |].
  cbn [List.filter].
  destruct (Expense.isRecurring e) eqn:Hr; cbn [List.filter];
    destruct (JsString.startsWith (Expense.date e) k); cbn [existsb];
    rewrite ?Hr, ?IH; reflexivity.
Qed.

End Recurrence.

(** * Stability of the sort *)

Module Stability.

Import Csv.

Lemma filter_later t y l :
  t < timeOf y -> Forall (by_time y) l ->
  List.filter (at_time t) (y :: l) = [].
Proof.
  intros Hy Hl. apply Generator.filter_none. intros x [<- | Hx];
    unfold at_time; apply Z.eqb_neq.
  - lia.
  - rewrite List.Forall_forall in Hl. specialize (Hl x Hx).
    unfold by_time in Hl. lia.
Qed.

Lemma sort_insert_filter t x l :
  dated x -> Forall dated l -> StronglySorted by_time l ->
  List.filter (at_time t) (sort_insert x l) =
  List.filter (at_time t) l ++ List.filter (at_time t) [x].
Proof.
  intros Hx Hl Hs. induction l as [| y l IH]; [reflexivity |].
  apply Forall_cons_iff in Hl as [Hy Hl].
  apply StronglySorted_inv in Hs as [Hs Hyl].
  cbn [sort_insert]. rewrite (compareByDate_dated y x Hy Hx).
  destruct (Z.ltb_spec 0 (timeOf y - timeOf x)) as [Hlt | Hge].
  - change (x :: y :: l) with ([x] ++ y :: l). rewrite List.filter_app.
    destruct (List.filter (at_time t) [x]) as [| x' r] eqn:Hfx.
    + now rewrite app_nil_r.
    + assert (Ht : timeOf x = t).
      { cbn [List.filter] in Hfx. unfold at_time in Hfx.
        destruct (Z.eqb_spec (timeOf x) t); [assumption | discriminate]. }
      rewrite (filter_later t y l); [now rewrite app_nil_r | lia | exact Hyl].
  - change (y :: sort_insert x l) with ([y] ++ sort_insert x l).
    change (y :: l) with ([y] ++ l).
    rewrite !List.filter_app, (IH Hl Hs), app_assoc. reflexivity.
Qed.

Lemma sort_filter_acc t l : forall acc,
  Forall dated l -> Forall dated acc -> StronglySorted by_time acc ->
  List.filter (at_time t) (fold_left (fun a x => sort_insert x a) l acc) =
  List.filter (at_time t) acc ++ List.filter (at_time t) l.
Proof.
  induction l as [| x l IH]; intros acc Hl Ha Hs; cbn [fold_left].
  - now rewrite app_nil_r.
  - apply Forall_cons_iff in Hl as [Hx Hl].
    rewrite IH.
    + rewrite (sort_insert_filter t x acc Hx Ha Hs), <- app_assoc.
      f_equal. symmetry. apply (List.filter_app (at_time t) [x] l).
    + exact Hl.
    + apply (Permutation_Forall (sort_insert_perm x acc)).
      now constructor.
    + now apply sort_insert_sorted.
Qed.

End Stability.

(** * The updaters of the provider *)

Module Provider.

Import BudgetContext.

Lemma find_deleted cats id :
  find (fun c => String.eqb (Category.id c) id) (deleteCategory cats id) = None.
Proof.
  unfold deleteCategory. induction cats as [| c cats IH]; [reflexivity |].
  cbn [List.filter].
  destruct (String.eqb (Category.id c) id) eqn:Hc; cbn [negb]; [exact IH |].
  cbn [find]. rewrite Hc. exact IH.
Qed.

Lemma find_none_rev {A} (p : A -> bool) (l : list A) :
  find p l = None -> find p (rev l) = None.
Proof.
  intros H. destruct (find p (rev l)) as [x |] eqn:Hf; [| reflexivity].
  apply find_some in Hf as [Hin Hp]. apply in_rev in Hin.
  pose proof (find_none p l H x Hin). congruence.
Qed.

End Provider.

(** * The bars of the chart *)

Module Bars.

Import Charts.

Lemma slice_key y m :
  0 <= y <= 9999 -> JsString.slice 5 (monthKey y m) = JsDate.pad 2 m.
Proof.
  intros Hy. unfold monthKey.
  change ("-" +:+ JsDate.pad 2 m) with (String "-" (JsDate.pad 2 m)).
  pose proof (Reading.width_year y Hy) as Hw.
  destruct (JsDate.pad 4 y) as [| a [| b [| c [| d [| ? ?]]]]]; try discriminate.
  reflexivity.
Qed.

Lemma monthsBefore_0 y m : 1 <= m <= 12 -> monthsBefore y m 0 = monthKey y m.
Proof.
  intros Hm. unfold monthsBefore. cbv zeta. f_equal;
    Z.to_euclidean_division_equations; lia.
Qed.

Lemma prevMonth_before tza y m j :
  zone_ok tza -> 1 <= m <= 12 -> 0 <= j ->
  1200 < 12 * y + (m - 1) - j -> y <= 9999 ->
  prevMonth tza (monthsBefore y m j) = Some (monthsBefore y m (j + 1)).
Proof.
  intros Hz Hm Hj Hlo Hhi. unfold monthsBefore. cbv zeta.
  set (i := 12 * y + (m - 1) - j).
  replace (12 * y + (m - 1) - (j + 1)) with (i - 1) by (unfold i; lia).
  assert (Hi : 1200 < i <= 12 * 9999 + 11) by (unfold i; lia).
  clearbody i.
  rewrite (MonthArith.prevMonth_key tza Hz)
    by (Z.to_euclidean_division_equations; lia).
  f_equal. destruct (Z.eqb_spec (i mod 12 + 1) 1).
  - f_equal; Z.to_euclidean_division_equations; lia.
  - f_equal; Z.to_euclidean_division_equations; lia.
Qed.

Lemma pad_two_inj a b :
  0 <= a <= 99 -> 0 <= b <= 99 -> JsDate.pad 2 a = JsDate.pad 2 b -> a = b.
Proof.
  intros Ha Hb H.
  pose proof (Timestamp.fixed_ok_spec 2 a EmptyString (Timestamp.fixed_two a Ha)) as F.
  pose proof (Timestamp.fixed_ok_spec 2 b EmptyString (Timestamp.fixed_two b Hb)) as F'.
  rewrite H in F. congruence.
Qed.

Lemma maxBar_ge (l : list Q) :
  (1 <= fold_right Qmax 1 l)%Q /\
  forall v, In v l -> (v <= fold_right Qmax 1 l)%Q.
Proof.
  induction l as [| x l [IH1 IH2]]; cbn [fold_right].
  - split; [apply Qle_refl | intros v []].
  - split.
    + eapply Qle_trans; [exact IH1 | apply Q.le_max_r].
    + intros v [<- | Hv]; [apply Q.le_max_l |].
      eapply Qle_trans; [exact (IH2 v Hv) | apply Q.le_max_r].
Qed.

End Bars.

(** * The ids of the generated entries *)

Module Ids.

Import Reading.

Lemma append_cancel_r (c : string) (a : string) : forall b,
  a +:+ c = b +:+ c -> a = b.
Proof.
  induction a as [| x a IH]; intros [| y b] H.
  - reflexivity.
  - apply (f_equal String.length) in H.
    rewrite append_cons in H. cbn [String.length] in H.
    rewrite !length_append in H. simpl in H. lia.
  - apply (f_equal String.length) in H.
    rewrite append_cons in H. cbn [String.length] in H.
    rewrite !length_append in H. simpl in H. lia.
  - rewrite !append_cons in H. injection H as -> H. f_equal. now apply IH.
Qed.

Lemma loop_ids tza y m dim key me templates : forall acc out,
  generate_loop tza y m dim key me templates acc = Some out ->
  map Expense.id out =
  map Expense.id acc ++
  map (fun t => Expense.id t +:+ "_" +:+ key)
      (List.filter (fun t => negb (alreadyExists me t)) templates).
Proof.
  induction templates as [| t ts IH]; intros acc out H;
    cbn [generate_loop List.filter] in *.
  - injection H as <-. now rewrite app_nil_r.
  - destruct (alreadyExists me t); cbn [negb].
    + now apply IH.
    + destruct (JsDate.toISOString _); [| discriminate].
      rewrite (IH _ _ H), map_app, <- app_assoc. reflexivity.
Qed.

Lemma NoDup_map_filter {A B} (f : A -> B) (p : A -> bool) (l : list A) :
  List.NoDup (map f l) -> List.NoDup (map f (List.filter p l)).
Proof.
  induction l as [| x l IH]; cbn [map List.filter]; intros H; [constructor |].
  apply List.NoDup_cons_iff in H as [Hx Hl].
  destruct (p x); [| now apply IH].
  cbn [map]. constructor; [| now apply IH].
  intros Hin. apply Hx. apply in_map_iff in Hin as (z & Hz & Hin).
  apply filter_In in Hin as [Hin _]. apply in_map_iff. eauto.
Qed.

(** With an invalid date for every day, the loop throws at the first
    template that it does not skip. *)
Lemma loop_invalid tza y m dim key me templates : forall acc,
  (forall d, JsDate.make tza y (JsNumber.pred m) d = InvalidDate) ->
  generate_loop tza y m dim key me templates acc =
  if forallb (alreadyExists me) templates then Some acc else None.
Proof.
  induction templates as [| t ts IH]; intros acc H;
    cbn [generate_loop forallb]; [reflexivity |].
  destruct (alreadyExists me t); cbn [andb]; [now apply IH |].
  now rewrite H.
Qed.

End Ids.

(** * Comparison of amounts *)

Module Amounts.

Lemma less_lt a b : less a b = true <-> (a < b)%Q.
Proof.
  unfold less. rewrite negb_true_iff. split.
  - intros H. apply Qnot_le_lt. intros Hle.
    apply Qle_bool_iff in Hle. congruence.
  - intros H. destruct (Qle_bool b a) eqn:E; [| reflexivity].
    apply Qle_bool_iff in E. apply Qlt_not_le in H. contradiction.
Qed.

End Amounts.

(** * The slices of the donut *)

Module Donut.

Import Charts.

Lemma spent_of (E : list Expense) (c : string) :
  (default 0 (totalByCategory E !! c) ==
   totalSpent (List.filter (fun e => String.eqb (Expense.categoryId e) c) E))%Q.
Proof.
  destruct (Sums.totals_lookup c E ∅) as [_ H2].
  unfold totalByCategory. rewrite H2, lookup_empty. cbn [default from_option].
  ring.
Qed.

(** Part of the expenses cost no more than all of them, no amount being
    negative. *)
Lemma totalSpent_filter_le (p : Expense -> bool) (E : list Expense) :
  (forall e, In e E -> (0 <= Expense.amount e)%Q) ->
  (totalSpent (List.filter p E) <= totalSpent E)%Q.
Proof.
  induction E as [| e E IH]; intros H; [apply Qle_refl |].
  pose proof (H e (or_introl eq_refl)) as He.
  specialize (IH (fun x Hx => H x (or_intror Hx))).
  cbn [List.filter]. destruct (p e); rewrite ?Sums.totalSpent_cons; lra.
Qed.

Lemma slices_cats sp total cats : forall angle,
  map cat (slices_from sp total angle cats) = cats.
Proof.
  induction cats as [| c cats IH]; intros angle; [reflexivity |].
  cbn [slices_from map cat]. now rewrite IH.
Qed.

(** The share and the end of a slice. *)
Lemma slices_share sp total cats : forall angle s,
  In s (slices_from sp total angle cats) ->
  (pct s == default 0 (sp !! Category.id (cat s)) / total)%Q /\
  (endAngle s == startAngle s + pct s * 360)%Q.
Proof.
  induction cats as [| c cats IH]; intros angle s Hs; [destruct Hs |].
  cbn [slices_from] in Hs. destruct Hs as [<- | Hs].
  - cbn [pct cat endAngle startAngle]. split; reflexivity.
  - exact (IH _ _ Hs).
Qed.

Lemma slices_chain sp total cats : forall angle s1 s2 l1 l2,
  slices_from sp total angle cats = l1 ++ s1 :: s2 :: l2 ->
  startAngle s2 = endAngle s1.
Proof.
  induction cats as [| c cats IH]; intros angle s1 s2 l1 l2 H.
  - destruct l1; discriminate.
  - cbn [slices_from] in H. destruct l1 as [| x l1].
    + cbn [app] in H. injection H as <- H.
      destruct cats as [| c' cats]; [discriminate |].
      cbn [slices_from] in H. injection H as <- _. reflexivity.
    + cbn [app] in H. injection H as _ H. exact (IH _ _ _ _ _ H).
Qed.

End Donut.

(** * The second run of the generator *)

Module SecondRun.

Import JsDate Calendar Generator.

(** East of Greenwich local midnight falls on the day before of UTC,
    which is in the same month from the second day on. *)
Lemma iso_in_month_east tza y m dd :
  0 < tza <= msPerDay -> 0 <= y <= 9999 -> 1 <= m <= 12 ->
  2 <= dd <= DaysInMonth y (m - 1) ->
  JsString.startsWith (iso_string (localMidnight tza y (m - 1) dd))
    (monthKey y m) = true.
Proof.
  intros Hz Hy Hm Hd. unfold JsString.startsWith, iso_string, localMidnight.
  assert (HD : Day (UTC tza (MakeDate (MakeDay y (m - 1) dd) 0))
               = MakeDay y (m - 1) (dd - 1)).
  { rewrite !(MakeDay_in_year y (m - 1)) by lia.
    unfold Day, UTC, MakeDate, msPerDay in *.
    Z.to_euclidean_division_equations; lia. }
  rewrite HD.
  destruct (MakeDay_fields y (m - 1) (dd - 1) ltac:(lia) ltac:(lia))
    as (-> & -> & ->).
  unfold iso_year.
  destruct (Z.leb_spec 0 y); [| lia]. destruct (Z.leb_spec y 9999); [| lia].
  cbn [andb]. replace (m - 1 + 1) with m by lia.
  unfold monthKey. apply prefix_append3.
Qed.

(** Generating again gives nothing new as soon as the entries of the
    first run are found in the month. *)
Lemma second_run_empty_if tza E y m out :
  zone_ok tza -> 100 <= y <= 9999 -> 1 <= m <= 12 ->
  (forall t r, In t E -> isTemplate t = true ->
               Expense.recurringDayOfMonth t = Some r -> 1 <= r) ->
  generateRecurringForMonth tza E (monthKey y m) = Some out ->
  (forall e, In e out ->
     JsString.startsWith (Expense.date e) (monthKey y m) = true) ->
  generateRecurringForMonth tza (E ++ out) (monthKey y m) = Some [].
Proof.
  intros Hzone Hy Hm Hdays Hgen Hmonth.
  rewrite (generate_valid tza E y m Hzone Hy Hm Hdays) in Hgen.
  injection Hgen as Hout.
  set (key := monthKey y m) in *. set (me := expensesForMonth E key) in *.
  assert (Hent : forall e, In e out ->
            exists t, In t E /\ isTemplate t = true /\
                      alreadyExists me t = false /\
                      e = recurringInstance tza y m t).
  { intros e He. rewrite <- Hout in He. apply in_map_iff in He as (t & <- & Ht).
    apply filter_In in Ht as [Ht Hnew]. apply filter_In in Ht as [Hin Ht].
    exists t. repeat split; auto. now destruct (alreadyExists me t). }
  assert (Hdays' : forall t r, In t (E ++ out) -> isTemplate t = true ->
            Expense.recurringDayOfMonth t = Some r -> 1 <= r).
  { intros t r Hin Ht Hr. apply in_app_or in Hin as [Hin | Hin]; [eauto |].
    destruct (Hent t Hin) as (t0 & Hin0 & Ht0 & _ & ->). eauto. }
  unfold key at 1.
  rewrite (generate_valid tza (E ++ out) y m Hzone Hy Hm Hdays').
  fold key. f_equal.
  assert (Hme : expensesForMonth (E ++ out) key = me ++ out).
  { unfold expensesForMonth. rewrite List.filter_app.
    fold (expensesForMonth E key). fold me. f_equal. now apply filter_every. }
  rewrite Hme, filter_none; [reflexivity |].
  intros t Ht. apply filter_In in Ht as [Hin Ht].
  apply negb_false_iff. rewrite alreadyExists_app.
  destruct (alreadyExists me t) eqn:Hex; [reflexivity |]. cbn [orb].
  destruct (isTemplate_day t Ht) as (Hrec & _).
  apply in_app_or in Hin as [Hin | Hin].
  - apply (alreadyExists_match out (recurringInstance tza y m t) t).
    + rewrite <- Hout. apply in_map, filter_In. split; [| now rewrite Hex].
      apply filter_In. auto.
    + exact Hrec.
    + change (sameCombination (recurringInstance tza y m t) t)
        with (sameCombination t t).
      apply sameCombination_refl.
  - now apply alreadyExists_self.
Qed.

End SecondRun.

(** * The claims *)

(** C1, at a failing input. Generating twice for the same month, the
    entries of the first run persisted in between, is meant to give no
    entry the second time. In Central European Time the entry generated
    for a template of day 1 is stamped with the last day of the month
    before (local midnight of 1 March 2025 is 2025-02-28T23:00:00.000Z),
    so [expensesForMonth] does not find it in 2025-03, and the second run
    generates again, for the template and for the entry of the first run.
    West of Greenwich the second run is empty: [Generator.second_run_empty]. *)
Theorem second_run_generates_again :
  generateRecurringForMonth Samples.cet [Samples.netflix] "2025-03" =
    Some [Samples.netflix_march] /\
  expensesForMonth ([Samples.netflix] ++ [Samples.netflix_march]) "2025-03" = [] /\
  generateRecurringForMonth Samples.cet
    ([Samples.netflix] ++ [Samples.netflix_march]) "2025-03" =
    Some [Samples.netflix_march;
          Expense.mk "n1_2025-03_2025-03" "subs" (1299 # 100) "netflix"
            "2025-02-28T23:00:00.000Z" true (Some 1)].
Proof. vm_compute. repeat split. Qed.

(** C2. For the key of month [m] of year [y] (years 100 to 9999), and
    templates whose day of the month is at least 1, the generator returns
    one entry for each template that the existence test does not skip, in
    the order of the templates: the fields of the template, the id
    followed by an underscore and the key, and as date the timestamp of
    local midnight of day [min r (days of the month)] of that month, which
    reads back as that moment. A template of day 31 gives the 28th of
    February, the 29th in a leap year. *)
Theorem generated_entries (tza : Z) (E : list Expense) (y m : Z) :
  zone_ok tza -> 100 <= y <= 9999 -> 1 <= m <= 12 ->
  (forall t r, In t E -> isTemplate t = true ->
               Expense.recurringDayOfMonth t = Some r -> 1 <= r) ->
  generateRecurringForMonth tza E (monthKey y m) =
    Some (map (recurringInstance tza y m)
            (List.filter
               (fun t => negb (alreadyExists (expensesForMonth E (monthKey y m)) t))
               (List.filter isTemplate E))) /\
  forall t r,
    Expense.recurringDayOfMonth t = Some r -> 1 <= r ->
    let e := recurringInstance tza y m t in
    let day := Z.min r (JsDate.DaysInMonth y (m - 1)) in
    let midnight := localMidnight tza y (m - 1) day in
    Expense.id e = Expense.id t +:+ "_" +:+ monthKey y m /\
    Expense.categoryId e = Expense.categoryId t /\
    Expense.amount e = Expense.amount t /\
    Expense.note e = Expense.note t /\
    Expense.isRecurring e = Expense.isRecurring t /\
    Expense.recurringDayOfMonth e = Expense.recurringDayOfMonth t /\
    JsDate.toISOString (TimeValue midnight) = Some (Expense.date e) /\
    JsDate.parse (Expense.date e) = TimeValue midnight /\
    JsDate.getFullYear tza midnight = y /\
    JsDate.getMonth tza midnight = m - 1 /\
    JsDate.getDate tza midnight = day /\
    JsDate.getTimeOfDay tza midnight = 0 /\
    1 <= day <= JsDate.DaysInMonth y (m - 1) /\
    (m = 2 -> 31 <= r -> day = if JsDate.InLeapYear y then 29 else 28).
Proof.
  intros Hz Hy Hm Hdays. split; [now apply Generator.generate_valid |].
  intros t r Hr Hr1 e day midnight.
  pose proof (Calendar.DaysInMonth_bounds y (m - 1) ltac:(lia)) as Hdim.
  assert (Hday : 1 <= day <= JsDate.DaysInMonth y (m - 1)) by (unfold day; lia).
  destruct (MonthArith.getters_midnight tza y (m - 1) day ltac:(lia) Hday)
    as (H1 & H2 & H3 & H4).
  assert (He : Expense.date e = JsDate.iso_string midnight).
  { unfold e, recurringInstance. rewrite Hr. reflexivity. }
  repeat split; try reflexivity; try assumption; try apply Hday.
  - cbv beta iota delta [JsDate.toISOString]. now rewrite He.
  - rewrite He. apply Timestamp.parse_iso_string.
    apply Timestamp.utc_year_midnight; [exact Hz | lia | lia | exact Hday].
  - intros -> Hr31. unfold day. change (2 - 1) with 1 in *.
    rewrite Calendar.DaysInMonth_february in *.
    destruct (JsDate.InLeapYear y); lia.
Qed.

Lemma generated_entries_witness :
  generateRecurringForMonth Samples.cet [Samples.gym] "2024-02" =
  Some [Expense.mk "t1_2024-02" "catA" (999 # 100) "gym"
          "2024-02-28T23:00:00.000Z" true (Some 31)] /\
  JsDate.getDate Samples.cet (localMidnight Samples.cet 2024 1 29) = 29.
Proof.
  assert (Hz : zone_ok Samples.cet)
    by (unfold zone_ok, Samples.cet, JsDate.msPerDay; lia).
  assert (Hd : forall t r, In t [Samples.gym] -> isTemplate t = true ->
                 Expense.recurringDayOfMonth t = Some r -> 1 <= r).
  { intros t r [<- | []] _ Hr. injection Hr as <-. lia. }
  destruct (generated_entries Samples.cet [Samples.gym] 2024 2 Hz
              ltac:(lia) ltac:(lia) Hd) as [Hgen Hall].
  split.
  - exact Hgen.
  - destruct (Hall Samples.gym 31 eq_refl ltac:(lia))
      as (_ & _ & _ & _ & _ & _ & _ & _ & _ & _ & H & _).
    exact H.
Defined.

(** C3, at a failing input. In Central European Time, a category with
    a budget of 100 that rolls over has one expense of 60 in January
    2025, and one of 30 made at half past midnight of 1 February: its
    local month is February, its timestamp is written in UTC, 23:30 of
    31 January, and begins with the key of January. [computeRollover]
    for January counts it and returns 10; the rollover of the
    specification, with the expenses of the local month, is 40. (The
    expense of March is counted by neither.) *)
Theorem rollover_counts_next_month :
  localMonth Samples.cet Samples.snack = "2025-02" /\
  dateToString Samples.cet (JsDate.parse (Expense.date Samples.snack))
    = "2025-02-01" /\
  JsString.startsWith (Expense.date Samples.snack) "2025-01" = true /\
  (computeRollover Samples.food "2025-01"
     [Samples.groceries; Samples.snack; Samples.lunch] ∅ == 10)%Q /\
  (rolloverSpec Samples.cet Samples.food "2025-01"
     [Samples.groceries; Samples.snack; Samples.lunch] ∅ == 40)%Q.
Proof. vm_compute. repeat split; reflexivity. Qed.

(** C4, as amended. The effective budget is 0 for a category that does
    not exist or has a budget of 0, and otherwise the budget plus
    [computeRollover] for the month before the current one, with no floor
    of its own. The credit computed from the expenses is never negative,
    a stored credit is taken as it is: for a budget that is not negative
    the effective budget is not negative when the credit stored for the
    previous month is absent or not negative. *)
Theorem effectiveBudget_value (tza : Z) (categories : list Category)
    (expenses : list Expense) (rollovers : RolloverMap) (now : Z)
    (catId : string) :
  zone_ok tza -> 100 <= JsDate.getFullYear tza now <= 10000 ->
  exists prev,
    (currentMonth tza now ≫= prevMonth tza) = Some prev /\
    match find (fun c => String.eqb (Category.id c) catId) categories with
    | None =>
        effectiveBudget tza categories expenses rollovers now catId = Some 0%Q
    | Some cat =>
        ((Category.budget cat == 0)%Q ->
         effectiveBudget tza categories expenses rollovers now catId = Some 0%Q) /\
        (~ (Category.budget cat == 0)%Q ->
         effectiveBudget tza categories expenses rollovers now catId =
           Some (Category.budget cat
                 + computeRollover cat prev expenses rollovers)%Q /\
         ((0 <= Category.budget cat)%Q ->
          (forall v,
              rollovers !! prev ≫= (fun r => r !! Category.id cat) = Some v ->
              (0 <= v)%Q) ->
          (0 <= Category.budget cat
                + computeRollover cat prev expenses rollovers)%Q))
    end.
Proof.
  intros Hz Hy.
  destruct (Budget.previous_of_current tza now Hz Hy) as [prev Hprev].
  exists prev. split; [exact Hprev |].
  unfold effectiveBudget.
  destruct (find (fun c => String.eqb (Category.id c) catId) categories)
    as [cat |]; [| reflexivity].
  split.
  - intros Hb. apply Qeq_bool_iff in Hb. now rewrite Hb.
  - intros Hb.
    destruct (Qeq_bool (Category.budget cat) 0) eqn:Hq;
      [apply Qeq_bool_iff in Hq; contradiction |].
    rewrite Hprev. split; [reflexivity |].
    intros Hpos Hst.
    pose proof (Budget.computeRollover_nonneg cat prev expenses rollovers Hst).
    lra.
Qed.

Lemma effectiveBudget_value_witness :
  effectiveBudget Samples.cet [Samples.food] [Samples.groceries] ∅
    Samples.mid_february "catA" = Some (100 + Qmax (100 - (0 + 60)) 0)%Q.
Proof.
  assert (Hz : zone_ok Samples.cet)
    by (unfold zone_ok, Samples.cet, JsDate.msPerDay; lia).
  assert (Hy : 100 <= JsDate.getFullYear Samples.cet Samples.mid_february
               <= 10000)
    by (vm_compute; split; discriminate).
  destruct (effectiveBudget_value Samples.cet [Samples.food] [Samples.groceries]
              ∅ Samples.mid_february "catA" Hz Hy) as (prev & Hprev & _ & H).
  destruct (H ltac:(vm_compute; discriminate)) as [-> _].
  vm_compute in Hprev. injection Hprev as <-. vm_compute. reflexivity.
Defined.

(** C4, the claim as stated fails: with a credit of -500 stored for
    January, the effective budget of a category of budget 100 is -400 in
    February. *)
Lemma effectiveBudget_negative_with_stored_credit :
  (0 <= Category.budget Samples.food)%Q /\
  effectiveBudget Samples.cet [Samples.food] []
    {[ "2025-01" := {[ "catA" := (-500)%Q ]} ]} Samples.mid_february "catA"
  = Some (100 + -500)%Q /\
  (100 + -500 < 0)%Q.
Proof. vm_compute. repeat split; discriminate. Qed.

(** C5, as amended. [parseLocalDate] never throws, and returns null
    exactly when the string does not split at its hyphens into three
    parts, or one of the parts does not read as a number, or the time
    value is out of the range of a Date. It checks neither the width of
    the parts nor the calendar: for a year from 100 to 9999 and any two
    digits of month and of day it returns what [new Date(y, m - 1, d)]
    is, months counted on from January and days from the first of the
    month, so that month 13 is January of the next year; for a month from
    1 to 12 and a day of that month this is local midnight of that
    date. *)
Theorem parseLocalDate_result (tza : Z) :
  zone_ok tza ->
  (forall s,
     parseLocalDate tza s = None <->
     length (JsString.split JsString.hyphen s) <> 3%nat \/
     (exists p, In p (JsString.split JsString.hyphen s) /\
                JsNumber.Number p = NaN) \/
     (exists a b c,
         JsString.split JsString.hyphen s = [a; b; c] /\
         JsDate.make tza (JsNumber.Number a) (JsNumber.pred (JsNumber.Number b))
           (JsNumber.Number c) = InvalidDate)) /\
  (forall y m d,
     100 <= y <= 9999 -> 0 <= m <= 99 -> 0 <= d <= 99 ->
     parseLocalDate tza (dayString y m d) =
     Some (TimeValue (localMidnight tza y (m - 1) d))) /\
  (forall y m d,
     1 <= m <= 12 -> 1 <= d <= JsDate.DaysInMonth y (m - 1) ->
     JsDate.getFullYear tza (localMidnight tza y (m - 1) d) = y /\
     JsDate.getMonth tza (localMidnight tza y (m - 1) d) = m - 1 /\
     JsDate.getDate tza (localMidnight tza y (m - 1) d) = d /\
     JsDate.getTimeOfDay tza (localMidnight tza y (m - 1) d) = 0).
Proof.
  intros Hz. split; [| split].
  - intros s. apply Parsing.parse_none.
  - intros y m d. now apply Parsing.parse_dayString.
  - intros y m d Hm Hd. apply MonthArith.getters_midnight; lia.
Qed.

Lemma parseLocalDate_result_witness :
  parseLocalDate Samples.cet "2025-03-01" = Some (TimeValue 1740783600000) /\
  parseLocalDate Samples.cet "2025-03" = None.
Proof.
  assert (Hz : zone_ok Samples.cet)
    by (unfold zone_ok, Samples.cet, JsDate.msPerDay; lia).
  destruct (parseLocalDate_result Samples.cet Hz) as (Hnone & Hsome & _).
  split.
  - exact (Hsome 2025 3 1 ltac:(lia) ltac:(lia) ltac:(lia)).
  - apply Hnone. left. vm_compute. lia.
Defined.

(** C5, the claim as stated fails: month 13 gives a date, the first of
    January of the next year, and a string that is not zero-padded is
    read, the 30th of February as the 2nd of March. *)
Lemma parseLocalDate_month_13 :
  parseLocalDate Samples.cet "2025-13-01" = Some (TimeValue 1767222000000) /\
  DateFns.format_yyyy_MM_dd Samples.cet (TimeValue 1767222000000)
    = Some "2026-01-01" /\
  (parseLocalDate Samples.cet "2025-2-30"
     ≫= DateFns.format_yyyy_MM_dd Samples.cet) = Some "2025-03-02".
Proof. vm_compute. repeat split. Qed.

(** C6, as amended. When the collection holds two templates of the same
    category, note and amount, and the month holds no entry that matches
    them, one run generates an entry for each of the two: the existence
    test looks at the entries that the month held before the run, not at
    the entries of the run. The run generates as many entries of that
    combination as there are templates of it. *)
Theorem identical_templates_each_generate (tza : Z)
    (E l1 l2 l3 : list Expense) (t1 t2 : Expense) (y m : Z) :
  zone_ok tza -> 100 <= y <= 9999 -> 1 <= m <= 12 ->
  (forall t r, In t E -> isTemplate t = true ->
               Expense.recurringDayOfMonth t = Some r -> 1 <= r) ->
  E = l1 ++ t1 :: l2 ++ t2 :: l3 ->
  isTemplate t1 = true -> isTemplate t2 = true ->
  sameCombination t1 t2 = true ->
  alreadyExists (expensesForMonth E (monthKey y m)) t1 = false ->
  exists out,
    generateRecurringForMonth tza E (monthKey y m) = Some out /\
    In (recurringInstance tza y m t1) out /\
    In (recurringInstance tza y m t2) out /\
    length (List.filter (sameCombination t1) out) =
      length (List.filter (sameCombination t1) (List.filter isTemplate E)) /\
    (2 <= length (List.filter (sameCombination t1) out))%nat.
Proof.
  intros Hz Hy Hm Hdays HE Ht1 Ht2 Hsame Hnew.
  pose proof (Generator.generate_valid tza E y m Hz Hy Hm Hdays) as Hgen.
  eexists. split; [exact Hgen |].
  set (me := expensesForMonth E (monthKey y m)) in *.
  assert (Hin1 : In t1 E) by (subst E; apply in_or_app; right; now left).
  assert (Hin2 : In t2 E).
  { subst E. apply in_or_app. right. right. apply in_or_app. right. now left. }
  assert (Hnew2 : alreadyExists me t2 = false).
  { now rewrite <- (Generator.alreadyExists_combination me t1 t2 Hsame). }
  assert (Hcount :
    List.filter (sameCombination t1)
      (map (recurringInstance tza y m)
         (List.filter (fun t => negb (alreadyExists me t))
            (List.filter isTemplate E))) =
    map (recurringInstance tza y m)
      (List.filter (sameCombination t1) (List.filter isTemplate E))).
  { rewrite Generator.filter_map_swap.
    change (fun x => sameCombination t1 (recurringInstance tza y m x))
      with (sameCombination t1).
    rewrite Generator.filter_filter_implied; [reflexivity |].
    intros t _ Hc.
    now rewrite <- (Generator.alreadyExists_combination me t1 t Hc), Hnew. }
  repeat split.
  - apply in_map, filter_In. split; [| now rewrite Hnew].
    apply filter_In. auto.
  - apply in_map, filter_In. split; [| now rewrite Hnew2].
    apply filter_In. auto.
  - now rewrite Hcount, length_map.
  - rewrite Hcount, length_map. subst E.
    apply Generator.two_kept; auto using Generator.sameCombination_refl.
Qed.

Lemma identical_templates_each_generate_witness :
  exists out,
    generateRecurringForMonth Samples.cet [Samples.gymA; Samples.gymB] "2025-02"
      = Some out /\
    (2 <= length (List.filter (sameCombination Samples.gymA) out))%nat.
Proof.
  assert (Hz : zone_ok Samples.cet)
    by (unfold zone_ok, Samples.cet, JsDate.msPerDay; lia).
  assert (Hd : forall t r, In t [Samples.gymA; Samples.gymB] ->
                 isTemplate t = true ->
                 Expense.recurringDayOfMonth t = Some r -> 1 <= r).
  { intros t r [<- | [<- | []]] _ Hr; injection Hr as <-; lia. }
  destruct (identical_templates_each_generate Samples.cet
              [Samples.gymA; Samples.gymB] [] [] [] Samples.gymA Samples.gymB
              2025 2 Hz ltac:(lia) ltac:(lia) Hd eq_refl eq_refl eq_refl
              eq_refl eq_refl) as (out & Hgen & _ & _ & _ & Hlen).
  exists out. split; [exact Hgen | exact Hlen].
Defined.

(** C6, the claim as stated fails: two templates of the same category,
    note and amount, entered in January, give two entries for February in
    one run. *)
Lemma identical_templates_two_instances :
  sameCombination Samples.gymA Samples.gymB = true /\
  expensesForMonth [Samples.gymA; Samples.gymB] "2025-02" = [] /\
  generateRecurringForMonth Samples.cet [Samples.gymA; Samples.gymB] "2025-02" =
  Some [Expense.mk "a1_2025-02" "catA" (999 # 100) "gym"
          "2025-02-04T23:00:00.000Z" true (Some 5);
        Expense.mk "b2_2025-02" "catA" (999 # 100) "gym"
          "2025-02-04T23:00:00.000Z" true (Some 5)].
Proof. vm_compute. repeat split. Qed.

(** C7, as amended. The keys YYYY-MM of the years 0100 to 9999 have
    seven characters, and for every one of them [prevMonth] of
    [nextMonth] of the key is the key, and [nextMonth] of [prevMonth] of
    the key is the key unless the key is 0100-01; the year rolls over:
    [nextMonth] of 2024-12 is 2025-01 and [prevMonth] of 2025-01 is
    2024-12. (The [Date] constructor reads a year from 0 to 99 as 1900 to
    1999, so the keys of the years 0000 to 0099 do not come back.) *)
Theorem month_round_trip (tza y m : Z) :
  zone_ok tza -> 100 <= y <= 9999 -> 1 <= m <= 12 ->
  String.length (monthKey y m) = 7%nat /\
  (nextMonth tza (monthKey y m) ≫= prevMonth tza) = Some (monthKey y m) /\
  ((y = 100 -> m <> 1) ->
   (prevMonth tza (monthKey y m) ≫= nextMonth tza) = Some (monthKey y m)) /\
  nextMonth tza "2024-12" = Some "2025-01" /\
  prevMonth tza "2025-01" = Some "2024-12".
Proof.
  intros Hz Hy Hm. repeat split.
  - apply Reading.monthKey_length; lia.
  - rewrite (MonthArith.nextMonth_key tza Hz) by lia. simpl.
    destruct (Z.eqb_spec m 12) as [-> | Hne].
    + rewrite (MonthArith.prevMonth_key tza Hz) by lia. simpl.
      now replace (y + 1 - 1) with y by lia.
    + rewrite (MonthArith.prevMonth_key tza Hz) by lia.
      destruct (Z.eqb_spec (m + 1) 1); [lia |].
      now replace (m + 1 - 1) with m by lia.
  - intros Hne. rewrite (MonthArith.prevMonth_key tza Hz) by lia. simpl.
    destruct (Z.eqb_spec m 1) as [-> | Hne1].
    + rewrite (MonthArith.nextMonth_key tza Hz) by lia. simpl.
      now replace (y - 1 + 1) with y by lia.
    + rewrite (MonthArith.nextMonth_key tza Hz) by lia.
      destruct (Z.eqb_spec (m - 1) 12); [lia |].
      now replace (m - 1 + 1) with m by lia.
  - apply (MonthArith.nextMonth_key tza Hz 2024 12); lia.
  - apply (MonthArith.prevMonth_key tza Hz 2025 1); lia.
Qed.

Lemma month_round_trip_witness :
  (nextMonth Samples.cet "2025-03" ≫= prevMonth Samples.cet) = Some "2025-03" /\
  (prevMonth Samples.cet "2025-03" ≫= nextMonth Samples.cet) = Some "2025-03".
Proof.
  destruct (month_round_trip Samples.cet 2025 3) as (_ & H1 & H2 & _);
    [unfold zone_ok, Samples.cet, JsDate.msPerDay; lia | lia | lia |].
  split; [exact H1 | apply H2; lia].
Defined.

(** C7, the claim as stated fails before the year 100: the month after
    0050-06 is computed as 1950-07, and the month before that as
    1950-06. *)
Lemma month_round_trip_two_digit_year :
  monthKey 50 6 = "0050-06" /\
  nextMonth Samples.cet "0050-06" = Some "1950-07" /\
  (nextMonth Samples.cet "0050-06" ≫= prevMonth Samples.cet) = Some "1950-06" /\
  (nextMonth Samples.cet "0050-06" ≫= prevMonth Samples.cet) <> Some "0050-06".
Proof. vm_compute. repeat split; discriminate. Qed.







(** The rows of the export of the sample: the later expense comes second,
    the expense of a category that was deleted is under Unknown, with its
    date in local time. *)
Example buildCSV_sample :
  buildCSV Samples.cet [Samples.lunch; Samples.bus] [Samples.food] "€" =
  Some (JsString.join newline
          ["Date,Category,Amount,Currency,Note,Recurring";
           "2025-03-01,Unknown,-0.00,€," +:+ quote +:+ "bus" +:+ quote +:+ ",yes";
           "2025-03-02,Food,12.50,€," +:+ quote +:+ "a,b" +:+ quote +:+ quote
             +:+ "c" +:+ quote +:+ ",no"]).
Proof. vm_compute. reflexivity. Qed.

(** C10. A template whose own date starts with the key of the month is
    found by the existence test in the expenses of the month, and no
    entry that a run for that month returns has its category, note and
    amount: the generator does not duplicate a template in the month of
    its own entry. *)
Theorem own_month_not_regenerated (tza : Z) (E : list Expense) (m : string)
    (t : Expense) :
  In t E -> isTemplate t = true ->
  JsString.startsWith (Expense.date t) m = true ->
  alreadyExists (expensesForMonth E m) t = true /\
  forall out, generateRecurringForMonth tza E m = Some out ->
    forall e, In e out -> sameCombination e t = false.
Proof.
  intros Hin Ht Hm.
  destruct (Generator.isTemplate_day t Ht) as (Hrec & _).
  assert (Hex : alreadyExists (expensesForMonth E m) t = true).
  { apply Generator.alreadyExists_self; [| exact Hrec].
    unfold expensesForMonth. apply filter_In. auto. }
  split; [exact Hex |].
  intros out Hgen e He. unfold generateRecurringForMonth in Hgen.
  destruct (year_month m) as [ny nm].
  destruct (Generator.loop_origin _ _ _ _ _ _ _ _ _ Hgen e He)
    as [[] | (t' & iso & _ & Hnew & ->)].
  destruct (sameCombination (entry_with m iso t') t) eqn:Hs; [| reflexivity].
  change (sameCombination (entry_with m iso t') t)
    with (sameCombination t' t) in Hs.
  rewrite (Generator.alreadyExists_combination _ t' t Hs) in Hnew. congruence.
Qed.

Lemma own_month_not_regenerated_witness :
  alreadyExists (expensesForMonth [Samples.rent] "2025-03") Samples.rent = true /\
  generateRecurringForMonth Samples.cet [Samples.rent] "2025-03" = Some [].
Proof.
  destruct (own_month_not_regenerated Samples.cet [Samples.rent] "2025-03"
              Samples.rent (or_introl eq_refl) eq_refl eq_refl) as [H _].
  split; [exact H | vm_compute; reflexivity].
Defined.

(** * Further properties of the code *)

(** X1. The day string of a date reads back as the start of its day: for
    a time value whose local year is from 100 to 9999, [parseLocalDate] of
    [dateToString] is the date with the same local year, month and day
    of the month and the time of day 0, and has the same day string. *)
Theorem dateToString_parseLocalDate (tza t : Z) :
  zone_ok tza -> 100 <= JsDate.getFullYear tza t <= 9999 ->
  exists t0,
    parseLocalDate tza (dateToString tza (TimeValue t)) = Some (TimeValue t0) /\
    JsDate.getFullYear tza t0 = JsDate.getFullYear tza t /\
    JsDate.getMonth tza t0 = JsDate.getMonth tza t /\
    JsDate.getDate tza t0 = JsDate.getDate tza t /\
    JsDate.getTimeOfDay tza t0 = 0 /\
    dateToString tza (TimeValue t0) = dateToString tza (TimeValue t).
Proof.
  intros Hz Hy.
  pose proof (Budget.getMonth_range tza t) as Hm.
  pose proof (DayStrings.getDate_range tza t) as Hd.
  pose proof (Calendar.DaysInMonth_bounds (JsDate.getFullYear tza t) _ Hm) as Hdim.
  set (Y := JsDate.getFullYear tza t) in *.
  set (M := JsDate.getMonth tza t) in *.
  set (D := JsDate.getDate tza t) in *.
  exists (localMidnight tza Y M D).
  destruct (MonthArith.getters_midnight tza Y M D Hm Hd) as (GY & GM & GD & GT).
  split; [| split; [exact GY | split; [exact GM | split; [exact GD |
    split; [exact GT |]]]]].
  - unfold dateToString. fold Y M D.
    change (JsString.padStart 2 "0" (JsString.of_Z ?z)) with (JsDate.pad 2 z).
    rewrite (DayStrings.parse_plain tza Y (M + 1) D Hz Hy) by lia.
    now replace (M + 1 - 1) with M by lia.
  - unfold dateToString. rewrite GY, GM, GD. reflexivity.
Qed.

Lemma dateToString_parseLocalDate_witness :
  exists t0,
    parseLocalDate Samples.cet
      (dateToString Samples.cet (TimeValue Samples.mid_february)) =
      Some (TimeValue t0) /\
    JsDate.getFullYear Samples.cet t0 =
      JsDate.getFullYear Samples.cet Samples.mid_february /\
    JsDate.getMonth Samples.cet t0 =
      JsDate.getMonth Samples.cet Samples.mid_february /\
    JsDate.getDate Samples.cet t0 =
      JsDate.getDate Samples.cet Samples.mid_february /\
    JsDate.getTimeOfDay Samples.cet t0 = 0 /\
    dateToString Samples.cet (TimeValue t0) =
    dateToString Samples.cet (TimeValue Samples.mid_february).
Proof.
  apply (dateToString_parseLocalDate Samples.cet Samples.mid_february).
  - unfold zone_ok. vm_compute. split; discriminate.
  - vm_compute. split; discriminate.
Defined.

(** X2. A zero-padded date YYYY-MM-DD of the years 1000 to 9999, with a
    month from 1 to 12 and a day of that month, is parsed to a date whose
    day string is the string itself. (Below the year 1000 [dateToString]
    writes the year without its leading zeros.) *)
Theorem parseLocalDate_dateToString (tza y m d : Z) :
  zone_ok tza -> 1000 <= y <= 9999 -> 1 <= m <= 12 ->
  1 <= d <= JsDate.DaysInMonth y (m - 1) ->
  dateToString tza <$> parseLocalDate tza (dayString y m d) =
  Some (dayString y m d).
Proof.
  intros Hz Hy Hm Hd.
  pose proof (Calendar.DaysInMonth_bounds y (m - 1) ltac:(lia)) as Hdim.
  rewrite (Parsing.parse_dayString tza y m d Hz) by lia.
  cbn [fmap option_fmap option_map]. f_equal.
  destruct (MonthArith.getters_midnight tza y (m - 1) d ltac:(lia) Hd)
    as (GY & GM & GD & _).
  rewrite DayStrings.dateToString_day; rewrite GY, ?GM, ?GD; [| lia].
  now replace (m - 1 + 1) with m by lia.
Qed.

Lemma parseLocalDate_dateToString_witness :
  dateToString Samples.cet <$> parseLocalDate Samples.cet (dayString 2024 2 29) =
  Some (dayString 2024 2 29).
Proof.
  apply (parseLocalDate_dateToString Samples.cet 2024 2 29).
  - unfold zone_ok. vm_compute. split; discriminate.
  - lia.
  - lia.
  - vm_compute. split; discriminate.
Defined.

(** X3. For a local year from 1000 to 9999 [dateToString] writes what
    date-fns writes for yyyy-MM-dd, the form of the dates of the export,
    and [todayString] begins with the key of [currentMonth] at the same
    clock. *)
Theorem dateToString_format (tza t : Z) :
  1000 <= JsDate.getFullYear tza t <= 9999 ->
  DateFns.format_yyyy_MM_dd tza (TimeValue t) =
    Some (dateToString tza (TimeValue t)) /\
  exists k,
    currentMonth tza t = Some k /\
    JsString.startsWith (todayString tza t) k = true.
Proof.
  intros Hy. split.
  - rewrite Budget.format_day by lia. f_equal. symmetry.
    now apply DayStrings.dateToString_day.
  - exists (monthKey (JsDate.getFullYear tza t) (JsDate.getMonth tza t + 1)).
    split; [apply Budget.format_any; lia |].
    unfold todayString. rewrite DayStrings.dateToString_day by exact Hy.
    unfold dayString. apply Generator.prefix_append.
Qed.

Lemma dateToString_format_witness :
  DateFns.format_yyyy_MM_dd Samples.cet (TimeValue Samples.mid_february) =
    Some (dateToString Samples.cet (TimeValue Samples.mid_february)) /\
  exists k,
    currentMonth Samples.cet Samples.mid_february = Some k /\
    JsString.startsWith (todayString Samples.cet Samples.mid_february) k = true.
Proof.
  apply (dateToString_format Samples.cet Samples.mid_february).
  vm_compute. split; discriminate.
Defined.

(** X4. The label of a key of the years 0100 to 9999 is the English name
    of the month, a space and the year. The month is not checked: month 00
    is December of the year before and the months from 13 on run into the
    following years. *)
Theorem monthLabel_key (tza y m : Z) :
  zone_ok tza -> 100 <= y <= 9999 -> 0 <= m <= 99 ->
  monthLabel tza (monthKey y m) =
  Some (DateFns.month_name ((m - 1) mod 12) +:+ " " +:+
        JsDate.pad 4 (y + (m - 1) / 12)).
Proof.
  intros Hz Hy Hm. unfold monthLabel.
  destruct (Reading.year_month_key y m ltac:(lia) Hm) as (ny & nm & -> & Hny & Hnm).
  rewrite (MonthArith.make_midnight tza Hz ny (JsNumber.pred nm) (JsNumber.of_Z 1)
             y (m - 1) 1 Hny Hnm (MonthArith.ToInteger_of_Z 1));
    rewrite ?MonthArith.MakeFullYear_late by lia;
    [| Z.to_euclidean_division_equations; lia | lia].
  unfold localMidnight. rewrite (Calendar.MakeDay_normal y (m - 1) 1).
  fold (localMidnight tza (y + (m - 1) / 12) ((m - 1) mod 12) 1).
  assert (Hm' : 0 <= (m - 1) mod 12 <= 11)
    by (Z.to_euclidean_division_equations; lia).
  pose proof (Calendar.DaysInMonth_bounds (y + (m - 1) / 12) _ Hm') as Hdim.
  destruct (MonthArith.getters_midnight tza (y + (m - 1) / 12)
              ((m - 1) mod 12) 1 Hm' ltac:(lia)) as (GY & GM & _ & _).
  unfold DateFns.format_MMMM_yyyy, DateFns.fmt_yyyy, DateFns.addLeadingZeros.
  rewrite GY, GM.
  assert (Hpos : 0 < y + (m - 1) / 12)
    by (Z.to_euclidean_division_equations; lia).
  destruct (Z.ltb_spec 0 (y + (m - 1) / 12)); [| lia].
  destruct (Z.ltb_spec (y + (m - 1) / 12) 0); [lia |].
  rewrite Z.abs_eq by lia. reflexivity.
Qed.

Lemma monthLabel_key_witness :
  monthLabel Samples.cet (monthKey 2025 13) =
  Some (DateFns.month_name ((13 - 1) mod 12) +:+ " " +:+
        JsDate.pad 4 (2025 + (13 - 1) / 12)).
Proof.
  apply (monthLabel_key Samples.cet 2025 13).
  - unfold zone_ok. vm_compute. split; discriminate.
  - lia.
  - lia.
Defined.

(** X5. On a key without a hyphen (the empty string is one) [monthLabel],
    [prevMonth] and [nextMonth] throw: the month is undefined, the date
    built from it is invalid, and [format] refuses an invalid date. *)
Theorem month_functions_throw (tza : Z) (s : string) :
  no_char JsString.hyphen s = true ->
  monthLabel tza s = None /\ prevMonth tza s = None /\ nextMonth tza s = None.
Proof.
  intros Hs.
  assert (Hym : exists ny, year_month s = (ny, NaN)).
  { unfold year_month, JsString.split.
    rewrite (Reading.split_go_plain _ _ EmptyString Hs). simpl. eauto. }
  destruct Hym as (ny & Hym).
  unfold monthLabel, prevMonth, nextMonth. rewrite Hym.
  assert (Hmk : JsDate.make tza ny (JsNumber.pred NaN) (JsNumber.of_Z 1) = InvalidDate).
  { unfold JsDate.make. simpl. now destruct (JsNumber.ToInteger ny). }
  rewrite Hmk. repeat split.
Qed.

Lemma month_functions_throw_witness :
  monthLabel Samples.cet "2025" = None /\
  prevMonth Samples.cet "2025" = None /\ nextMonth Samples.cet "2025" = None.
Proof. apply (month_functions_throw Samples.cet "2025"). reflexivity. Defined.

(** X6. For a key of the years 0100 to 9999 and in every zone,
    [nextMonth] is the key of the following month and [prevMonth] the key
    of the month before, December and January carrying into the year. *)
Theorem month_neighbours (tza y m : Z) :
  zone_ok tza -> 100 <= y <= 9999 -> 1 <= m <= 12 ->
  nextMonth tza (monthKey y m) =
    Some (if m =? 12 then monthKey (y + 1) 1 else monthKey y (m + 1)) /\
  prevMonth tza (monthKey y m) =
    Some (if m =? 1 then monthKey (y - 1) 12 else monthKey y (m - 1)).
Proof.
  intros Hz Hy Hm. split.
  - apply (MonthArith.nextMonth_key tza Hz); lia.
  - apply (MonthArith.prevMonth_key tza Hz); lia.
Qed.

Lemma month_neighbours_witness :
  nextMonth Samples.cet (monthKey 2024 12) =
    Some (if 12 =? 12 then monthKey (2024 + 1) 1 else monthKey 2024 (12 + 1)) /\
  prevMonth Samples.cet (monthKey 2024 12) =
    Some (if 12 =? 1 then monthKey (2024 - 1) 12 else monthKey 2024 (12 - 1)).
Proof.
  apply (month_neighbours Samples.cet 2024 12).
  - unfold zone_ok. vm_compute. split; discriminate.
  - lia.
  - lia.
Defined.

(** X7. An expense belongs to the month of one key only: two different
    keys of the same length, as all keys YYYY-MM are, never select the same
    expense. *)
Theorem month_buckets_disjoint (E : list Expense) (k1 k2 : string)
    (e : Expense) :
  String.length k1 = String.length k2 -> k1 <> k2 ->
  In e (expensesForMonth E k1) -> ~ In e (expensesForMonth E k2).
Proof.
  unfold expensesForMonth, JsString.startsWith. intros Hl Hne H1 H2.
  apply filter_In in H1 as [_ H1]. apply filter_In in H2 as [_ H2].
  exact (Hne (Buckets.prefix_same_length k1 k2 _ H1 H2 Hl)).
Qed.

Lemma month_buckets_disjoint_witness :
  ~ In Samples.rent (expensesForMonth [Samples.rent] "2025-02").
Proof.
  apply (month_buckets_disjoint [Samples.rent] "2025-03" "2025-02" Samples.rent).
  - reflexivity.
  - discriminate.
  - vm_compute. left. reflexivity.
Defined.

(** X8. An expense stamped with [toISOString] of the clock, as the form
    of AddExpenseScreen does, is filed under the month of its UTC date:
    [expensesForMonth] finds it under [currentMonth] of the same clock
    exactly when the local year and month are those of UTC, and does not
    find it otherwise (the first or last hours of a month, by the offset
    of the zone). *)
Theorem stamped_now_bucket (tza now : Z) (e : Expense) :
  0 < JsDate.getFullYear tza now <= 9999 ->
  0 <= JsDate.getFullYear 0 now <= 9999 ->
  JsDate.toISOString (TimeValue now) = Some (Expense.date e) ->
  exists k,
    currentMonth tza now = Some k /\
    (expensesForMonth [e] k = [e] <->
     JsDate.getFullYear tza now = JsDate.getFullYear 0 now /\
     JsDate.getMonth tza now = JsDate.getMonth 0 now) /\
    (expensesForMonth [e] k = [] <->
     ~ (JsDate.getFullYear tza now = JsDate.getFullYear 0 now /\
        JsDate.getMonth tza now = JsDate.getMonth 0 now)).
Proof.
  intros Hl Hu Hd.
  exists (monthKey (JsDate.getFullYear tza now) (JsDate.getMonth tza now + 1)).
  split; [apply Budget.format_any; lia |].
  pose proof (Budget.getMonth_range tza now) as Hm.
  pose proof (Budget.getMonth_range 0 now) as Hm0.
  destruct (Buckets.utc_getters now) as [Uy Um].
  rewrite Uy in Hu |- *. rewrite Um in Hm0 |- *.
  destruct (Buckets.iso_string_key now Hu) as (rest & Hiso).
  injection Hd as Hd. rewrite Hiso in Hd.
  set (ku := monthKey (JsDate.YearFromDay (JsDate.Day now))
                      (JsDate.MonthFromDay (JsDate.Day now) + 1)) in *.
  set (kl := monthKey (JsDate.getFullYear tza now) (JsDate.getMonth tza now + 1)).
  assert (Hiff : JsString.startsWith (Expense.date e) kl = true <->
                 JsDate.getFullYear tza now = JsDate.YearFromDay (JsDate.Day now) /\
                 JsDate.getMonth tza now = JsDate.MonthFromDay (JsDate.Day now)).
  { unfold JsString.startsWith. rewrite <- Hd. split.
    - intros Hp.
      assert (Hk : kl = ku).
      { apply (Buckets.prefix_same_length kl ku (ku +:+ rest) Hp
                 (Generator.prefix_append ku rest)).
        unfold kl, ku. rewrite !Reading.monthKey_length by lia. reflexivity. }
      apply Buckets.monthKey_inj in Hk; lia.
    - intros [Ey Em]. unfold kl. rewrite Ey, Em. apply Generator.prefix_append. }
  unfold expensesForMonth. cbn [List.filter].
  destruct (JsString.startsWith (Expense.date e) kl).
  - pose proof (proj1 Hiff eq_refl) as Heq.
    split; [tauto |]. split; [discriminate | tauto].
  - assert (Hn : ~ (JsDate.getFullYear tza now = JsDate.YearFromDay (JsDate.Day now) /\
                    JsDate.getMonth tza now = JsDate.MonthFromDay (JsDate.Day now)))
      by (intros Hc; apply Hiff in Hc; discriminate).
    split; [split; [discriminate | tauto] | tauto].
Qed.

Lemma stamped_now_bucket_witness :
  exists k,
    currentMonth Samples.cet 1740785400000 = Some k /\
    (expensesForMonth [Samples.bus] k = [Samples.bus] <->
     JsDate.getFullYear Samples.cet 1740785400000 =
       JsDate.getFullYear 0 1740785400000 /\
     JsDate.getMonth Samples.cet 1740785400000 =
       JsDate.getMonth 0 1740785400000) /\
    (expensesForMonth [Samples.bus] k = [] <->
     ~ (JsDate.getFullYear Samples.cet 1740785400000 =
          JsDate.getFullYear 0 1740785400000 /\
        JsDate.getMonth Samples.cet 1740785400000 =
          JsDate.getMonth 0 1740785400000)).
Proof.
  apply (stamped_now_bucket Samples.cet 1740785400000 Samples.bus).
  - vm_compute. split; [reflexivity | discriminate].
  - vm_compute. split; discriminate.
  - vm_compute. reflexivity.
Defined.

(** X9. The dictionary of [totalByCategory] has a key exactly for the
    categories that some expense names, and the value of a key, or 0
    without one, is [totalSpent] of the expenses of that category. *)
Theorem totalByCategory_lookup (E : list Expense) (c : string) :
  (totalByCategory E !! c = None <->
   forall e, In e E -> Expense.categoryId e <> c) /\
  (default 0 (totalByCategory E !! c) ==
   totalSpent (List.filter (fun e => String.eqb (Expense.categoryId e) c) E))%Q.
Proof.
  destruct (Sums.totals_lookup c E ∅) as [H1 H2].
  unfold totalByCategory. split.
  - rewrite H1, lookup_empty. tauto.
  - rewrite H2, lookup_empty. cbn [default]. ring.
Qed.

(** X10. Adding an expense with [addExpense] raises the total of a month
    by its amount when its date begins with the key of the month, and
    leaves the total of every other month as it was. *)
Theorem add_expense_month_total (prev : list Expense) (exp : Expense)
    (k : string) :
  (totalSpent (expensesForMonth (BudgetContext.addExpense prev exp) k) ==
   totalSpent (expensesForMonth prev k) +
   (if JsString.startsWith (Expense.date exp) k then Expense.amount exp else 0))%Q.
Proof.
  unfold BudgetContext.addExpense, expensesForMonth.
  rewrite List.filter_app, Sums.totalSpent_app. cbn [List.filter].
  destruct (JsString.startsWith (Expense.date exp) k).
  - rewrite Sums.totalSpent_cons. unfold totalSpent at 2. cbn [fold_left]. ring.
  - reflexivity.
Qed.

(** X11. Without a stored value, the rollover of a category that rolls
    over is its budget less the total that [totalByCategory] gives for the
    category in the previous month, floored at 0; with amounts and a budget
    that are not negative it is never more than the budget. *)
Theorem live_rollover (cat : Category) (prev : string) (E : list Expense)
    (R : RolloverMap) :
  Category.rollover cat = true -> ~ (Category.budget cat == 0)%Q ->
  R !! prev ≫= (fun r => r !! Category.id cat) = None ->
  (computeRollover cat prev E R ==
   Qmax (Category.budget cat -
         default 0 (totalByCategory (expensesForMonth E prev)
                      !! Category.id cat)) 0)%Q /\
  ((forall e, In e E -> (0 <= Expense.amount e)%Q) ->
   (0 <= Category.budget cat)%Q ->
   (computeRollover cat prev E R <= Category.budget cat)%Q).
Proof.
  intros Hr Hb Hs. unfold computeRollover.
  rewrite Hr, Hs. cbn [negb orb].
  destruct (Qeq_bool (Category.budget cat) 0) eqn:Hq;
    [apply Qeq_bool_iff in Hq; contradiction |].
  fold (totalSpent
          (List.filter
             (fun e => String.eqb (Expense.categoryId e) (Category.id cat))
             (expensesForMonth E prev))).
  split.
  - apply Q.max_compat; [| reflexivity].
    destruct (Sums.totals_lookup (Category.id cat) (expensesForMonth E prev) ∅)
      as [_ H2].
    unfold totalByCategory. rewrite H2, lookup_empty. cbn [default]. ring.
  - intros Ha Hb0. apply Q.max_lub; [| exact Hb0].
    assert (0 <= totalSpent
              (List.filter
                 (fun e => String.eqb (Expense.categoryId e) (Category.id cat))
                 (expensesForMonth E prev)))%Q.
    { apply Sums.totalSpent_nonneg. intros e He.
      apply filter_In in He as [He _]. unfold expensesForMonth in He.
      apply filter_In in He as [He _]. now apply Ha. }
    lra.
Qed.

Lemma live_rollover_witness :
  (computeRollover Samples.food "2025-01" [Samples.groceries; Samples.lunch] ∅ ==
   Qmax (Category.budget Samples.food -
         default 0 (totalByCategory
                      (expensesForMonth [Samples.groceries; Samples.lunch] "2025-01")
                      !! Category.id Samples.food)) 0)%Q /\
  ((forall e, In e [Samples.groceries; Samples.lunch] ->
              (0 <= Expense.amount e)%Q) ->
   (0 <= Category.budget Samples.food)%Q ->
   (computeRollover Samples.food "2025-01" [Samples.groceries; Samples.lunch] ∅
    <= Category.budget Samples.food)%Q).
Proof.
  apply (live_rollover Samples.food "2025-01"
           [Samples.groceries; Samples.lunch] ∅).
  - reflexivity.
  - vm_compute. discriminate.
  - reflexivity.
Defined.

(** X12. Whatever the key, a run returns at most one entry for each
    template, and every entry returned is itself a recurring template: it
    has the day of the month of a template of the collection, and the id of
    that template followed by an underscore and the key. *)
Theorem generated_are_templates (tza : Z) (E : list Expense) (k : string)
    (out : list Expense) :
  generateRecurringForMonth tza E k = Some out ->
  (length out <= length (List.filter isTemplate E))%nat /\
  forall e, In e out ->
    isTemplate e = true /\
    exists t, In t E /\ isTemplate t = true /\
              Expense.recurringDayOfMonth e = Expense.recurringDayOfMonth t /\
              Expense.id e = Expense.id t +:+ "_" +:+ k.
Proof.
  unfold generateRecurringForMonth. destruct (year_month k) as [y m].
  intros H. split.
  - apply Recurrence.loop_length in H. simpl in H. exact H.
  - intros e He.
    destruct (Generator.loop_origin _ _ _ _ _ _ _ _ _ H e He)
      as [[] | (t & iso & Ht & _ & ->)].
    apply filter_In in Ht as [Ht Htt].
    split; [exact Htt |]. exists t. repeat split; assumption.
Qed.

Lemma generated_are_templates_witness :
  (length [Samples.netflix_march] <=
   length (List.filter isTemplate [Samples.netflix]))%nat /\
  forall e, In e [Samples.netflix_march] ->
    isTemplate e = true /\
    exists t, In t [Samples.netflix] /\ isTemplate t = true /\
              Expense.recurringDayOfMonth e = Expense.recurringDayOfMonth t /\
              Expense.id e = Expense.id t +:+ "_" +:+ "2025-03".
Proof.
  apply (generated_are_templates Samples.cet [Samples.netflix] "2025-03").
  vm_compute. reflexivity.
Defined.

(** X13. When the templates of the collection have different ids, the
    entries of a run have different ids. *)
Theorem generated_ids_distinct (tza : Z) (E : list Expense) (k : string)
    (out : list Expense) :
  List.NoDup (map Expense.id (List.filter isTemplate E)) ->
  generateRecurringForMonth tza E k = Some out ->
  List.NoDup (map Expense.id out).
Proof.
  intros Hnd. unfold generateRecurringForMonth.
  destruct (year_month k) as [y m]. intros H.
  rewrite (Ids.loop_ids _ _ _ _ _ _ _ _ _ H). cbn [map app].
  rewrite <- (map_map Expense.id (fun s => s +:+ "_" +:+ k)).
  apply List.NoDup_map_NoDup_ForallPairs.
  - intros a b _ _. apply Ids.append_cancel_r.
  - now apply Ids.NoDup_map_filter.
Qed.

Lemma generated_ids_distinct_witness :
  List.NoDup (map Expense.id
    [Expense.mk "a1_2025-02" "catA" (999 # 100) "gym"
       "2025-02-04T23:00:00.000Z" true (Some 5);
     Expense.mk "b2_2025-02" "catA" (999 # 100) "gym"
       "2025-02-04T23:00:00.000Z" true (Some 5)]).
Proof.
  apply (generated_ids_distinct Samples.cet [Samples.gymA; Samples.gymB]
           "2025-02").
  - repeat constructor; simpl; intuition discriminate.
  - vm_compute. reflexivity.
Defined.

(** X14. The entries generated for one month count as templates
    afterwards: once they are stored, a run for a month that holds no
    expense yet returns an entry for every template of the collection and
    one more for every entry generated before. *)
Theorem generated_entries_generate_again (tza : Z) (E : list Expense)
    (y1 m1 y2 m2 : Z) (out1 : list Expense) :
  zone_ok tza -> 100 <= y2 <= 9999 -> 1 <= m2 <= 12 ->
  (forall t r, In t E -> isTemplate t = true ->
               Expense.recurringDayOfMonth t = Some r -> 1 <= r) ->
  generateRecurringForMonth tza E (monthKey y1 m1) = Some out1 ->
  expensesForMonth (E ++ out1) (monthKey y2 m2) = [] ->
  exists out2,
    generateRecurringForMonth tza (E ++ out1) (monthKey y2 m2) = Some out2 /\
    length out2 = (length (List.filter isTemplate E) + length out1)%nat.
Proof.
  intros Hz Hy Hm Hr H1 Hempty.
  assert (Hout : forall e, In e out1 ->
            isTemplate e = true /\
            exists t, In t E /\ isTemplate t = true /\
              Expense.recurringDayOfMonth e = Expense.recurringDayOfMonth t).
  { intros e He. revert H1. unfold generateRecurringForMonth.
    destruct (year_month (monthKey y1 m1)) as [y m]. intros H1.
    destruct (Generator.loop_origin _ _ _ _ _ _ _ _ _ H1 e He)
      as [[] | (t & iso & Ht & _ & ->)].
    apply filter_In in Ht as [Ht Htt]. split; [exact Htt | eauto]. }
  rewrite (Generator.generate_valid tza (E ++ out1) y2 m2 Hz Hy Hm).
  - eexists. split; [reflexivity |].
    rewrite Hempty, length_map.
    rewrite (Generator.filter_every
               (fun t => negb (alreadyExists [] t))) by reflexivity.
    rewrite List.filter_app, length_app. f_equal.
    f_equal. apply Generator.filter_every. intros e He. now apply Hout.
  - intros t r Ht Htt Hd. apply in_app_or in Ht as [Ht | Ht].
    + exact (Hr t r Ht Htt Hd).
    + destruct (Hout t Ht) as (_ & t0 & Ht0 & Htt0 & Hd0).
      rewrite Hd0 in Hd. exact (Hr t0 r Ht0 Htt0 Hd).
Qed.

Lemma generated_entries_generate_again_witness :
  exists out2,
    generateRecurringForMonth Samples.cet
      ([Samples.netflix] ++ [Samples.netflix_march]) (monthKey 2025 4) =
      Some out2 /\
    length out2 =
    (length (List.filter isTemplate [Samples.netflix]) +
     length [Samples.netflix_march])%nat.
Proof.
  apply (generated_entries_generate_again Samples.cet [Samples.netflix]
           2025 3 2025 4 [Samples.netflix_march]).
  - unfold zone_ok. vm_compute. split; discriminate.
  - lia.
  - lia.
  - intros t r [<- | []] _ Hd. injection Hd as <-. lia.
  - vm_compute. reflexivity.
  - vm_compute. reflexivity.
Defined.

(** X15. The expenses that are not recurring have no part in the
    generation: a run on the recurring expenses alone returns the same. *)
Theorem only_recurring_entries_matter (tza : Z) (E : list Expense)
    (k : string) :
  generateRecurringForMonth tza (List.filter Expense.isRecurring E) k =
  generateRecurringForMonth tza E k.
Proof.
  unfold generateRecurringForMonth. destruct (year_month k) as [y m].
  rewrite (Generator.filter_filter_implied isTemplate Expense.isRecurring).
  - apply Recurrence.loop_ext. intros t.
    apply Recurrence.alreadyExists_recurring.
  - intros x _ Hx. unfold isTemplate in Hx.
    now apply andb_true_iff in Hx as [Hx _].
Qed.

(** X16. On a key without a hyphen the generator throws as soon as one
    template is not skipped by the existence test ([toISOString] of an
    invalid date), and returns no entry when every template is skipped or
    there is none. *)
Theorem generator_malformed_key (tza : Z) (E : list Expense) (k : string) :
  no_char JsString.hyphen k = true ->
  generateRecurringForMonth tza E k =
  if forallb (alreadyExists (expensesForMonth E k)) (List.filter isTemplate E)
  then Some [] else None.
Proof.
  intros Hk. unfold generateRecurringForMonth, year_month, JsString.split.
  rewrite (Reading.split_go_plain _ _ EmptyString Hk).
  cbn [map nth]. apply Ids.loop_invalid.
  intros d. unfold JsDate.make. cbn [JsNumber.pred JsNumber.ToInteger].
  now destruct (JsNumber.ToInteger _).
Qed.

Lemma generator_malformed_key_witness :
  generateRecurringForMonth Samples.cet [Samples.netflix] "202503" =
  if forallb (alreadyExists (expensesForMonth [Samples.netflix] "202503"))
       (List.filter isTemplate [Samples.netflix])
  then Some [] else None.
Proof.
  apply (generator_malformed_key Samples.cet [Samples.netflix] "202503").
  reflexivity.
Defined.

(** X17. In a zone at or west of UTC (offset from -24 h, excluded, to 0)
    the entries generated for a month of the years 0100 to 9999 are found
    by [expensesForMonth] under the key of that month, and a second run
    after they are stored generates nothing. *)
Theorem second_run_empty_west_of_utc (tza : Z) (E : list Expense) (y m : Z)
    (out : list Expense) :
  - JsDate.msPerDay < tza <= 0 -> 100 <= y <= 9999 -> 1 <= m <= 12 ->
  (forall t r, In t E -> isTemplate t = true ->
               Expense.recurringDayOfMonth t = Some r -> 1 <= r) ->
  generateRecurringForMonth tza E (monthKey y m) = Some out ->
  expensesForMonth out (monthKey y m) = out /\
  generateRecurringForMonth tza (E ++ out) (monthKey y m) = Some [].
Proof.
  intros Hz Hy Hm Hdays Hgen. split.
  - assert (Hzone : zone_ok tza) by (unfold zone_ok; lia).
    rewrite (Generator.generate_valid tza E y m Hzone Hy Hm Hdays) in Hgen.
    injection Hgen as <-.
    pose proof (Calendar.DaysInMonth_bounds y (m - 1) ltac:(lia)) as Hdim.
    apply Generator.filter_every. intros e He.
    apply in_map_iff in He as (t & <- & Ht).
    apply filter_In in Ht as [Ht _]. apply filter_In in Ht as [Hin Ht].
    destruct (Generator.isTemplate_day t Ht) as (_ & r & Hr).
    unfold recurringInstance. rewrite Hr.
    cbn [Expense.date default from_option id].
    apply Generator.iso_in_month; try lia.
    specialize (Hdays t r Hin Ht Hr). lia.
  - exact (Generator.second_run_empty tza E y m out Hz Hy Hm Hdays Hgen).
Qed.

Lemma second_run_empty_west_of_utc_witness :
  expensesForMonth
    [Expense.mk "n1_2025-03" "subs" (1299 # 100) "netflix"
       "2025-03-01T05:00:00.000Z" true (Some 1)] (monthKey 2025 3) =
    [Expense.mk "n1_2025-03" "subs" (1299 # 100) "netflix"
       "2025-03-01T05:00:00.000Z" true (Some 1)] /\
  generateRecurringForMonth (-18000000)
    ([Samples.netflix] ++
     [Expense.mk "n1_2025-03" "subs" (1299 # 100) "netflix"
        "2025-03-01T05:00:00.000Z" true (Some 1)]) (monthKey 2025 3) = Some [].
Proof.
  apply (second_run_empty_west_of_utc (-18000000) [Samples.netflix] 2025 3).
  - vm_compute. split; [reflexivity | discriminate].
  - lia.
  - lia.
  - intros t r [<- | []] _ Hd. injection Hd as <-. lia.
  - vm_compute. reflexivity.
Defined.

(** X18. The sort of the export is stable: the expenses of one time value
    come out in the order in which they went in. *)
Theorem sort_stable (l : list Expense) (t : Z) :
  Forall dated l ->
  List.filter (fun e => timeOf e =? t) (sort l) =
  List.filter (fun e => timeOf e =? t) l.
Proof.
  intros Hl. unfold sort.
  apply (Stability.sort_filter_acc t l [] Hl); constructor.
Qed.

Lemma sort_stable_witness :
  List.filter (fun e => timeOf e =? 1736931600000)
    (sort [Samples.gymA; Samples.groceries; Samples.gym]) =
  List.filter (fun e => timeOf e =? 1736931600000)
    [Samples.gymA; Samples.groceries; Samples.gym].
Proof.
  apply (sort_stable [Samples.gymA; Samples.groceries; Samples.gym]
           1736931600000).
  repeat constructor.
Defined.

(** X19. The doubling of the double quotes loses nothing: two different
    notes are written as two different fields. *)
Theorem double_quotes_injective (a b : string) :
  a <> b -> JsString.double_quotes a <> JsString.double_quotes b.
Proof.
  intros Hne H. apply Hne.
  rewrite <- (Csv.single_double_quotes a), <- (Csv.single_double_quotes b).
  now rewrite H.
Qed.

Lemma double_quotes_injective_witness :
  JsString.double_quotes quote <>
  JsString.double_quotes (quote +:+ quote).
Proof.
  apply (double_quotes_injective quote (quote +:+ quote)). discriminate.
Defined.

(** X20. Deleting by its id an expense that was just added, when no other
    expense has that id, gives back the previous list. *)
Theorem add_then_delete_expense (prev : list Expense) (exp : Expense) :
  (forall e, In e prev -> Expense.id e <> Expense.id exp) ->
  BudgetContext.deleteExpense (BudgetContext.addExpense prev exp)
    (Expense.id exp) = prev.
Proof.
  intros Hfresh. unfold BudgetContext.deleteExpense, BudgetContext.addExpense.
  rewrite List.filter_app. cbn [List.filter].
  rewrite String.eqb_refl. cbn [negb]. rewrite app_nil_r.
  apply Generator.filter_every. intros e He.
  apply negb_true_iff, String.eqb_neq. now apply Hfresh.
Qed.

Lemma add_then_delete_expense_witness :
  BudgetContext.deleteExpense
    (BudgetContext.addExpense [Samples.rent; Samples.lunch] Samples.bus)
    (Expense.id Samples.bus) = [Samples.rent; Samples.lunch].
Proof.
  apply (add_then_delete_expense [Samples.rent; Samples.lunch] Samples.bus).
  intros e [<- | [<- | []]]; discriminate.
Defined.

(** X21. [updateExpense] keeps the ids of the list and their order; every
    entry of the id of the new expense is the new expense afterwards, the
    entries of other ids are the ones that were there, and when no entry
    has the id the list is unchanged (the update is dropped silently). *)
Theorem updateExpense_replaces (prev : list Expense) (exp : Expense) :
  map Expense.id (BudgetContext.updateExpense prev exp) = map Expense.id prev /\
  (forall e, In e (BudgetContext.updateExpense prev exp) ->
             Expense.id e = Expense.id exp -> e = exp) /\
  (forall e, Expense.id e <> Expense.id exp ->
             (In e (BudgetContext.updateExpense prev exp) <-> In e prev)) /\
  ((forall e, In e prev -> Expense.id e <> Expense.id exp) ->
   BudgetContext.updateExpense prev exp = prev).
Proof.
  unfold BudgetContext.updateExpense.
  induction prev as [| x prev (IH1 & IH2 & IH3 & IH4)].
  - repeat split; try tauto. intros e [].
  - cbn [map]. destruct (String.eqb_spec (Expense.id x) (Expense.id exp))
      as [Hx | Hx].
    + repeat split.
      * now rewrite IH1, Hx.
      * intros e [<- | He] Hid; [reflexivity | now apply IH2].
      * intros [<- | He]; [contradiction | right; now apply IH3].
      * intros [<- | He]; [congruence | right; now apply IH3].
      * intros Hf. exfalso. exact (Hf x (or_introl eq_refl) Hx).
    + repeat split.
      * now rewrite IH1.
      * intros e [<- | He] Hid; [contradiction | now apply IH2].
      * intros [<- | He]; [now left | right; now apply IH3].
      * intros [<- | He]; [now left | right; now apply IH3].
      * intros Hf. f_equal. apply IH4. intros e He. apply Hf. now right.
Qed.



(** X23. For an hour from 0 to 23 and a minute from 0 to 59, and a clock
    in the local years 100 to 9999, [nextOccurrence] returns a time after
    the clock and at most 24 hours after it, whose local time of day is
    the hour and minute asked for: today when that time is still to come,
    tomorrow when it has passed or is the very time of the clock. *)
Theorem nextOccurrence_next (tza now h mi : Z) :
  zone_ok tza -> 100 <= JsDate.getFullYear tza now <= 9999 ->
  0 <= h <= 23 -> 0 <= mi <= 59 ->
  exists r,
    Notifications.nextOccurrence tza now (JsNumber.of_Z h) (JsNumber.of_Z mi)
      = Some r /\
    now < r <= now + JsDate.msPerDay /\
    JsDate.getTimeOfDay tza r = h * 3600000 + mi * 60000 /\
    JsDate.Day (JsDate.LocalTime tza r) =
    JsDate.Day (JsDate.LocalTime tza now) +
    (if h * 3600000 + mi * 60000 <=? JsDate.getTimeOfDay tza now
     then 1 else 0).
Proof.
  intros Hz Hy Hh Hmi.
  unfold Notifications.nextOccurrence, JsDate.make_time.
  rewrite !MonthArith.ToInteger_of_Z.
  unfold JsDate.getFullYear, JsDate.getMonth, JsDate.getDate,
    JsDate.getTimeOfDay in *.
  set (D := JsDate.Day (JsDate.LocalTime tza now)) in *.
  destruct (Timestamp.day_fields D) as (HM & HDt & HD).
  set (Y := JsDate.YearFromDay D) in *.
  set (M := JsDate.MonthFromDay D) in *.
  set (Dt := JsDate.DateFromDay D) in *.
  pose proof (Calendar.DaysInMonth_bounds Y M HM) as Hdim.
  rewrite MonthArith.MakeFullYear_late by lia.
  assert (Ht : JsDate.MakeTime h mi 0 0 = h * 3600000 + mi * 60000)
    by (unfold JsDate.MakeTime; lia).
  rewrite Ht. set (target := h * 3600000 + mi * 60000) in *.
  assert (Htr : 0 <= target < JsDate.msPerDay)
    by (unfold target, JsDate.msPerDay; lia).
  rewrite (Calendar.TimeClip_local tza Hz Y M Dt target) by lia.
  rewrite HD.
  assert (HL : JsDate.LocalTime tza now =
               D * JsDate.msPerDay + JsDate.TimeWithinDay (JsDate.LocalTime tza now)).
  { unfold D, JsDate.Day, JsDate.TimeWithinDay, JsDate.msPerDay.
    Z.to_euclidean_division_equations; lia. }
  assert (Hw : 0 <= JsDate.TimeWithinDay (JsDate.LocalTime tza now) < JsDate.msPerDay).
  { unfold JsDate.TimeWithinDay, JsDate.msPerDay.
    Z.to_euclidean_division_equations; lia. }
  set (w := JsDate.TimeWithinDay (JsDate.LocalTime tza now)) in *.
  unfold JsDate.LocalTime in HL.
  destruct (Calendar.local_fields tza D target Htr) as [LD LW].
  destruct (Z.leb_spec (JsDate.UTC tza (JsDate.MakeDate D target)) now)
    as [Hle | Hgt].
  - (* the time has passed today *)
    assert (Htw : target <= w)
      by (unfold JsDate.UTC, JsDate.MakeDate in Hle; lia).
    unfold JsDate.setDate. rewrite MonthArith.ToInteger_of_Z.
    rewrite LD, LW. fold Y M Dt.
    rewrite (Calendar.TimeClip_local tza Hz Y M (Dt + 1) target) by lia.
    assert (HD1 : JsDate.MakeDay Y M (Dt + 1) = D + 1).
    { rewrite <- HD, !(Calendar.MakeDay_in_year Y M) by exact HM. lia. }
    rewrite HD1.
    destruct (Calendar.local_fields tza (D + 1) target Htr) as [LD1 LW1].
    eexists. split; [reflexivity |].
    rewrite LD1, LW1.
    destruct (Z.leb_spec target w); [| lia].
    unfold JsDate.UTC, JsDate.MakeDate, JsDate.msPerDay in *.
    repeat split; lia.
  - assert (Htw : w < target)
      by (unfold JsDate.UTC, JsDate.MakeDate in Hgt; lia).
    eexists. split; [reflexivity |].
    rewrite LD, LW.
    destruct (Z.leb_spec target w); [lia |].
    unfold JsDate.UTC, JsDate.MakeDate, JsDate.msPerDay in *.
    repeat split; lia.
Qed.

Lemma nextOccurrence_next_witness :
  exists r,
    Notifications.nextOccurrence Samples.cet Samples.mid_february
      (JsNumber.of_Z 20) (JsNumber.of_Z 0) = Some r /\
    Samples.mid_february < r <= Samples.mid_february + JsDate.msPerDay /\
    JsDate.getTimeOfDay Samples.cet r = 20 * 3600000 + 0 * 60000 /\
    JsDate.Day (JsDate.LocalTime Samples.cet r) =
    JsDate.Day (JsDate.LocalTime Samples.cet Samples.mid_february) +
    (if 20 * 3600000 + 0 * 60000 <=?
        JsDate.getTimeOfDay Samples.cet Samples.mid_february
     then 1 else 0).
Proof.
  apply (nextOccurrence_next Samples.cet Samples.mid_february 20 0).
  - unfold zone_ok. vm_compute. split; discriminate.
  - vm_compute. split; discriminate.
  - lia.
  - lia.
Defined.

(** X24. For a key of the years 0101 to 9999 the bar chart has six bars:
    the month of the key and the five months before it, the oldest first,
    each labelled with the two digits of its month and valued with the
    total of its expenses. The six labels are different. *)
Theorem barData_six_months (tza : Z) (E : list Expense) (y m : Z) :
  zone_ok tza -> 101 <= y <= 9999 -> 1 <= m <= 12 ->
  exists data,
    Charts.barData tza E (monthKey y m) = Some data /\
    data =
    map (fun j =>
           Charts.mk_bar
             (JsDate.pad 2 ((m - 1 - j) mod 12 + 1))
             (totalSpent (expensesForMonth E (monthsBefore y m j))))
        [5; 4; 3; 2; 1; 0] /\
    monthsBefore y m 0 = monthKey y m /\
    List.NoDup (map Charts.label data).
Proof.
  intros Hz Hy Hm.
  assert (P : forall j, 0 <= j <= 5 ->
            prevMonth tza (monthsBefore y m j) = Some (monthsBefore y m (j + 1)))
    by (intros j Hj; apply Bars.prevMonth_before; [exact Hz | lia ..]).
  assert (S5 : forall j, 0 <= j <= 5 ->
            JsString.slice 5 (monthsBefore y m j) =
            JsDate.pad 2 ((m - 1 - j) mod 12 + 1)).
  { intros j Hj. unfold monthsBefore. cbv zeta.
    rewrite Bars.slice_key by (Z.to_euclidean_division_equations; lia).
    f_equal. Z.to_euclidean_division_equations; lia. }
  eexists. split; [| split; [reflexivity | split]].
  - unfold Charts.barData. rewrite <- (Bars.monthsBefore_0 y m Hm).
    cbn [Charts.bar_months].
    rewrite (P 0) by lia. cbn [mbind option_bind]. change (0 + 1) with 1.
    rewrite (P 1) by lia. cbn [mbind option_bind]. change (1 + 1) with 2.
    rewrite (P 2) by lia. cbn [mbind option_bind]. change (2 + 1) with 3.
    rewrite (P 3) by lia. cbn [mbind option_bind]. change (3 + 1) with 4.
    rewrite (P 4) by lia. cbn [mbind option_bind]. change (4 + 1) with 5.
    rewrite (P 5) by lia. cbn [mbind option_bind]. change (5 + 1) with 6.
    cbn [map]. rewrite !S5 by lia. reflexivity.
  - now apply Bars.monthsBefore_0.
  - cbn [map Charts.label].
    change [JsDate.pad 2 ((m - 1 - 5) mod 12 + 1);
            JsDate.pad 2 ((m - 1 - 4) mod 12 + 1);
            JsDate.pad 2 ((m - 1 - 3) mod 12 + 1);
            JsDate.pad 2 ((m - 1 - 2) mod 12 + 1);
            JsDate.pad 2 ((m - 1 - 1) mod 12 + 1);
            JsDate.pad 2 ((m - 1 - 0) mod 12 + 1)]
      with (map (JsDate.pad 2)
              [(m - 1 - 5) mod 12 + 1; (m - 1 - 4) mod 12 + 1;
               (m - 1 - 3) mod 12 + 1; (m - 1 - 2) mod 12 + 1;
               (m - 1 - 1) mod 12 + 1; (m - 1 - 0) mod 12 + 1]).
    apply List.NoDup_map_NoDup_ForallPairs.
    + intros a b Ha Hb. apply Bars.pad_two_inj.
      * simpl in Ha. Z.to_euclidean_division_equations; lia.
      * simpl in Hb. Z.to_euclidean_division_equations; lia.
    + repeat constructor; simpl; intros H;
        Z.to_euclidean_division_equations; lia.
Qed.

Lemma barData_six_months_witness :
  exists data,
    Charts.barData Samples.cet [Samples.rent] (monthKey 2025 3) = Some data /\
    data =
    map (fun j =>
           Charts.mk_bar
             (JsDate.pad 2 ((3 - 1 - j) mod 12 + 1))
             (totalSpent (expensesForMonth [Samples.rent] (monthsBefore 2025 3 j))))
        [5; 4; 3; 2; 1; 0] /\
    monthsBefore 2025 3 0 = monthKey 2025 3 /\
    List.NoDup (map Charts.label data).
Proof.
  apply (barData_six_months Samples.cet [Samples.rent] 2025 3).
  - unfold zone_ok. vm_compute. split; discriminate.
  - lia.
  - lia.
Defined.

(** X25. With amounts that are not negative, the scale [maxBar] of the
    chart is at least 1 and the height of every bar is between 0 and
    [BAR_H]. *)
Theorem bar_heights_bounded (tza : Z) (E : list Expense) (k : string)
    (data : list Charts.bar) :
  (forall e, In e E -> (0 <= Expense.amount e)%Q) ->
  Charts.barData tza E k = Some data ->
  (1 <= Charts.maxBar data)%Q /\
  forall d, In d data ->
    (0 <= Charts.barHeight (Charts.maxBar data) d)%Q /\
    (Charts.barHeight (Charts.maxBar data) d <= Charts.BAR_H)%Q.
Proof.
  intros Ha Hd. unfold Charts.barData in Hd.
  destruct (Charts.bar_months tza 6 k []) as [months |]; [| discriminate].
  injection Hd as <-.
  destruct (Bars.maxBar_ge
              (map Charts.value
                 (map (fun mk =>
                         Charts.mk_bar (JsString.slice 5 mk)
                           (totalSpent (expensesForMonth E mk))) months)))
    as [H1 H2].
  fold (Charts.maxBar
          (map (fun mk =>
                  Charts.mk_bar (JsString.slice 5 mk)
                    (totalSpent (expensesForMonth E mk))) months)) in H1, H2.
  split; [exact H1 |].
  intros d Hin.
  assert (Hv : (Charts.value d <= Charts.maxBar
                  (map (fun mk =>
                          Charts.mk_bar (JsString.slice 5 mk)
                            (totalSpent (expensesForMonth E mk))) months))%Q)
    by (apply H2, in_map, Hin).
  assert (H0 : (0 <= Charts.value d)%Q).
  { apply in_map_iff in Hin as (mk & <- & _). cbn [Charts.value].
    apply Sums.totalSpent_nonneg. intros e He.
    unfold expensesForMonth in He. apply filter_In in He as [He _].
    now apply Ha. }
  set (M := Charts.maxBar _) in *.
  assert (HM : (0 < M)%Q) by lra.
  unfold Charts.barHeight, Charts.BAR_H. split.
  - apply Qmult_le_0_compat; [| lra].
    apply Qle_shift_div_l; [exact HM | lra].
  - assert (Hq : (Charts.value d / M <= 1)%Q)
      by (apply Qle_shift_div_r; [exact HM | lra]).
    assert (Hq0 : (0 <= Charts.value d / M)%Q)
      by (apply Qle_shift_div_l; [exact HM | lra]).
    nra.
Qed.

Lemma bar_heights_bounded_witness :
  (1 <= Charts.maxBar
          [Charts.mk_bar "10" 0; Charts.mk_bar "11" 0; Charts.mk_bar "12" 0;
           Charts.mk_bar "01" 0; Charts.mk_bar "02" 0;
           Charts.mk_bar "03" (0 + 700)])%Q /\
  forall d,
    In d [Charts.mk_bar "10" 0; Charts.mk_bar "11" 0; Charts.mk_bar "12" 0;
          Charts.mk_bar "01" 0; Charts.mk_bar "02" 0;
          Charts.mk_bar "03" (0 + 700)] ->
    (0 <= Charts.barHeight
            (Charts.maxBar
               [Charts.mk_bar "10" 0; Charts.mk_bar "11" 0; Charts.mk_bar "12" 0;
                Charts.mk_bar "01" 0; Charts.mk_bar "02" 0;
                Charts.mk_bar "03" (0 + 700)]) d)%Q /\
    (Charts.barHeight
       (Charts.maxBar
          [Charts.mk_bar "10" 0; Charts.mk_bar "11" 0; Charts.mk_bar "12" 0;
           Charts.mk_bar "01" 0; Charts.mk_bar "02" 0;
           Charts.mk_bar "03" (0 + 700)]) d <= Charts.BAR_H)%Q.
Proof.
  apply (bar_heights_bounded Samples.cet [Samples.rent] "2025-03").
  - intros e [<- | []]. vm_compute. discriminate.
  - vm_compute. reflexivity.
Defined.

(** X26. The card of a category on the dashboard (the first category of
    its id, amounts not negative, clock in the local years 100 to 9999):
    the rollover label is shown only for a category that rolls over, has
    a positive budget and a positive rollover credit for the previous
    month; the progress bar is between 0 and 100 percent wide, and full
    when the category is over its budget. *)
Theorem category_card (tza : Z) (categories : list Category)
    (expenses : list Expense) (rollovers : RolloverMap) (now : Z)
    (cat : Category) :
  zone_ok tza -> 100 <= JsDate.getFullYear tza now <= 9999 ->
  find (fun c => String.eqb (Category.id c) (Category.id cat)) categories
    = Some cat ->
  (forall e, In e expenses -> (0 <= Expense.amount e)%Q) ->
  exists c prev,
    Dashboard.categoryCard tza categories expenses rollovers now cat = Some c /\
    (currentMonth tza now ≫= prevMonth tza) = Some prev /\
    (Dashboard.hasRollover c = true ->
     Category.rollover cat = true /\ (0 < Category.budget cat)%Q /\
     (0 < computeRollover cat prev expenses rollovers)%Q) /\
    (0 <= Dashboard.width c)%Q /\ (Dashboard.width c <= 100)%Q /\
    (Dashboard.isOver c = true -> (Dashboard.width c == 100)%Q).
Proof.
  intros Hz Hy Hfind Hamt.
  destruct (Budget.previous_of_current tza now Hz ltac:(lia)) as (prev & Hprev).
  unfold Dashboard.categoryCard.
  assert (Hcur : exists month, currentMonth tza now = Some month)
    by (unfold currentMonth; rewrite Budget.format_any by lia; eauto).
  destruct Hcur as (month & Hcur). rewrite Hcur.
  cbn [mbind option_bind].
  set (sp := default 0%Q (totalByCategory (expensesForMonth expenses month)
                           !! Category.id cat)).
  assert (Hsp : (0 <= sp)%Q).
  { unfold sp, totalByCategory.
    destruct (Sums.totals_lookup (Category.id cat)
                (expensesForMonth expenses month) ∅) as [_ H2].
    rewrite H2, lookup_empty. cbn [default from_option].
    assert (0 <= totalSpent
              (List.filter
                 (fun e => String.eqb (Expense.categoryId e) (Category.id cat))
                 (expensesForMonth expenses month)))%Q.
    { apply Sums.totalSpent_nonneg. intros e He.
      apply filter_In in He as [He _]. unfold expensesForMonth in He.
      apply filter_In in He as [He _]. now apply Hamt. }
    lra. }
  unfold effectiveBudget. rewrite Hfind, Hprev.
  assert (Hprev' : prevMonth tza month = Some prev)
    by (rewrite Hcur in Hprev; exact Hprev).
  destruct (Qeq_bool (Category.budget cat) 0) eqn:Hb0.
  - (* no budget *)
    apply Qeq_bool_iff in Hb0.
    eexists _, prev. split; [reflexivity |]. split; [exact Hprev' |].
    cbn [Dashboard.hasRollover Dashboard.budget Dashboard.width Dashboard.isOver].
    assert (Hl0 : less 0 0 = false) by reflexivity.
    rewrite Hl0. cbn [andb].
    assert (Hl1 : less 0 (Category.budget cat) = false).
    { destruct (less 0 (Category.budget cat)) eqn:E; [| reflexivity].
      apply Amounts.less_lt in E. rewrite Hb0 in E. discriminate. }
    rewrite Hl1, andb_false_r. cbn [andb].
    repeat split; discriminate.
  - cbn [mbind option_bind].
    eexists _, prev. split; [reflexivity |]. split; [exact Hprev' |].
    cbn [Dashboard.hasRollover Dashboard.budget Dashboard.width Dashboard.isOver].
    split; [| split; [| split]].
    + rewrite !andb_true_iff, !Amounts.less_lt.
      intros [[H1 H2] H3]. repeat split; [exact H1 | exact H2 | lra].
    + destruct (less 0 (Category.budget cat + computeRollover cat prev expenses rollovers)) eqn:Hhb.
      * apply Amounts.less_lt in Hhb.
        apply Q.min_glb; [| discriminate].
        apply Qmult_le_0_compat; [| discriminate].
        apply Qle_shift_div_l; [exact Hhb | lra].
      * apply Q.min_glb; discriminate.
    + apply Q.le_min_r.
    + intros Hover. apply andb_true_iff in Hover as [Hhb Hov].
      rewrite Hhb. apply Amounts.less_lt in Hhb, Hov.
      apply Q.min_r.
      assert (1 <= sp / (Category.budget cat + computeRollover cat prev expenses rollovers))%Q
        by (apply Qle_shift_div_l; [exact Hhb | lra]).
      lra.
Qed.

Lemma category_card_witness :
  exists c prev,
    Dashboard.categoryCard Samples.cet [Samples.food] [Samples.groceries] ∅
      Samples.mid_february Samples.food = Some c /\
    (currentMonth Samples.cet Samples.mid_february ≫= prevMonth Samples.cet)
      = Some prev /\
    (Dashboard.hasRollover c = true ->
     Category.rollover Samples.food = true /\
     (0 < Category.budget Samples.food)%Q /\
     (0 < computeRollover Samples.food prev [Samples.groceries] ∅)%Q) /\
    (0 <= Dashboard.width c)%Q /\ (Dashboard.width c <= 100)%Q /\
    (Dashboard.isOver c = true -> (Dashboard.width c == 100)%Q).
Proof.
  apply (category_card Samples.cet [Samples.food] [Samples.groceries] ∅
           Samples.mid_february Samples.food).
  - unfold zone_ok. vm_compute. split; discriminate.
  - vm_compute. split; discriminate.
  - reflexivity.
  - intros e [<- | []]. vm_compute. discriminate.
Defined.

(** X27. The donut of a month whose expenses have amounts that are not
    negative: there is no slice when the total is 0, and otherwise one
    slice for each category of the list with spending above 0, in the
    order of the list; the first slice begins at -90 degrees, every
    other one at the angle where the one before it ends, no slice ends
    before it begins, and no share is below 0 or above 1. *)
Theorem donut_slices (categories : list Category) (expenses : list Expense)
    (key : string) :
  let E := expensesForMonth expenses key in
  (forall e, In e E -> (0 <= Expense.amount e)%Q) ->
  let sl := Charts.slices categories (totalByCategory E) (totalSpent E) in
  map Charts.cat sl =
    (if Qeq_bool (totalSpent E) 0 then []
     else List.filter
            (fun c => less 0 (default 0%Q (totalByCategory E !! Category.id c)))
            categories) /\
  (forall s rest, sl = s :: rest -> Charts.startAngle s = (-90)%Q) /\
  (forall s1 s2 l1 l2, sl = l1 ++ s1 :: s2 :: l2 ->
     Charts.startAngle s2 = Charts.endAngle s1) /\
  (forall s, In s sl ->
     (Charts.startAngle s <= Charts.endAngle s)%Q /\
     (0 <= Charts.pct s)%Q /\ (Charts.pct s <= 1)%Q).
Proof.
  intros E Hamt. cbv zeta. unfold Charts.slices.
  destruct (Qeq_bool (totalSpent E) 0) eqn:Hq.
  { split; [reflexivity |]. split; [intros s rest H; discriminate |].
    split; [intros s1 s2 [| x l1] l2 H; discriminate | intros s []]. }
  assert (Htot : ~ (totalSpent E == 0)%Q)
    by (intros H; apply Qeq_bool_iff in H; congruence).
  assert (Hpos : (0 < totalSpent E)%Q).
  { pose proof (Sums.totalSpent_nonneg E Hamt) as H0.
    destruct (Qlt_le_dec 0 (totalSpent E)) as [H | H]; [exact H |].
    exfalso. apply Htot. now apply Qle_antisym. }
  split; [apply Donut.slices_cats |]. split; [| split].
  - intros s rest H.
    destruct (List.filter _ categories) as [| c cats]; [discriminate |].
    cbn [Charts.slices_from] in H. now injection H as <- _.
  - intros s1 s2 l1 l2 H. exact (Donut.slices_chain _ _ _ _ _ _ _ _ H).
  - intros s Hs.
    destruct (Donut.slices_share _ _ _ _ _ Hs) as (Hp & He).
    assert (H0 : (0 <= default 0%Q
                        (totalByCategory E !! Category.id (Charts.cat s)))%Q).
    { rewrite Donut.spent_of. apply Sums.totalSpent_nonneg.
      intros e He'. apply filter_In in He' as [He' _]. now apply Hamt. }
    assert (H1 : (default 0%Q (totalByCategory E !! Category.id (Charts.cat s))
                  <= totalSpent E)%Q).
    { rewrite Donut.spent_of. now apply Donut.totalSpent_filter_le. }
    assert (Hp0 : (0 <= Charts.pct s)%Q)
      by (rewrite Hp; apply Qle_shift_div_l; [exact Hpos | lra]).
    split; [rewrite He; lra |]. split; [exact Hp0 |].
    rewrite Hp. apply Qle_shift_div_r; [exact Hpos | lra].
Qed.

Lemma donut_slices_witness :
  let E := expensesForMonth [Samples.lunch; Samples.groceries; Samples.rent]
             "2025-03" in
  let sl := Charts.slices [Samples.housing; Samples.food] (totalByCategory E)
              (totalSpent E) in
  map Charts.cat sl =
    (if Qeq_bool (totalSpent E) 0 then []
     else List.filter
            (fun c => less 0 (default 0%Q (totalByCategory E !! Category.id c)))
            [Samples.housing; Samples.food]) /\
  (forall s rest, sl = s :: rest -> Charts.startAngle s = (-90)%Q) /\
  (forall s1 s2 l1 l2, sl = l1 ++ s1 :: s2 :: l2 ->
     Charts.startAngle s2 = Charts.endAngle s1) /\
  (forall s, In s sl ->
     (Charts.startAngle s <= Charts.endAngle s)%Q /\
     (0 <= Charts.pct s)%Q /\ (Charts.pct s <= 1)%Q).
Proof.
  apply (donut_slices [Samples.housing; Samples.food]
           [Samples.lunch; Samples.groceries; Samples.rent] "2025-03").
  intros e He. vm_compute in He. destruct He as [<- | [<- | []]];
    vm_compute; discriminate.
Defined.

(** X28. East of UTC (offset above 0, up to 24 h) the same holds when
    every template has a day of the month from 2 on: the entries
    generated for a month of the years 0100 to 9999 are found under the key
    of that month, and a second run after they are stored generates
    nothing. (A template of day 1 is the case in which it fails.) *)
Theorem second_run_empty_from_day_two (tza : Z) (E : list Expense) (y m : Z)
    (out : list Expense) :
  0 < tza <= JsDate.msPerDay -> 100 <= y <= 9999 -> 1 <= m <= 12 ->
  (forall t r, In t E -> isTemplate t = true ->
               Expense.recurringDayOfMonth t = Some r -> 2 <= r) ->
  generateRecurringForMonth tza E (monthKey y m) = Some out ->
  expensesForMonth out (monthKey y m) = out /\
  generateRecurringForMonth tza (E ++ out) (monthKey y m) = Some [].
Proof.
  intros Hz Hy Hm Hdays Hgen.
  assert (Hzone : zone_ok tza) by (unfold zone_ok, JsDate.msPerDay in *; lia).
  assert (Hdays1 : forall t r, In t E -> isTemplate t = true ->
            Expense.recurringDayOfMonth t = Some r -> 1 <= r)
    by (intros t r Hin Ht Hr; specialize (Hdays t r Hin Ht Hr); lia).
  assert (Hmonth : forall e, In e out ->
            JsString.startsWith (Expense.date e) (monthKey y m) = true).
  { pose proof Hgen as Hout.
    rewrite (Generator.generate_valid tza E y m Hzone Hy Hm Hdays1) in Hout.
    injection Hout as <-.
    pose proof (Calendar.DaysInMonth_bounds y (m - 1) ltac:(lia)) as Hdim.
    intros e He. apply in_map_iff in He as (t & <- & Ht).
    apply filter_In in Ht as [Ht _]. apply filter_In in Ht as [Hin Ht].
    destruct (Generator.isTemplate_day t Ht) as (_ & r & Hr).
    unfold recurringInstance. rewrite Hr.
    cbn [Expense.date default from_option id].
    apply SecondRun.iso_in_month_east; try lia.
    specialize (Hdays t r Hin Ht Hr). lia. }
  split.
  - now apply Generator.filter_every.
  - exact (SecondRun.second_run_empty_if tza E y m out Hzone Hy Hm Hdays1
             Hgen Hmonth).
Qed.

Lemma second_run_empty_from_day_two_witness :
  expensesForMonth
    [Expense.mk "a1_2025-02" "catA" (999 # 100) "gym"
       "2025-02-04T23:00:00.000Z" true (Some 5)] (monthKey 2025 2) =
    [Expense.mk "a1_2025-02" "catA" (999 # 100) "gym"
       "2025-02-04T23:00:00.000Z" true (Some 5)] /\
  generateRecurringForMonth Samples.cet
    ([Samples.gymA] ++
     [Expense.mk "a1_2025-02" "catA" (999 # 100) "gym"
        "2025-02-04T23:00:00.000Z" true (Some 5)]) (monthKey 2025 2) = Some [].
Proof.
  apply (second_run_empty_from_day_two Samples.cet [Samples.gymA] 2025 2).
  - vm_compute. split; [reflexivity | discriminate].
  - lia.
  - lia.
  - intros t r [<- | []] _ Hd. injection Hd as <-. lia.
  - vm_compute. reflexivity.
Defined.
